(** * TennisSage: the analysis-orchestration pipeline

    A shallow embedding of the server-side prediction pipeline
    (server/services/agentOrchestrator.ts, the agent classes under
    server/agents/ and the prediction accessors of server/storage.ts),
    followed by the properties the design document states about it and by
    further properties of the same code: the whole run of [analyzeMatch] and
    of the analyze endpoint, the helper functions of the agents, the
    WebSocket relay of server/routes.ts and the completion client of
    server/services/openai.ts.

    Conventions of the embedding.
    - A JavaScript value of type [any] is a [Js.val]; objects keep their
      properties in insertion order.
    - JavaScript numbers are exact rationals ([Q]).  The pipeline only
      combines small integer counts with decimal constants, so no rounding
      is modelled; [NaN] and the infinities do not occur.  The helper
      functions of the agents are read over exact rationals as well, with
      [Qfloor] for [Math.floor].
    - An [async] function that may reject is a function into [Res]; the
      external collaborators (completion client, relational store, clock,
      random numbers) are explicit arguments.
    - Strings are [string]s of bytes; the pattern matching of the agents only
      inspects ASCII characters. *)

From Stdlib Require Import ZArith QArith Qminmax Qabs Qround Lia Lqa String Ascii
  DecimalString.
From stdpp Require Import base gmap strings list.

Open Scope string_scope.

(** ** Outcomes of fallible (throwing / rejecting) code *)

Inductive Res (A : Type) : Type :=
| Ok (a : A)
| Throw (message : string).

Arguments Ok {A} a.
Arguments Throw {A} message.

Definition bindRes {A B : Type} (r : Res A) (k : A -> Res B) : Res B :=
  match r with
  | Ok a => k a
  | Throw e => Throw e
  end.

(** [try { body } catch (error) { handler }] *)
Definition tryCatch {A : Type} (body : Res A) (handler : string -> A) : A :=
  match body with
  | Ok a => a
  | Throw e => handler e
  end.

Declare Scope res_scope.
Delimit Scope res_scope with res.
Notation "x <- r ;; k" := (bindRes r (fun x => k))
  (at level 100, r at next level, right associativity) : res_scope.

(** ** Dynamically typed values *)

Module Js.

#[local] Unset Elimination Schemes.
Inductive val : Type :=
| VUndefined
| VNull
| VBool (b : bool)
| VNum (q : Q)
| VStr (s : string)
| VArr (elements : list val)
| VObj (properties : list (string * val)).

#[local] Set Elimination Schemes.

(** ToBoolean: [undefined], [null], [false], [0] and [""] are falsy. *)
Definition truthy (v : val) : bool :=
  match v with
  | VUndefined | VNull => false
  | VBool b => b
  | VNum q => negb (Qeq_bool q 0)
  | VStr s => negb (String.eqb s "")
  | VArr _ | VObj _ => true
  end.

(** [a || b] *)
Definition or (a b : val) : val := if truthy a then a else b.

Fixpoint lookupProp (k : string) (ps : list (string * val)) : val :=
  match ps with
  | [] => VUndefined
  | (k', v) :: ps' => if String.eqb k k' then v else lookupProp k ps'
  end.

(** [v.k] for a value [v] that is neither [undefined] nor [null]. *)
Definition get (v : val) (k : string) : val :=
  match v with
  | VObj ps => lookupProp k ps
  | _ => VUndefined
  end.

(** [v === "s"] *)
Definition isStr (v : val) (s : string) : bool :=
  match v with
  | VStr t => String.eqb t s
  | _ => false
  end.

(** [v] is the number [q]. *)
Definition isNum (v : val) (q : Q) : Prop :=
  match v with
  | VNum x => x == q
  | _ => False
  end.


End Js.

Import Js.

(** [`${n}`] for a non-negative integer [n]. *)
Definition natToString (n : nat) : string := NilZero.string_of_uint (Nat.to_uint n).

(** ** The rows the pipeline reads (shared/schema.ts) *)

Module Player.
Record t : Type := mk { id : string; name : string }.
End Player.

Module Match.
Record t : Type := mk {
  id : string;
  player1Id : string;
  player2Id : string;
  surface : string
}.
End Match.

(** ** Synthesizer (agentOrchestrator.ts, synthesizePrediction) *)

Record FactorAnalysis : Type := mkFactorAnalysis {
  factor : val;
  conclusion : val;
  advantage : val;
  confidence : val;
  reasoning : val
}.

Record AnalysisResult : Type := mkAnalysisResult {
  predictedWinnerId : string;
  winProbability : val;
  confidenceLevel : val;
  factorAnalysis : list FactorAnalysis;
  analysisReasoning : val;
  agentContributions : list (string * val)
}.

(** The JSON answer of [openAIService.generatePrediction]. *)
Record AiPrediction : Type := mkAiPrediction {
  predictedWinner : val;
  aiWinProbability : val;
  aiConfidenceLevel : val;
  aiReasoning : val
}.

(** The body of the inner [results.forEach] callback: a result without a
    truthy conclusion is skipped, missing fields get their defaults. *)
Definition compileFactor (category : string) (result : val) : list FactorAnalysis :=
  if truthy result && truthy (get result "conclusion") then
    [ {| factor := or (get result "factor") (VStr category);
         conclusion := get result "conclusion";
         advantage := or (get result "advantage") (VStr "none");
         confidence := or (get result "confidence") (VNum 0.5);
         reasoning := or (get result "reasoning") (VStr "") |} ]
  else [].

(** [Object.entries(analysisResults).forEach(...)]: groups in insertion order,
    non-array groups are ignored. *)
Definition compileFactorAnalyses (analysisResults : list (string * val)) : list FactorAnalysis :=
  flat_map (fun entry : string * val =>
              match snd entry with
              | VArr results => flat_map (compileFactor (fst entry)) results
              | _ => []
              end) analysisResults.

Definition favorsPlayer1 (fa : FactorAnalysis) : bool :=
  isStr (advantage fa) "player1" || isStr (advantage fa) "slight_player1".

Definition favorsPlayer2 (fa : FactorAnalysis) : bool :=
  isStr (advantage fa) "player2" || isStr (advantage fa) "slight_player2".

(** The [catch] branch: simple majority vote. *)
Definition fallbackPrediction (player1 player2 : Player.t)
    (analysisResults : list (string * val))
    (factorAnalyses : list FactorAnalysis) : AnalysisResult :=
  let player1Advantages := length (List.filter favorsPlayer1 factorAnalyses) in
  let player2Advantages := length (List.filter favorsPlayer2 factorAnalyses) in
  let predictedWinnerId :=
    if (player2Advantages <? player1Advantages)%nat
    then Player.id player1 else Player.id player2 in
  let winProbability :=
    Qmax 0.5 (Qmin 0.9
      (0.5 + Qabs (inject_Z (Z.of_nat player1Advantages - Z.of_nat player2Advantages)) * 0.05)) in
  {| predictedWinnerId := predictedWinnerId;
     winProbability := VNum winProbability;
     confidenceLevel := VNum 0.75;
     factorAnalysis := factorAnalyses;
     analysisReasoning :=
       VStr ("Based on factor analysis: " ++ natToString player1Advantages
             ++ " factors favor " ++ Player.name player1 ++ ", "
             ++ natToString player2Advantages ++ " factors favor "
             ++ Player.name player2
             ++ ". Prediction made using fallback majority vote system.");
     agentContributions := analysisResults |}.

(** [generatePrediction] is the outcome of the call
    [openAIService.generatePrediction(synthesisPrompt)] of the primary path (the
    prompt only feeds that call).  [OpenAIService] (services/openai.ts) has no
    method of that name, so in the sources the call itself throws; every
    outcome is covered here. *)
Definition synthesizePrediction (generatePrediction : Res AiPrediction)
    (player1 player2 : Player.t)
    (analysisResults : list (string * val)) : AnalysisResult :=
  let factorAnalyses := compileFactorAnalyses analysisResults in
  tryCatch
    (aiResponse <- generatePrediction ;;
     Ok {| predictedWinnerId :=
             if isStr (predictedWinner aiResponse) "player1"
             then Player.id player1 else Player.id player2;
           winProbability := aiWinProbability aiResponse;
           confidenceLevel := aiConfidenceLevel aiResponse;
           factorAnalysis := factorAnalyses;
           analysisReasoning := aiReasoning aiResponse;
           agentContributions := analysisResults |})%res
    (fun _ => fallbackPrediction player1 player2 analysisResults factorAnalyses).

(** ** Regular expressions (the fragment the agents use)

    A backtracking matcher in continuation-passing style, as the language
    standard describes [RegExp.prototype.exec]: a matcher takes the remaining
    input and the captures so far and hands both to its continuation;
    a disjunction tries its right side when the left side, followed by the
    continuation, fails. *)

Module RegExp.

Inductive re : Type :=
| Empty
| Char (c : ascii)
| Digit
| Class (cs : list ascii)
| Seq (r1 r2 : re)
| Alt (r1 r2 : re)
| Group (n : nat) (r : re).

(** A run of pattern characters. *)
Fixpoint lit (w : string) : re :=
  match w with
  | EmptyString => Empty
  | String c w' => Seq (Char c) (lit w')
  end.

Definition isLower (c : ascii) : bool :=
  (97 <=? nat_of_ascii c)%nat && (nat_of_ascii c <=? 122)%nat.

Definition isDigit (c : ascii) : bool :=
  (48 <=? nat_of_ascii c)%nat && (nat_of_ascii c <=? 57)%nat.

Definition toUpper (c : ascii) : ascii :=
  if isLower c then ascii_of_nat (nat_of_ascii c - 32) else c.

(** Canonicalize: with the [i] flag characters are compared after upper-casing;
    a non-ASCII character never folds to an ASCII one. *)
Definition canonicalize (ignoreCase : bool) (c : ascii) : ascii :=
  if ignoreCase then toUpper c else c.

Definition captures : Type := list (nat * string).

Fixpoint capture (n : nat) (caps : captures) : option string :=
  match caps with
  | [] => None
  | (m, text) :: caps' => if (n =? m)%nat then Some text else capture n caps'
  end.

(** The first [n] characters of [s]. *)
Fixpoint take (n : nat) (s : string) : string :=
  match n, s with
  | S n', String c s' => String c (take n' s')
  | _, _ => EmptyString
  end.

(** What was consumed between the input [s] and its suffix [s']. *)
Definition consumed (s s' : string) : string :=
  take (String.length s - String.length s') s.

Fixpoint matchRe {X : Type} (ignoreCase : bool) (r : re) (s : string) (caps : captures)
    (k : string -> captures -> option X) : option X :=
  match r with
  | Empty => k s caps
  | Char c =>
      match s with
      | String d s' =>
          if Ascii.eqb (canonicalize ignoreCase c) (canonicalize ignoreCase d)
          then k s' caps else None
      | EmptyString => None
      end
  | Digit =>
      match s with
      | String d s' => if isDigit d then k s' caps else None
      | EmptyString => None
      end
  | Class cs =>
      match s with
      | String d s' =>
          if existsb (fun c => Ascii.eqb (canonicalize ignoreCase c)
                                         (canonicalize ignoreCase d)) cs
          then k s' caps else None
      | EmptyString => None
      end
  | Seq r1 r2 =>
      matchRe ignoreCase r1 s caps (fun s' caps' => matchRe ignoreCase r2 s' caps' k)
  | Alt r1 r2 =>
      match matchRe ignoreCase r1 s caps k with
      | Some x => Some x
      | None => matchRe ignoreCase r2 s caps k
      end
  | Group n r =>
      matchRe ignoreCase r s caps (fun s' caps' => k s' ((n, consumed s s') :: caps'))
  end.

(** The match array: [whole] is element 0. *)
Record MatchArray : Type := mkMatchArray {
  whole : string;
  groups : captures
}.

Definition matchAt (ignoreCase : bool) (r : re) (s : string) : option MatchArray :=
  matchRe ignoreCase r s []
    (fun s' caps => Some {| whole := consumed s s'; groups := caps |}).

(** [s.match(r)] for a regular expression without the [g] flag: the match at
    the leftmost index at which the pattern matches, the end of the input
    included. *)
Fixpoint exec (ignoreCase : bool) (r : re) (s : string) : option MatchArray :=
  match matchAt ignoreCase r s with
  | Some m => Some m
  | None =>
      match s with
      | EmptyString => None
      | String _ s' => exec ignoreCase r s'
      end
  end.

End RegExp.

(** [s.startsWith(w)] *)
Fixpoint startsWith (s w : string) : bool :=
  match w, s with
  | EmptyString, _ => true
  | String c w', String d s' => Ascii.eqb c d && startsWith s' w'
  | String _ _, EmptyString => false
  end.

(** [s.includes(w)] *)
Fixpoint includes (s w : string) : bool :=
  startsWith s w ||
  match s with
  | EmptyString => false
  | String _ s' => includes s' w
  end.

(** ** Advantage extraction (private [extractAdvantage] of each agent class) *)

Module Advantage.
Record t : Type := mk { player : string; conclusion : string }.
End Advantage.

(** [a || b] on possibly undefined strings *)
Definition orUndefined (a b : option string) : option string :=
  match a with
  | Some (String _ _) => a
  | _ => b
  end.

(** [`${v}`] for a possibly undefined string *)
Definition template (v : option string) : string :=
  match v with
  | Some s => s
  | None => "undefined"
  end.

Definition playerGroup (n : nat) : RegExp.re :=
  RegExp.Group n (RegExp.Alt RegExp.Digit (RegExp.Class ["1"; "2"]%char)).

(** [/\*\*Advantage Player (\d|[12])\*\*|\*\*Slight Advantage Player (\d|[12])\*\*|\*\*No Clear Advantage\*\*/i]
    (statistical, physical-condition and match-up agents) *)
Definition advantagePattern : RegExp.re :=
  RegExp.Alt
    (RegExp.Seq (RegExp.lit "**Advantage Player ")
                (RegExp.Seq (playerGroup 1) (RegExp.lit "**")))
    (RegExp.Alt
       (RegExp.Seq (RegExp.lit "**Slight Advantage Player ")
                   (RegExp.Seq (playerGroup 2) (RegExp.lit "**")))
       (RegExp.lit "**No Clear Advantage**")).

Definition noClearAdvantage : Advantage.t :=
  {| Advantage.player := "none"; Advantage.conclusion := "No Clear Advantage" |}.

Definition extractAdvantage (analysis : string) : Advantage.t :=
  match RegExp.exec true advantagePattern analysis with
  | Some advantageMatch =>
      if includes (RegExp.whole advantageMatch) "No Clear" then noClearAdvantage
      else
        let playerNum :=
          orUndefined (RegExp.capture 1 (RegExp.groups advantageMatch))
                      (RegExp.capture 2 (RegExp.groups advantageMatch)) in
        let isSlight := includes (RegExp.whole advantageMatch) "Slight" in
        {| Advantage.player := "player" ++ template playerNum;
           Advantage.conclusion :=
             (if isSlight then "Slight " else "") ++ "Advantage Player "
             ++ template playerNum |}
  | None => noClearAdvantage
  end.

(** [/\*\*Advantage Player (\d|[12])\*\*|\*\*No Clear Advantage\*\*/i]
    (surface and environment agents) *)
Definition surfaceAdvantagePattern : RegExp.re :=
  RegExp.Alt
    (RegExp.Seq (RegExp.lit "**Advantage Player ")
                (RegExp.Seq (playerGroup 1) (RegExp.lit "**")))
    (RegExp.lit "**No Clear Advantage**").

Definition extractAdvantageSurface (analysis : string) : Advantage.t :=
  match RegExp.exec true surfaceAdvantagePattern analysis with
  | Some advantageMatch =>
      if includes (RegExp.whole advantageMatch) "No Clear" then noClearAdvantage
      else
        let playerNum := RegExp.capture 1 (RegExp.groups advantageMatch) in
        {| Advantage.player := "player" ++ template playerNum;
           Advantage.conclusion := "Advantage Player " ++ template playerNum |}
  | None => noClearAdvantage
  end.

(** [/\*\*Advantage Player (\d|[12])\*\*|\*\*No Clear Advantage\*\*|\*\*No Significant/i]
    (contextual agents) *)
Definition contextualAdvantagePattern : RegExp.re :=
  RegExp.Alt
    (RegExp.Seq (RegExp.lit "**Advantage Player ")
                (RegExp.Seq (playerGroup 1) (RegExp.lit "**")))
    (RegExp.Alt (RegExp.lit "**No Clear Advantage**")
                (RegExp.lit "**No Significant")).

Definition extractAdvantageContextual (analysis : string) : Advantage.t :=
  match RegExp.exec true contextualAdvantagePattern analysis with
  | Some advantageMatch =>
      if includes (RegExp.whole advantageMatch) "No" then noClearAdvantage
      else
        let playerNum := RegExp.capture 1 (RegExp.groups advantageMatch) in
        {| Advantage.player := "player" ++ template playerNum;
           Advantage.conclusion := "Advantage Player " ++ template playerNum |}
  | None =>
      {| Advantage.player := "none"; Advantage.conclusion := "No Significant Factors" |}
  end.

(** ** Analysis task functions (server/agents/)

    Every task function has the same shape:
    [const startTime = Date.now(); try { ... return record } catch (error)
    { console.error(...); return errorRecord }]. *)

Module Result.
Record t : Type := mk {
  agentName : string;
  factor : string;
  conclusion : string;
  advantage : string;
  confidence : Q;
  reasoning : string;
  analysis : val;
  processingTime : Z
}.
End Result.

(** The record as the orchestrator, which types it [any], sees it. *)
Definition toJs (r : Result.t) : val :=
  VObj [ ("agentName", VStr (Result.agentName r));
         ("factor", VStr (Result.factor r));
         ("conclusion", VStr (Result.conclusion r));
         ("advantage", VStr (Result.advantage r));
         ("confidence", VNum (Result.confidence r));
         ("reasoning", VStr (Result.reasoning r));
         ("analysis", Result.analysis r);
         ("processingTime", VNum (inject_Z (Result.processingTime r))) ].

(** What the data-gathering prefix of an AI-backed task hands on: the
    [analysisData] object and the confidence its [calculate...Confidence]
    helper derives from the same statistics. *)
Record Gathered : Type := mkGathered {
  analysisData : val;
  gatheredConfidence : Q
}.

(** What the computations of a task that does not call the completion client
    hand on. *)
Record Derived : Type := mkDerived {
  derivedAdvantage : string;
  derivedWinner : string;
  derivedConfidence : Q;
  derivedReasoning : string;
  derivedAnalysis : val
}.

(** The collaborators of the task functions.  [complete factor data] is
    [openAIService.analyzeFactorWithSpecializedPrompt(factor, data, prompt)]:
    the reply, or a rejection.  [gather] and [derive] are, per agent name, the
    outcome of the statistics gathering (storage queries, placeholder random
    statistics, news insights), which may throw as well.  [random playerId i]
    is the [i]-th draw of [Math.random()] while the placeholder statistics of
    a player are made up.  [elapsed] is [Date.now() - startTime]. *)
Record World : Type := mkWorld {
  complete : string -> val -> Res string;
  gather : string -> Res Gathered;
  derive : string -> Res Derived;
  random : string -> nat -> Q;
  elapsed : Z
}.

(** The constant part of a task function: its labels, the factor name it
    passes to the completion client, and the record of its [catch] block. *)
Record Task : Type := mkTask {
  taskAgentName : string;
  taskFactor : string;
  promptFactor : string;
  errorConclusion : string;
  errorConfidence : Q;
  errorReasoning : string;
  errorAnalysis : val
}.

Definition errorRecord (w : World) (t : Task) : Result.t :=
  {| Result.agentName := taskAgentName t;
     Result.factor := taskFactor t;
     Result.conclusion := errorConclusion t;
     Result.advantage := "none";
     Result.confidence := errorConfidence t;
     Result.reasoning := errorReasoning t;
     Result.analysis := errorAnalysis t;
     Result.processingTime := elapsed w |}.

(** The [try] block of an AI-backed task. *)
Definition aiBody (w : World) (t : Task) (extract : string -> Advantage.t)
    (gathered : Res Gathered) : Res Result.t :=
  (g <- gathered ;;
   aiAnalysis <- complete w (promptFactor t) (analysisData g) ;;
   let advantage := extract aiAnalysis in
   Ok {| Result.agentName := taskAgentName t;
         Result.factor := taskFactor t;
         Result.conclusion := Advantage.conclusion advantage;
         Result.advantage := Advantage.player advantage;
         Result.confidence := gatheredConfidence g;
         Result.reasoning := aiAnalysis;
         Result.analysis := analysisData g;
         Result.processingTime := elapsed w |})%res.

Definition aiTaskWith (w : World) (t : Task) (extract : string -> Advantage.t)
    (gathered : Res Gathered) : Result.t :=
  tryCatch (aiBody w t extract gathered) (fun _ => errorRecord w t).

Definition aiTask (w : World) (t : Task) (extract : string -> Advantage.t) : Result.t :=
  aiTaskWith w t extract (gather w (taskAgentName t)).

(** The [try] block of a recent-performance task. *)
Definition derivedBody (w : World) (t : Task) : Res Result.t :=
  (d <- derive w (taskAgentName t) ;;
   Ok {| Result.agentName := taskAgentName t;
         Result.factor := taskFactor t;
         Result.conclusion :=
           if String.eqb (derivedAdvantage d) "none" then "No Clear Advantage"
           else "Advantage " ++ derivedWinner d;
         Result.advantage := derivedAdvantage d;
         Result.confidence := derivedConfidence d;
         Result.reasoning := derivedReasoning d;
         Result.analysis := derivedAnalysis d;
         Result.processingTime := elapsed w |})%res.

Definition derivedTask (w : World) (t : Task) : Result.t :=
  tryCatch (derivedBody w t) (fun _ => errorRecord w t).

Definition emptyObject : val := VObj [].

(** *** RecentPerformanceAgents *)

Definition recentMatches : Task :=
  {| taskAgentName := "Recent Matches Analyst";
     taskFactor := "Factor 1.1 (Recent Match Results)";
     promptFactor := "";
     errorConclusion := "Analysis Error - Insufficient Data";
     errorConfidence := 0.0;
     errorReasoning := "Unable to analyze recent form due to data limitations.";
     errorAnalysis := emptyObject |}.

Definition momentum : Task :=
  {| taskAgentName := "Momentum Analyst";
     taskFactor := "Factor 1.2 (Momentum & Consistency)";
     promptFactor := "";
     errorConclusion := "Analysis Error - Insufficient Data";
     errorConfidence := 0.0;
     errorReasoning := "Unable to analyze momentum due to data limitations.";
     errorAnalysis := emptyObject |}.

Definition clutchPerformance : Task :=
  {| taskAgentName := "Clutch Performance Analyst";
     taskFactor := "Factor 1.3 (Clutch Moments Recently)";
     promptFactor := "";
     errorConclusion := "Analysis Error - Insufficient Data";
     errorConfidence := 0.0;
     errorReasoning := "Unable to analyze clutch performance due to data limitations.";
     errorAnalysis := emptyObject |}.

Definition analyzeRecentMatches (w : World) (m : Match.t) (player1 player2 : Player.t) : Result.t :=
  derivedTask w recentMatches.

Definition analyzeMomentum (w : World) (m : Match.t) (player1 player2 : Player.t) : Result.t :=
  derivedTask w momentum.

Definition analyzeClutchPerformance (w : World) (m : Match.t) (player1 player2 : Player.t) : Result.t :=
  derivedTask w clutchPerformance.

(** *** SurfaceEnvironmentAgents *)

Definition surfaceSuitability : Task :=
  {| taskAgentName := "Surface Suitability Analyst";
     taskFactor := "Factor 2.1 (Surface Fit)";
     promptFactor := "Surface Suitability";
     errorConclusion := "Analysis Error";
     errorConfidence := 0.0;
     errorReasoning := "Unable to analyze surface suitability due to data limitations.";
     errorAnalysis := emptyObject |}.

Definition environment : Task :=
  {| taskAgentName := "Environment Analyst";
     taskFactor := "Factor 2.2 (Conditions & Acclimatization)";
     promptFactor := "Environmental Conditions";
     errorConclusion := "No Clear Advantage";
     errorConfidence := 0.5;
     errorReasoning := "Environmental conditions appear neutral for both players.";
     errorAnalysis := emptyObject |}.

Definition analyzeSurfaceSuitability (w : World) (m : Match.t) (player1 player2 : Player.t) : Result.t :=
  aiTask w surfaceSuitability extractAdvantageSurface.

Definition analyzeEnvironment (w : World) (m : Match.t) (player1 player2 : Player.t) : Result.t :=
  aiTask w environment extractAdvantageSurface.

(** *** StatisticalAgents *)

Definition servePerformance : Task :=
  {| taskAgentName := "Service Performance Analyst";
     taskFactor := "Factor 3.1 (Serve Performance)";
     promptFactor := "Serve Performance";
     errorConclusion := "Analysis Error";
     errorConfidence := 0.0;
     errorReasoning := "Unable to analyze serve performance due to data limitations.";
     errorAnalysis := emptyObject |}.

Definition returnPerformance : Task :=
  {| taskAgentName := "Return Performance Analyst";
     taskFactor := "Factor 3.2 (Return Performance)";
     promptFactor := "Return Performance";
     errorConclusion := "Analysis Error";
     errorConfidence := 0.0;
     errorReasoning := "Unable to analyze return performance due to data limitations.";
     errorAnalysis := emptyObject |}.

Definition rallyPatterns : Task :=
  {| taskAgentName := "Rally & Point Construction Analyst";
     taskFactor := "Factor 3.3 (Rally Patterns)";
     promptFactor := "Rally Patterns";
     errorConclusion := "Analysis Error";
     errorConfidence := 0.0;
     errorReasoning := "Unable to analyze rally patterns due to data limitations.";
     errorAnalysis := emptyObject |}.

Definition pressurePerformance : Task :=
  {| taskAgentName := "Pressure Statistics Analyst";
     taskFactor := "Factor 3.4 (Clutch Performance 52-week)";
     promptFactor := "Pressure Performance";
     errorConclusion := "Analysis Error";
     errorConfidence := 0.0;
     errorReasoning := "Unable to analyze pressure performance due to data limitations.";
     errorAnalysis := emptyObject |}.

Definition statisticalTrends : Task :=
  {| taskAgentName := "Statistical Trend Analyst";
     taskFactor := "Factor 3.5 (Recent Stat Trends)";
     promptFactor := "Statistical Trends";
     errorConclusion := "Analysis Error";
     errorConfidence := 0.0;
     errorReasoning := "Unable to analyze statistical trends due to data limitations.";
     errorAnalysis := emptyObject |}.

Module ServeStats.
Record t : Type := mk {
  firstServePercentage : Q;
  firstServeWinRate : Q;
  secondServeWinRate : Q;
  aceRate : Q;
  doubleFaultRate : Q;
  serviceGamesHeld : Q;
  breakPointsSaved : Q
}.
End ServeStats.

(** Placeholder statistics: seven draws, in the order of the object literal. *)
Definition getPlayerServeStats (draw : nat -> Q) (playerId surface : string) : ServeStats.t :=
  {| ServeStats.firstServePercentage := 0.60 + draw 0%nat * 0.15;
     ServeStats.firstServeWinRate := 0.70 + draw 1%nat * 0.15;
     ServeStats.secondServeWinRate := 0.45 + draw 2%nat * 0.15;
     ServeStats.aceRate := 0.08 + draw 3%nat * 0.10;
     ServeStats.doubleFaultRate := 0.03 + draw 4%nat * 0.04;
     ServeStats.serviceGamesHeld := 0.80 + draw 5%nat * 0.15;
     ServeStats.breakPointsSaved := 0.60 + draw 6%nat * 0.20 |}.

(** [a > b] *)
Definition Qgtb (a b : Q) : bool := negb (Qle_bool a b).

Definition calculateServeConfidence (stats1 stats2 : ServeStats.t) : Q :=
  let metrics :=
    [ServeStats.firstServeWinRate; ServeStats.serviceGamesHeld; ServeStats.aceRate] in
  let advantages :=
    length (List.filter (fun metric => Qgtb (Qabs (metric stats1 - metric stats2)) 0.1)
                        metrics) in
  Qmin 0.9 (0.5 + inject_Z (Z.of_nat advantages) * 0.15).

Definition serveStatsObject (name : string) (stats : ServeStats.t) : val :=
  VObj [ ("name", VStr name);
         ("firstServePercentage", VNum (ServeStats.firstServePercentage stats));
         ("firstServeWinRate", VNum (ServeStats.firstServeWinRate stats));
         ("secondServeWinRate", VNum (ServeStats.secondServeWinRate stats));
         ("aceRate", VNum (ServeStats.aceRate stats));
         ("doubleFaultRate", VNum (ServeStats.doubleFaultRate stats));
         ("serviceGamesHeld", VNum (ServeStats.serviceGamesHeld stats));
         ("breakPointsSaved", VNum (ServeStats.breakPointsSaved stats)) ].

(** Factor 3.1, in full: its statistics are placeholders and cannot fail. *)
Definition analyzeServePerformance (w : World) (m : Match.t) (player1 player2 : Player.t) : Result.t :=
  let player1ServeStats :=
    getPlayerServeStats (random w (Player.id player1)) (Player.id player1) (Match.surface m) in
  let player2ServeStats :=
    getPlayerServeStats (random w (Player.id player2)) (Player.id player2) (Match.surface m) in
  let analysisData :=
    VObj [ ("player1", serveStatsObject (Player.name player1) player1ServeStats);
           ("player2", serveStatsObject (Player.name player2) player2ServeStats);
           ("surface", VStr (Match.surface m)) ] in
  aiTaskWith w servePerformance extractAdvantage
    (Ok {| analysisData := analysisData;
           gatheredConfidence := calculateServeConfidence player1ServeStats player2ServeStats |}).

Definition analyzeReturnPerformance (w : World) (m : Match.t) (player1 player2 : Player.t) : Result.t :=
  aiTask w returnPerformance extractAdvantage.

Definition analyzeRallyPatterns (w : World) (m : Match.t) (player1 player2 : Player.t) : Result.t :=
  aiTask w rallyPatterns extractAdvantage.

Definition analyzePressurePerformance (w : World) (m : Match.t) (player1 player2 : Player.t) : Result.t :=
  aiTask w pressurePerformance extractAdvantage.

Definition analyzeStatisticalTrends (w : World) (m : Match.t) (player1 player2 : Player.t) : Result.t :=
  aiTask w statisticalTrends extractAdvantage.

(** *** PhysicalConditionAgents *)

Definition scheduleBurden : Task :=
  {| taskAgentName := "Recent Schedule Burden Analyst";
     taskFactor := "Factor 4.1 (Schedule & Fatigue)";
     promptFactor := "Schedule Burden";
     errorConclusion := "Analysis Error";
     errorConfidence := 0.0;
     errorReasoning := "Unable to analyze schedule burden due to data limitations.";
     errorAnalysis := emptyObject |}.

Definition recentMatchToll : Task :=
  {| taskAgentName := "Recent Match Physical Toll Analyst";
     taskFactor := "Factor 4.2 (Last Match Impact)";
     promptFactor := "Recent Match Physical Toll";
     errorConclusion := "Analysis Error";
     errorConfidence := 0.0;
     errorReasoning := "Unable to analyze recent match toll due to data limitations.";
     errorAnalysis := emptyObject |}.

Definition injuryFitnessStatus : Task :=
  {| taskAgentName := "Injury & Fitness Status Monitor";
     taskFactor := "Factor 4.3 (Injury & Fitness)";
     promptFactor := "Injury and Fitness Status";
     errorConclusion := "No Known Issues";
     errorConfidence := 0.5;
     errorReasoning := "No confirmed injury or fitness concerns for either player.";
     errorAnalysis := emptyObject |}.

Definition ageEndurance : Task :=
  {| taskAgentName := "Age & Endurance Profiler";
     taskFactor := "Factor 4.4 (Age & Stamina)";
     promptFactor := "Age and Endurance";
     errorConclusion := "Analysis Error";
     errorConfidence := 0.0;
     errorReasoning := "Unable to analyze age and endurance factors due to data limitations.";
     errorAnalysis := emptyObject |}.

Definition analyzeScheduleBurden (w : World) (m : Match.t) (player1 player2 : Player.t) : Result.t :=
  aiTask w scheduleBurden extractAdvantage.

Definition analyzeRecentMatchToll (w : World) (m : Match.t) (player1 player2 : Player.t) : Result.t :=
  aiTask w recentMatchToll extractAdvantage.

Definition analyzeInjuryFitnessStatus (w : World) (m : Match.t) (player1 player2 : Player.t) : Result.t :=
  aiTask w injuryFitnessStatus extractAdvantage.

Definition analyzeAgeEndurance (w : World) (m : Match.t) (player1 player2 : Player.t) : Result.t :=
  aiTask w ageEndurance extractAdvantage.

(** *** MatchupAgents *)

Definition playingStyles : Task :=
  {| taskAgentName := "Playing Style Profiler";
     taskFactor := "Factor 5.1 (Style Matchup)";
     promptFactor := "Playing Style Matchup";
     errorConclusion := "Analysis Error";
     errorConfidence := 0.0;
     errorReasoning := "Unable to analyze playing styles due to data limitations.";
     errorAnalysis := emptyObject |}.

Definition headToHead : Task :=
  {| taskAgentName := "Head-to-Head Analyst";
     taskFactor := "Factor 5.2 (Head-to-Head)";
     promptFactor := "Head-to-Head History";
     errorConclusion := "No Previous Meetings";
     errorConfidence := 0.0;
     errorReasoning :=
       "These players have never met before, so head-to-head analysis is based on style matchup only.";
     errorAnalysis :=
       VObj [ ("overall", VObj [ ("player1Wins", VNum 0);
                                 ("player2Wins", VNum 0);
                                 ("totalMatches", VNum 0) ]) ] |}.

Definition tacticalBattle : Task :=
  {| taskAgentName := "Tactical Battle Synthesizer";
     taskFactor := "Factor 5.3 (Projected Tactical Battle)";
     promptFactor := "Tactical Battle";
     errorConclusion := "Analysis Error";
     errorConfidence := 0.0;
     errorReasoning := "Unable to synthesize tactical battle due to data limitations.";
     errorAnalysis := emptyObject |}.

Definition analyzePlayingStyles (w : World) (m : Match.t) (player1 player2 : Player.t) : Result.t :=
  aiTask w playingStyles extractAdvantage.

Definition analyzeHeadToHead (w : World) (m : Match.t) (player1 player2 : Player.t) : Result.t :=
  aiTask w headToHead extractAdvantage.

Definition analyzeTacticalApproach (player : Player.t) (surface : string) : val :=
  VObj [ ("servePatterns",
          VArr [VStr "Wide serves to open court"; VStr "Body serves under pressure"]);
         ("returnStrategy",
          VArr [VStr "Deep returns to baseline"; VStr "Aggressive on second serves"]);
         ("rallyPatterns",
          VArr [VStr "Cross-court consistency"; VStr "Down-the-line winners"]);
         ("pressureResponse",
          VArr [VStr "Increases first serve percentage"; VStr "Shortens points"]) ].

Definition generateGameplan (player opponent : Player.t) (surface : string) : val :=
  VObj [ ("primary",
          VStr ("Exploit " ++ Player.name opponent ++ "'s backhand with heavy topspin"));
         ("secondary", VStr "Use drop shots to bring opponent forward");
         ("serving", VStr "Target body serves on important points");
         ("returning", VStr "Stand closer on second serve returns") ].

Definition identifyKeyBattlegrounds (tactics1 tactics2 : val) : val :=
  VArr [ VStr "First serve percentage - crucial for holding serve";
         VStr "Return depth - establishing baseline control";
         VStr "Cross-court rallies - pattern establishment";
         VStr "Break point conversion - mental toughness" ].

Definition calculateTacticalConfidence (tactics1 tactics2 : val) (surface : string) : Q := 0.7.

(** Factor 5.3.  [styleAnalysis] and [h2hAnalysis] are the fourth and fifth
    parameter; an argument the caller leaves out is [undefined]. *)
Definition analyzeTacticalBattle (w : World) (m : Match.t) (player1 player2 : Player.t)
    (styleAnalysis h2hAnalysis : val) : Result.t :=
  tryCatch
    (let player1Tactics := analyzeTacticalApproach player1 (Match.surface m) in
     let player2Tactics := analyzeTacticalApproach player2 (Match.surface m) in
     let analysisData :=
       VObj [ ("player1",
               VObj [ ("name", VStr (Player.name player1));
                      ("tactics", player1Tactics);
                      ("gameplan", generateGameplan player1 player2 (Match.surface m)) ]);
              ("player2",
               VObj [ ("name", VStr (Player.name player2));
                      ("tactics", player2Tactics);
                      ("gameplan", generateGameplan player2 player1 (Match.surface m)) ]);
              ("surface", VStr (Match.surface m));
              ("keyBattlegrounds", identifyKeyBattlegrounds player1Tactics player2Tactics);
              ("styleContext", styleAnalysis);
              ("h2hContext", h2hAnalysis) ] in
     aiAnalysis <- complete w "Tactical Battle" analysisData ;;
     let advantage := extractAdvantage aiAnalysis in
     let confidence :=
       calculateTacticalConfidence player1Tactics player2Tactics (Match.surface m) in
     Ok {| Result.agentName := "Tactical Battle Synthesizer";
           Result.factor := "Factor 5.3 (Projected Tactical Battle)";
           Result.conclusion := Advantage.conclusion advantage;
           Result.advantage := Advantage.player advantage;
           Result.confidence := confidence;
           Result.reasoning := aiAnalysis;
           Result.analysis := analysisData;
           Result.processingTime := elapsed w |})%res
    (fun _ => errorRecord w tacticalBattle).

(** *** ContextualAgents *)

Definition newsAndContext : Task :=
  {| taskAgentName := "News Monitor";
     taskFactor := "Factor 6.1 (Recent News & Context)";
     promptFactor := "Contextual Factors";
     errorConclusion := "No Significant News";
     errorConfidence := 0.5;
     errorReasoning :=
       "No significant recent news or contextual factors identified for either player.";
     errorAnalysis := emptyObject |}.

Definition dataGapsAndLimitations : Task :=
  {| taskAgentName := "Data Gaps & Uncertainty Reporter";
     taskFactor := "Factor 6.2 (Data Limitations)";
     promptFactor := "";
     errorConclusion := "Limited Data Available";
     errorConfidence := 0.3;
     errorReasoning :=
       "Analysis based on limited available data. Results should be interpreted with caution.";
     errorAnalysis := emptyObject |}.

Definition analyzeNewsAndContext (w : World) (m : Match.t) (player1 player2 : Player.t) : Result.t :=
  aiTask w newsAndContext extractAdvantageContextual.

(** Factor 6.2 calls no completion client: [derive] stands for its report
    ([reliabilityScore], [limitationsReport], [analysisData]). *)
Definition reportDataGapsAndLimitations (w : World) (m : Match.t) (player1 player2 : Player.t)
    (allAgentResults : val) : Result.t :=
  tryCatch
    (d <- derive w "Data Gaps & Uncertainty Reporter" ;;
     Ok {| Result.agentName := "Data Gaps & Uncertainty Reporter";
           Result.factor := "Factor 6.2 (Data Limitations)";
           Result.conclusion := "Transparency Report";
           Result.advantage := "none";
           Result.confidence := derivedConfidence d;
           Result.reasoning := derivedReasoning d;
           Result.analysis := derivedAnalysis d;
           Result.processingTime := elapsed w |})%res
    (fun _ => errorRecord w dataGapsAndLimitations).

(** [args[i]]: a parameter the caller did not supply is [undefined]. *)
Definition argument (i : nat) (args : list val) : val := nth i args VUndefined.

(** The task functions, each with the constant part of its [catch] block;
    [rest] holds the arguments after [(match, player1, player2)]. *)
Definition taskFunctions
  : list (Task * (World -> Match.t -> Player.t -> Player.t -> list val -> Result.t)) :=
  [ (recentMatches, fun w m player1 player2 _ => analyzeRecentMatches w m player1 player2);
    (momentum, fun w m player1 player2 _ => analyzeMomentum w m player1 player2);
    (clutchPerformance, fun w m player1 player2 _ => analyzeClutchPerformance w m player1 player2);
    (surfaceSuitability, fun w m player1 player2 _ => analyzeSurfaceSuitability w m player1 player2);
    (environment, fun w m player1 player2 _ => analyzeEnvironment w m player1 player2);
    (servePerformance, fun w m player1 player2 _ => analyzeServePerformance w m player1 player2);
    (returnPerformance, fun w m player1 player2 _ => analyzeReturnPerformance w m player1 player2);
    (rallyPatterns, fun w m player1 player2 _ => analyzeRallyPatterns w m player1 player2);
    (pressurePerformance, fun w m player1 player2 _ => analyzePressurePerformance w m player1 player2);
    (statisticalTrends, fun w m player1 player2 _ => analyzeStatisticalTrends w m player1 player2);
    (scheduleBurden, fun w m player1 player2 _ => analyzeScheduleBurden w m player1 player2);
    (recentMatchToll, fun w m player1 player2 _ => analyzeRecentMatchToll w m player1 player2);
    (injuryFitnessStatus, fun w m player1 player2 _ => analyzeInjuryFitnessStatus w m player1 player2);
    (ageEndurance, fun w m player1 player2 _ => analyzeAgeEndurance w m player1 player2);
    (playingStyles, fun w m player1 player2 _ => analyzePlayingStyles w m player1 player2);
    (headToHead, fun w m player1 player2 _ => analyzeHeadToHead w m player1 player2);
    (tacticalBattle,
     fun w m player1 player2 rest =>
       analyzeTacticalBattle w m player1 player2 (argument 0 rest) (argument 1 rest));
    (newsAndContext, fun w m player1 player2 _ => analyzeNewsAndContext w m player1 player2);
    (dataGapsAndLimitations,
     fun w m player1 player2 rest =>
       reportDataGapsAndLimitations w m player1 player2 (argument 0 rest)) ].

(** A world in which every collaborator fails: the completion client rejects
    every request and so does every data source. *)
Definition failingWorld (message : string) (elapsed : Z) : World :=
  {| complete := fun _ _ => Throw message;
     gather := fun _ => Throw message;
     derive := fun _ => Throw message;
     random := fun _ _ => 0%Q;
     elapsed := elapsed |}.


(** ** Orchestrator (agentOrchestrator.ts) *)

Inductive Status : Type := active | processing | idle | error.

Module AgentStatus.
Record t : Type := mk {
  name : string;
  type : string;
  status : Status;
  lastActivity : Z;
  accuracy : Q;
  totalAnalyses : nat
}.
End AgentStatus.

Definition agentDefinitions : list (string * string) :=
  [ ("Recent Matches Analyst", "recent_performance");
    ("Momentum Analyst", "recent_performance");
    ("Clutch Performance Analyst", "recent_performance");
    ("Surface Suitability Analyst", "surface_environment");
    ("Environment Analyst", "surface_environment");
    ("Service Performance Analyst", "statistical");
    ("Return Performance Analyst", "statistical");
    ("Rally & Point Construction Analyst", "statistical");
    ("Pressure Statistics Analyst", "statistical");
    ("Statistical Trend Analyst", "statistical");
    ("Workload & Recovery Analyst", "physical_condition");
    ("Injury Status Analyst", "physical_condition");
    ("Endurance Inference Analyst", "physical_condition");
    ("Playing Style Profiler", "matchup");
    ("Head-to-Head Analyst", "matchup");
    ("Tactical Battle Synthesizer", "matchup");
    ("News Monitor", "contextual");
    ("Data Gaps & Uncertainty Reporter", "contextual") ].

(** [agentDefinitions.forEach(agent => this.agents.set(agent.name, ...))];
    [random i] is the draw of [Math.random()] for the [i]-th definition. *)
Fixpoint registerAgents (now : Z) (random : nat -> Q) (i : nat)
    (definitions : list (string * string))
    (agents : gmap string AgentStatus.t) : gmap string AgentStatus.t :=
  match definitions with
  | [] => agents
  | agent :: definitions' =>
      registerAgents now random (S i) definitions'
        (<[ fst agent :=
              {| AgentStatus.name := fst agent;
                 AgentStatus.type := snd agent;
                 AgentStatus.status := idle;
                 AgentStatus.lastActivity := now;
                 AgentStatus.accuracy := 85 + random i * 15;
                 AgentStatus.totalAnalyses := 0 |} ]> agents)
  end.

Definition initializeAgents (now : Z) (random : nat -> Q) : gmap string AgentStatus.t :=
  registerAgents now random 0 agentDefinitions ∅.

Definition updateAgentStatus (agentName : string) (status : Status) (now : Z)
    (agents : gmap string AgentStatus.t) : gmap string AgentStatus.t :=
  match agents !! agentName with
  | Some agent =>
      <[ agentName :=
           {| AgentStatus.name := AgentStatus.name agent;
              AgentStatus.type := AgentStatus.type agent;
              AgentStatus.status := status;
              AgentStatus.lastActivity := now;
              AgentStatus.accuracy := AgentStatus.accuracy agent;
              AgentStatus.totalAnalyses :=
                match status with
                | processing => S (AgentStatus.totalAnalyses agent)
                | _ => AgentStatus.totalAnalyses agent
                end |} ]> agents
  | None => agents
  end.

(** [runAgentAnalysis(agentName, analysisFunction)], run to completion:
    [analysisFunction] is the outcome of the awaited call, [started] and
    [settled] the clock readings of the two status updates. *)
Definition runAgentAnalysis {T : Type} (agentName : string) (analysisFunction : Res T)
    (started settled : Z) (agents : gmap string AgentStatus.t)
  : gmap string AgentStatus.t * Res T :=
  let agents := updateAgentStatus agentName processing started agents in
  match analysisFunction with
  | Ok result => (updateAgentStatus agentName active settled agents, Ok result)
  | Throw e => (updateAgentStatus agentName error settled agents, Throw e)
  end.

(** The status updates of [runAgentAnalysis], one at a time, for runs that
    interleave with others: the update before the awaited call, and the update
    in the [try] or in the [catch] block after it. *)
Inductive RegistryEvent : Type :=
| TaskStarted (agentName : string) (now : Z)
| TaskSucceeded (agentName : string) (now : Z)
| TaskFailed (agentName : string) (now : Z).

Definition eventAgent (e : RegistryEvent) : string :=
  match e with
  | TaskStarted n _ | TaskSucceeded n _ | TaskFailed n _ => n
  end.

Definition eventStatus (e : RegistryEvent) : Status :=
  match e with
  | TaskStarted _ _ => processing
  | TaskSucceeded _ _ => active
  | TaskFailed _ _ => error
  end.

Definition eventTime (e : RegistryEvent) : Z :=
  match e with
  | TaskStarted _ t | TaskSucceeded _ t | TaskFailed _ t => t
  end.

Definition applyEvent (agents : gmap string AgentStatus.t) (e : RegistryEvent)
  : gmap string AgentStatus.t :=
  match e with
  | TaskStarted n now => updateAgentStatus n processing now agents
  | TaskSucceeded n now => updateAgentStatus n active now agents
  | TaskFailed n now => updateAgentStatus n error now agents
  end.

Definition applyEvents (agents : gmap string AgentStatus.t) (es : list RegistryEvent)
  : gmap string AgentStatus.t :=
  fold_left applyEvent es agents.

(** Group 5 of [runAgentAnalyses]: the three match-up tasks, each awaited
    before the next is started; [clock i] is the [i]-th reading of the clock. *)
Definition runMatchupAnalyses (w : World) (m : Match.t) (player1 player2 : Player.t)
    (clock : nat -> Z) (agents : gmap string AgentStatus.t)
  : gmap string AgentStatus.t * Res (list Result.t) :=
  let '(agents, style) :=
    runAgentAnalysis "Playing Style Profiler"
      (Ok (analyzePlayingStyles w m player1 player2)) (clock 0%nat) (clock 1%nat) agents in
  match style with
  | Throw e => (agents, Throw e)
  | Ok style =>
      let '(agents, h2h) :=
        runAgentAnalysis "Head-to-Head Analyst"
          (Ok (analyzeHeadToHead w m player1 player2)) (clock 2%nat) (clock 3%nat) agents in
      match h2h with
      | Throw e => (agents, Throw e)
      | Ok h2h =>
          let '(agents, tactical) :=
            runAgentAnalysis "Tactical Battle Synthesizer"
              (Ok (analyzeTacticalBattle w m player1 player2 VUndefined VUndefined))
              (clock 4%nat) (clock 5%nat) agents in
          match tactical with
          | Throw e => (agents, Throw e)
          | Ok tactical => (agents, Ok [style; h2h; tactical])
          end
      end
  end.

(** *** The per-match guard of [analyzeMatch] *)

(** The statements before the [try]: reject when the match is marked,
    mark it otherwise. *)
Definition analyzeMatchEnter (matchId : string) (currentAnalysis : gmap string bool)
  : Res (gmap string bool) :=
  match currentAnalysis !! matchId with
  | Some true => Throw "Match analysis already in progress"
  | _ => Ok (<[ matchId := true ]> currentAnalysis)
  end.

(** The [finally] block. *)
Definition analyzeMatchFinally (matchId : string) (currentAnalysis : gmap string bool)
  : gmap string bool :=
  delete matchId currentAnalysis.

(** [analyzeMatch] run to completion; [run] is the outcome of its [try]
    block (player lookup, agent analyses, synthesis, storing the analyses). *)
Definition analyzeMatch (run : Res AnalysisResult) (m : Match.t)
    (currentAnalysis : gmap string bool)
  : gmap string bool * Res AnalysisResult :=
  match analyzeMatchEnter (Match.id m) currentAnalysis with
  | Throw e => (currentAnalysis, Throw e)
  | Ok currentAnalysis' => (analyzeMatchFinally (Match.id m) currentAnalysis', run)
  end.

(** Interleaved calls.  A call of [analyzeMatch] runs its guard at once and
    suspends inside the [try] block; it is in flight until its [finally] block
    has run.  [inFlight] lists the match ids of the runs in flight. *)
Record Runs : Type := mkRuns {
  currentAnalysis : gmap string bool;
  inFlight : list string
}.

Inductive CallEvent : Type :=
| Called (matchId : string)
| Settled (matchId : string).

Fixpoint removeOne (x : string) (l : list string) : list string :=
  match l with
  | [] => []
  | y :: l' => if String.eqb x y then l' else y :: removeOne x l'
  end.

Definition inFlightb (matchId : string) (runs : Runs) : bool :=
  existsb (String.eqb matchId) (inFlight runs).

Definition stepRuns (runs : Runs) (e : CallEvent) : Runs :=
  match e with
  | Called matchId =>
      match analyzeMatchEnter matchId (currentAnalysis runs) with
      | Ok currentAnalysis' =>
          {| currentAnalysis := currentAnalysis'; inFlight := matchId :: inFlight runs |}
      | Throw _ => runs
      end
  | Settled matchId =>
      if inFlightb matchId runs then
        {| currentAnalysis := analyzeMatchFinally matchId (currentAnalysis runs);
           inFlight := removeOne matchId (inFlight runs) |}
      else runs
  end.

Definition noRuns : Runs := {| currentAnalysis := ∅; inFlight := [] |}.

Definition runCalls (es : list CallEvent) : Runs := fold_left stepRuns es noRuns.

(** ** Prediction accessors (storage.ts, shared/schema.ts) *)

Module Prediction.
Record t : Type := mk {
  id : string;
  matchId : string;
  predictedWinnerId : string;
  winProbability : string;
  confidenceLevel : string;
  factorAnalysis : val;
  reasoning : string;
  agentContributions : val;
  createdAt : Z
}.
End Prediction.

Module InsertPrediction.
Record t : Type := mk {
  matchId : string;
  predictedWinnerId : string;
  winProbability : string;
  confidenceLevel : string;
  factorAnalysis : val;
  reasoning : string;
  agentContributions : val
}.
End InsertPrediction.

(** Modelled from the spec: the relational store behind [db] (server/db.ts and
    the query builder are not among the sources).  Tables are lists of rows in
    insertion order with foreign keys by id; what the engine does to a value on
    its way into a column is left open: [decimal] for a [decimal(5,2)] column
    (which may also refuse the value), [jsonb] for a [jsonb] column.
    [newId] is [gen_random_uuid()], [now] the [defaultNow()] of [created_at]. *)
Record Engine : Type := mkEngine {
  decimal : string -> option string;
  jsonb : val -> val;
  newId : string;
  now : Z
}.

(** Modelled from the spec: the persisted schema, restricted to the tables the
    prediction accessors touch. *)
Record Database : Type := mkDatabase {
  players : list Player.t;
  matches : list Match.t;
  predictions : list Prediction.t
}.

Definition references (ids : list string) (key : string) : bool :=
  existsb (String.eqb key) ids.

(** [db.insert(predictions).values(prediction).returning()] *)
Definition insertPrediction (e : Engine) (db : Database) (prediction : InsertPrediction.t)
  : Res (Database * list Prediction.t) :=
  if negb (references (map Match.id (matches db)) (InsertPrediction.matchId prediction)) then
    Throw "insert on table predictions violates foreign key constraint on match_id"
  else if negb (references (map Player.id (players db))
                           (InsertPrediction.predictedWinnerId prediction)) then
    Throw "insert on table predictions violates foreign key constraint on predicted_winner_id"
  else
    match decimal e (InsertPrediction.winProbability prediction),
          decimal e (InsertPrediction.confidenceLevel prediction) with
    | Some winProbability, Some confidenceLevel =>
        let row :=
          {| Prediction.id := newId e;
             Prediction.matchId := InsertPrediction.matchId prediction;
             Prediction.predictedWinnerId := InsertPrediction.predictedWinnerId prediction;
             Prediction.winProbability := winProbability;
             Prediction.confidenceLevel := confidenceLevel;
             Prediction.factorAnalysis := jsonb e (InsertPrediction.factorAnalysis prediction);
             Prediction.reasoning := InsertPrediction.reasoning prediction;
             Prediction.agentContributions :=
               jsonb e (InsertPrediction.agentContributions prediction);
             Prediction.createdAt := now e |} in
        Ok ({| players := players db;
               matches := matches db;
               predictions := predictions db ++ [row] |}, [row])
    | _, _ => Throw "invalid input for type numeric"
    end.

(** [db.select().from(predictions).where(eq(predictions.matchId, matchId))] *)
Definition selectPredictionsByMatch (db : Database) (matchId : string) : list Prediction.t :=
  List.filter (fun row => String.eqb (Prediction.matchId row) matchId) (predictions db).

(** [const [newPrediction] = await ...; return newPrediction;] *)
Definition createPrediction (e : Engine) (db : Database) (prediction : InsertPrediction.t)
  : Res (Database * option Prediction.t) :=
  (inserted <- insertPrediction e db prediction ;;
   Ok (fst inserted, head (snd inserted)))%res.

(** [const [prediction] = await ...; return prediction || undefined;] *)
Definition getPredictionByMatch (db : Database) (matchId : string) : option Prediction.t :=
  head (selectPredictionsByMatch db matchId).

(** ** Vocabulary of the stated properties *)

(** The factor records whose advantage is one of [tags], counted one by one. *)
Fixpoint countFavoring (tags : list string) (fas : list FactorAnalysis) : nat :=
  match fas with
  | [] => 0
  | fa :: fas' =>
      (if existsb (isStr (advantage fa)) tags then 1 else 0) + countFavoring tags fas'
  end.

Definition favoringPlayer1 : list FactorAnalysis -> nat :=
  countFavoring ["player1"; "slight_player1"].

Definition favoringPlayer2 : list FactorAnalysis -> nat :=
  countFavoring ["player2"; "slight_player2"].

(** [clamp(x, lo, hi)] *)
Definition clamp (x lo hi : Q) : Q :=
  if Qlt_le_dec x lo then lo else if Qlt_le_dec hi x then hi else x.

(** [|n1 - n2|] for two counts *)
Definition countDifference (n1 n2 : nat) : Q :=
  inject_Z (Z.of_nat (Nat.max n1 n2 - Nat.min n1 n2)).

(** A factor record [{advantage: tag}] (with a conclusion, as every record of
    the compiled list has). *)
Definition factorWithAdvantage (tag : string) : FactorAnalysis :=
  {| factor := VStr "factor";
     conclusion := VStr "conclusion";
     advantage := VStr tag;
     confidence := VNum 0.5;
     reasoning := VStr "" |}.

Definition alice : Player.t := {| Player.id := "p-1"; Player.name := "Alice" |}.
Definition bob : Player.t := {| Player.id := "p-2"; Player.name := "Bob" |}.

(** "The predicted winner is undefined": it is neither player. *)
Definition winnerUndefined (player1 player2 : Player.t) (r : AnalysisResult) : Prop :=
  predictedWinnerId r <> Player.id player1 /\ predictedWinnerId r <> Player.id player2.




Definition final : Match.t :=
  {| Match.id := "m-1"; Match.player1Id := "p-1"; Match.player2Id := "p-2";
     Match.surface := "clay" |}.

(** The status the registry holds for an agent name, if it holds one. *)
Definition statusOf (agents : gmap string AgentStatus.t) (agentName : string) : option Status :=
  AgentStatus.status <$> agents !! agentName.

(** The marker of a match is set exactly while a run for it is in flight, and
    no match has two runs in flight. *)
Definition guardInvariant (runs : Runs) : Prop :=
  NoDup (inFlight runs) /\
  forall matchId, In matchId (inFlight runs) <-> currentAnalysis runs !! matchId = Some true.

(** A completion client that always answers [reply]; the data sources whose
    helpers call [storage.getPlayerMatches] or [storage.getMatches], which
    [DatabaseStorage] does not define, throw. *)
Definition answeringWorld (reply : string) : World :=
  {| complete := fun _ _ => Ok reply;
     gather := fun agentName =>
       if String.eqb agentName "Playing Style Profiler"
       then Throw "TypeError: storage.getPlayerMatches is not a function"
       else if String.eqb agentName "Head-to-Head Analyst"
       then Throw "TypeError: storage.getMatches is not a function"
       else Ok {| analysisData := emptyObject; gatheredConfidence := 0.6 |};
     derive := fun _ => Throw "no data";
     random := fun playerId i => if String.eqb playerId "p-1" then 0.9%Q else 0.1%Q;
     elapsed := 1200 |}.



Definition finalPrediction : InsertPrediction.t :=
  {| InsertPrediction.matchId := "m-1";
     InsertPrediction.predictedWinnerId := "p-1";
     InsertPrediction.winProbability := "0.55";
     InsertPrediction.confidenceLevel := "0.75";
     InsertPrediction.factorAnalysis := VArr [VObj [("advantage", VStr "player1")]];
     InsertPrediction.reasoning := "majority";
     InsertPrediction.agentContributions := VObj [] |}.

(** ** Vocabulary for the advantage markers *)

(** [s] with its letters a-z in upper case. *)
Fixpoint upper (s : string) : string :=
  match s with
  | EmptyString => EmptyString
  | String c s' => String (RegExp.toUpper c) (upper s')
  end.

Definition advantageMarker (n : ascii) : string :=
  "**Advantage Player " ++ String n "**".

Definition slightMarker (n : ascii) : string :=
  "**Slight Advantage Player " ++ String n "**".

Definition noClearMarker : string := "**No Clear Advantage**".

(** [m] reads as one of the three markers when letter case is ignored. *)
Definition markerText (m : string) : Prop :=
  (exists n, RegExp.isDigit n = true /\ upper m = upper (advantageMarker n)) \/
  (exists n, RegExp.isDigit n = true /\ upper m = upper (slightMarker n)) \/
  upper m = upper noClearMarker.

(** The reply holds [m] between [before] and [after]. *)
Definition contains (reply m : string) : Prop :=
  exists before after, reply = before ++ m ++ after.

(** No marker, in any letter case, occurs in the reply. *)
Definition noMarker (reply : string) : Prop :=
  forall before m after, reply = before ++ m ++ after -> ~ markerText m.

(** [m] is the leftmost marker occurrence in the reply. *)
Definition firstMarker (reply before m after : string) : Prop :=
  reply = before ++ m ++ after /\
  markerText m /\
  forall before' m' after',
    reply = before' ++ m' ++ after' -> markerText m' ->
    String.length before <= String.length before'.

Definition advantageOf (n : ascii) : Advantage.t :=
  {| Advantage.player := "player" ++ String n "";
     Advantage.conclusion := "Advantage Player " ++ String n "" |}.

Definition slightAdvantageOf (n : ascii) : Advantage.t :=
  {| Advantage.player := "player" ++ String n "";
     Advantage.conclusion := "Slight Advantage Player " ++ String n "" |}.

(** The extraction rule as the design document words it: a marker in the
    reply decides, whichever else the reply holds. *)
Definition statedExtraction : Prop :=
  forall reply,
    (forall n, RegExp.isDigit n = true ->
       (extractAdvantage reply = advantageOf n <-> contains reply (advantageMarker n)) /\
       (extractAdvantage reply = slightAdvantageOf n <-> contains reply (slightMarker n))) /\
    (contains reply noClearMarker -> extractAdvantage reply = noClearAdvantage) /\
    ((forall n, ~ contains reply (advantageMarker n) /\ ~ contains reply (slightMarker n)) ->
     ~ contains reply noClearMarker ->
     Advantage.player (extractAdvantage reply) = "none").

(** Reading the literal [w] off the front of [s], letter case ignored:
    what is left of [s]. *)
Fixpoint prefixCI (w s : string) : option string :=
  match w with
  | EmptyString => Some s
  | String c w' =>
      match s with
      | String d s' =>
          if Ascii.eqb (RegExp.toUpper c) (RegExp.toUpper d) then prefixCI w' s' else None
      | EmptyString => None
      end
  end.

(** Reading [w], a digit and ["**"] off the front of [s]. *)
Definition readAdvantage (w : string) (group : nat) (s : string) : option RegExp.MatchArray :=
  match prefixCI w s with
  | Some (String d r) =>
      if RegExp.isDigit d then
        match prefixCI "**" r with
        | Some rest =>
            Some {| RegExp.whole := RegExp.consumed s rest;
                    RegExp.groups := [(group, String d "")] |}
        | None => None
        end
      else None
  | _ => None
  end.

(** The pattern matches at none of the first [k] positions of [s]. *)
Fixpoint noMatchBefore (k : nat) (s : string) : bool :=
  match k with
  | O => true
  | S k' =>
      match RegExp.matchAt true advantagePattern s, s with
      | None, String _ s' => noMatchBefore k' s'
      | _, _ => false
      end
  end.

(** ** Further vocabulary: the registry and the guard over whole runs *)

(** How often the task of [agentName] was started in [es]. *)
Fixpoint countStarts (agentName : string) (es : list RegistryEvent) : nat :=
  match es with
  | [] => 0
  | TaskStarted n _ :: es' =>
      (if String.eqb n agentName then 1 else 0) + countStarts agentName es'
  | _ :: es' => countStarts agentName es'
  end.

(** The clock reading of the last event of [es] that names [agentName],
    [t0] when there is none. *)
Fixpoint lastTouch (t0 : Z) (agentName : string) (es : list RegistryEvent) : Z :=
  match es with
  | [] => t0
  | e :: es' =>
      lastTouch (if String.eqb (eventAgent e) agentName then eventTime e else t0)
                agentName es'
  end.

(** The status set by the last event of [es] that names [agentName], [s0]
    when there is none. *)
Fixpoint lastStatus (s0 : Status) (agentName : string) (es : list RegistryEvent) : Status :=
  match es with
  | [] => s0
  | e :: es' =>
      lastStatus (if String.eqb (eventAgent e) agentName then eventStatus e else s0)
                 agentName es'
  end.

(** Calls of [analyzeMatch] one after the other, each run to completion
    before the next starts: the markers left and the outcome of every call. *)
Fixpoint analyzeAll (calls : list (Res AnalysisResult * Match.t))
    (currentAnalysis : gmap string bool)
  : gmap string bool * list (Res AnalysisResult) :=
  match calls with
  | [] => (currentAnalysis, [])
  | (run, m) :: calls' =>
      let '(currentAnalysis', outcome) := analyzeMatch run m currentAnalysis in
      let '(currentAnalysis'', outcomes) := analyzeAll calls' currentAnalysis' in
      (currentAnalysis'', outcome :: outcomes)
  end.

(** ** Storing the agent analyses (agentOrchestrator.ts, storeAgentAnalyses) *)

Module InsertAgentAnalysis.
Record t : Type := mk {
  matchId : string;
  agentType : string;
  agentName : val;
  analysis : val;
  conclusion : val;
  advantage : val;
  confidenceLevel : string;
  processingTime : val
}.
End InsertAgentAnalysis.

(** [v?.toString() || "0.5"]; [toString v] is [v.toString()] for a value that
    is neither [undefined] nor [null]. *)
Definition confidenceLevelOf (toString : val -> string) (v : val) : string :=
  match v with
  | VUndefined | VNull => "0.5"
  | _ => if String.eqb (toString v) "" then "0.5" else toString v
  end.

(** The body of the inner [results.forEach] callback: the argument of the
    [storage.createAgentAnalysis] call it makes, if it makes one. *)
Definition agentAnalysisOf (toString : val -> string) (matchId category : string)
    (result : val) : list InsertAgentAnalysis.t :=
  if truthy result && truthy (get result "agentName") then
    [ {| InsertAgentAnalysis.matchId := matchId;
         InsertAgentAnalysis.agentType := category;
         InsertAgentAnalysis.agentName := get result "agentName";
         InsertAgentAnalysis.analysis := or (get result "analysis") (VObj []);
         InsertAgentAnalysis.conclusion := or (get result "conclusion") (VStr "");
         InsertAgentAnalysis.advantage := or (get result "advantage") (VStr "none");
         InsertAgentAnalysis.confidenceLevel :=
           confidenceLevelOf toString (get result "confidence");
         InsertAgentAnalysis.processingTime :=
           or (get result "processingTime") (VNum 1000) |} ]
  else [].

(** The [storage.createAgentAnalysis] calls of [storeAgentAnalyses], in the
    order in which they are made. *)
Definition storeAgentAnalyses (toString : val -> string) (matchId : string)
    (analysisResults : list (string * val)) : list InsertAgentAnalysis.t :=
  flat_map (fun entry : string * val =>
              match snd entry with
              | VArr results => flat_map (agentAnalysisOf toString matchId (fst entry)) results
              | _ => []
              end) analysisResults.


(** ** The whole run of [analyzeMatch] (agentOrchestrator.ts) *)

(** Calling a property that is not there throws a [TypeError] (the wording
    of the message is V8's). *)
Definition notAFunction (callee : string) : string := callee ++ " is not a function".

(** [await Promise.all(promises)] for promises that all resolve, or that have
    all settled before the call: the values, or the rejection that comes first
    in the array. *)
Fixpoint promiseAll {T : Type} (promises : list (Res T)) : Res (list T) :=
  match promises with
  | [] => Ok []
  | Throw e :: _ => Throw e
  | Ok v :: promises' => (vs <- promiseAll promises' ;; Ok (v :: vs))%res
  end.

(** Code that updates the registry and may throw. *)
Definition Run (A : Type) : Type :=
  gmap string AgentStatus.t -> gmap string AgentStatus.t * Res A.

Definition bindRun {A B : Type} (r : Run A) (k : A -> Run B) : Run B :=
  fun agents =>
    let '(agents', a) := r agents in
    match a with
    | Ok a => k a agents'
    | Throw e => (agents', Throw e)
    end.

Definition retRun {A : Type} (a : A) : Run A := fun agents => (agents, Ok a).

Declare Scope run_scope.
Delimit Scope run_scope with run.
Notation "x <- r ;; k" := (bindRun r (fun x => k)) : run_scope.

(** The status updates of a group of [runAgentAnalysis] calls handed to
    [Promise.all], for task functions that resolve: every call sets its agent
    to processing before it first suspends, in the order of the array literal;
    the tasks then settle in [order].  [clock i] is the time of the [i]-th
    status update of the group. *)
Definition groupEvents (clock : nat -> Z) (names order : list string) : list RegistryEvent :=
  (imap (fun i n => TaskStarted n (clock i)) names
   ++ imap (fun i n => TaskSucceeded n (clock (length names + i)%nat)) order)%list.

Definition runGroup (clock : nat -> Z) (tasks : list (string * Result.t))
    (order : list string) : Run (list Result.t) :=
  fun agents =>
    (applyEvents agents (groupEvents clock (map fst tasks) order),
     promiseAll (map (fun task => Ok (snd task)) tasks)).

(** The order in which the tasks of the four [Promise.all] groups settle. *)
Record Schedule : Type := mkSchedule {
  recentPerformanceOrder : list string;
  surfaceEnvironmentOrder : list string;
  statisticalOrder : list string;
  physicalOrder : list string
}.

Definition recentPerformanceNames : list string :=
  ["Recent Matches Analyst"; "Momentum Analyst"; "Clutch Performance Analyst"].

Definition surfaceEnvironmentNames : list string :=
  ["Surface Suitability Analyst"; "Environment Analyst"].

Definition statisticalNames : list string :=
  ["Service Performance Analyst"; "Return Performance Analyst";
   "Rally & Point Construction Analyst"; "Pressure Statistics Analyst";
   "Statistical Trend Analyst"].

Definition physicalNames : list string :=
  ["Workload & Recovery Analyst"; "Recent Match Physical Toll Analyst";
   "Injury Status Analyst"; "Endurance Inference Analyst"].

(** Every task of a group settles once. *)
Definition fair (s : Schedule) : Prop :=
  Permutation (recentPerformanceOrder s) recentPerformanceNames /\
  Permutation (surfaceEnvironmentOrder s) surfaceEnvironmentNames /\
  Permutation (statisticalOrder s) statisticalNames /\
  Permutation (physicalOrder s) physicalNames.

(** [runAgentAnalyses(match, player1, player2)].  [clock i] is the time of the
    [i]-th call of [updateAgentStatus].  The two methods that group 6 calls,
    [contextualAgents.analyzeNews] and [contextualAgents.analyzeDataGaps], are
    not defined by [ContextualAgents]: each call throws inside its arrow
    function, before anything is awaited. *)
Definition runAgentAnalyses (w : World) (m : Match.t) (player1 player2 : Player.t)
    (clock : nat -> Z) (schedule : Schedule) : Run (list (string * val)) :=
  (recentPerformanceResults <-
     runGroup clock
       [ ("Recent Matches Analyst", analyzeRecentMatches w m player1 player2);
         ("Momentum Analyst", analyzeMomentum w m player1 player2);
         ("Clutch Performance Analyst", analyzeClutchPerformance w m player1 player2) ]
       (recentPerformanceOrder schedule) ;;
   surfaceEnvironmentResults <-
     runGroup (fun i => clock (6 + i)%nat)
       [ ("Surface Suitability Analyst", analyzeSurfaceSuitability w m player1 player2);
         ("Environment Analyst", analyzeEnvironment w m player1 player2) ]
       (surfaceEnvironmentOrder schedule) ;;
   statisticalResults <-
     runGroup (fun i => clock (10 + i)%nat)
       [ ("Service Performance Analyst", analyzeServePerformance w m player1 player2);
         ("Return Performance Analyst", analyzeReturnPerformance w m player1 player2);
         ("Rally & Point Construction Analyst", analyzeRallyPatterns w m player1 player2);
         ("Pressure Statistics Analyst", analyzePressurePerformance w m player1 player2);
         ("Statistical Trend Analyst", analyzeStatisticalTrends w m player1 player2) ]
       (statisticalOrder schedule) ;;
   physicalResults <-
     runGroup (fun i => clock (20 + i)%nat)
       [ ("Workload & Recovery Analyst", analyzeScheduleBurden w m player1 player2);
         ("Recent Match Physical Toll Analyst", analyzeRecentMatchToll w m player1 player2);
         ("Injury Status Analyst", analyzeInjuryFitnessStatus w m player1 player2);
         ("Endurance Inference Analyst", analyzeAgeEndurance w m player1 player2) ]
       (physicalOrder schedule) ;;
   matchup <- runMatchupAnalyses w m player1 player2 (fun i => clock (28 + i)%nat) ;;
   contextualResults <-
     (fun agents =>
        let '(agents, news) :=
          runAgentAnalysis (T := Result.t) "News Monitor"
            (Throw (notAFunction "contextualAgents.analyzeNews"))
            (clock 34%nat) (clock 35%nat) agents in
        let '(agents, dataGaps) :=
          runAgentAnalysis (T := Result.t) "Data Gaps & Uncertainty Reporter"
            (Throw (notAFunction "contextualAgents.analyzeDataGaps"))
            (clock 36%nat) (clock 37%nat) agents in
        (agents, promiseAll [news; dataGaps])) ;;
   retRun [ ("recentPerformance", VArr (map toJs recentPerformanceResults));
            ("surfaceEnvironment", VArr (map toJs surfaceEnvironmentResults));
            ("statistical", VArr (map toJs statisticalResults));
            ("physical", VArr (map toJs physicalResults));
            ("matchup", VArr (map toJs matchup));
            ("contextual", VArr (map toJs contextualResults)) ])%run.

(** The status updates of one run of [runAgentAnalyses]. *)
Definition analysesTrace (clock : nat -> Z) (schedule : Schedule) : list RegistryEvent :=
  (groupEvents clock recentPerformanceNames (recentPerformanceOrder schedule)
   ++ groupEvents (fun i => clock (6 + i)%nat) surfaceEnvironmentNames
                  (surfaceEnvironmentOrder schedule)
   ++ groupEvents (fun i => clock (10 + i)%nat) statisticalNames (statisticalOrder schedule)
   ++ groupEvents (fun i => clock (20 + i)%nat) physicalNames (physicalOrder schedule)
   ++ [ TaskStarted "Playing Style Profiler" (clock 28%nat);
        TaskSucceeded "Playing Style Profiler" (clock 29%nat);
        TaskStarted "Head-to-Head Analyst" (clock 30%nat);
        TaskSucceeded "Head-to-Head Analyst" (clock 31%nat);
        TaskStarted "Tactical Battle Synthesizer" (clock 32%nat);
        TaskSucceeded "Tactical Battle Synthesizer" (clock 33%nat);
        TaskStarted "News Monitor" (clock 34%nat);
        TaskFailed "News Monitor" (clock 35%nat);
        TaskStarted "Data Gaps & Uncertainty Reporter" (clock 36%nat);
        TaskFailed "Data Gaps & Uncertainty Reporter" (clock 37%nat) ])%list.

(** What a call of [analyzeMatch] works on besides the registry: the outcome
    of the two [storage.getPlayer] lookups, the completion service of the
    synthesis, the outcome of awaiting the [storage.createAgentAnalysis] calls
    together, and [Number.prototype.toString]. *)
Record Services : Type := mkServices {
  getPlayers : Res (option Player.t * option Player.t);
  generatePrediction : Res AiPrediction;
  createAgentAnalyses : list InsertAgentAnalysis.t -> Res unit;
  numberToString : val -> string
}.

(** The [try] block of [analyzeMatch]; the second component lists the
    [storage.createAgentAnalysis] calls made. *)
Definition analyzeMatchTry (services : Services) (w : World) (m : Match.t)
    (clock : nat -> Z) (schedule : Schedule) (agents : gmap string AgentStatus.t)
  : gmap string AgentStatus.t * list InsertAgentAnalysis.t * Res AnalysisResult :=
  match getPlayers services with
  | Throw e => (agents, [], Throw e)
  | Ok (Some player1, Some player2) =>
      let '(agents, analysisResults) :=
        runAgentAnalyses w m player1 player2 clock schedule agents in
      match analysisResults with
      | Throw e => (agents, [], Throw e)
      | Ok analysisResults =>
          let finalPrediction :=
            synthesizePrediction (generatePrediction services) player1 player2
                                 analysisResults in
          let calls :=
            storeAgentAnalyses (numberToString services) (Match.id m) analysisResults in
          (agents, calls,
           (_ <- createAgentAnalyses services calls ;; Ok finalPrediction)%res)
      end
  | Ok _ => (agents, [], Throw "Player data not found")
  end.

(** One call of [analyzeMatch(match)], run to completion. *)
Definition analyzeMatchCall (services : Services) (w : World) (m : Match.t)
    (clock : nat -> Z) (schedule : Schedule)
    (currentAnalysis : gmap string bool) (agents : gmap string AgentStatus.t)
  : gmap string bool * gmap string AgentStatus.t * list InsertAgentAnalysis.t
    * Res AnalysisResult :=
  match analyzeMatchEnter (Match.id m) currentAnalysis with
  | Throw e => (currentAnalysis, agents, [], Throw e)
  | Ok currentAnalysis' =>
      let '(agents', calls, run) := analyzeMatchTry services w m clock schedule agents in
      (analyzeMatchFinally (Match.id m) currentAnalysis', agents', calls, run)
  end.

(** ** POST /api/predictions/analyze (server/routes.ts) *)

Module Response.
Record t : Type := mk { statusCode : nat; body : val }.
End Response.

(** The argument of the [storage.createPrediction] call of the handler. *)
Module PredictionValues.
Record t : Type := mk {
  matchId : val;
  predictedWinnerId : string;
  winProbability : string;
  confidenceLevel : string;
  factorAnalysis : list FactorAnalysis;
  reasoning : val;
  agentContributions : list (string * val)
}.
End PredictionValues.

(** What the handler reaches through [storage] and [agentOrchestrator]: the
    row, if any, that [getPredictionByMatch] finds, the match that [getMatch]
    finds, the row [createPrediction] returns, and the outcome of
    [analyzeMatch]. *)
Module Backend.
Record t : Type := mk {
  getPredictionByMatch : val -> Res val;
  getMatch : val -> Res (option Match.t);
  createPrediction : PredictionValues.t -> Res val;
  analyzeMatch : Match.t -> Res AnalysisResult
}.
End Backend.

(** What a request does besides answering. *)
Inductive Effect : Type :=
| Broadcast (channel : string) (data : val)
| CreatePrediction (values : PredictionValues.t).

(** [v.toString()] *)
Definition toStringOf (numberToString : val -> string) (v : val) : Res string :=
  match v with
  | VUndefined => Throw "Cannot read properties of undefined (reading 'toString')"
  | VNull => Throw "Cannot read properties of null (reading 'toString')"
  | _ => Ok (numberToString v)
  end.

Definition json (statusCode : nat) (body : val) : Response.t :=
  {| Response.statusCode := statusCode; Response.body := body |}.

Definition errorBody (message : string) : val := VObj [("error", VStr message)].

(** The answer of the [catch] block. *)
Definition failedToAnalyze : Response.t := json 500 (errorBody "Failed to analyze match").

(** The handler from [storage.getMatch] on. *)
Definition analyzeAndStore (backend : Backend.t) (numberToString : val -> string)
    (matchId : val) : list Effect * Response.t :=
  match Backend.getMatch backend matchId with
  | Throw _ => ([], failedToAnalyze)
  | Ok None => ([], json 404 (errorBody "Match not found"))
  | Ok (Some m) =>
      let started := Broadcast "analysis:started" (VObj [("matchId", matchId)]) in
      match Backend.analyzeMatch backend m with
      | Throw _ => ([started], failedToAnalyze)
      | Ok analysisResult =>
          match toStringOf numberToString (winProbability analysisResult),
                toStringOf numberToString (confidenceLevel analysisResult) with
          | Ok winProbability, Ok confidenceLevel =>
              let values :=
                {| PredictionValues.matchId := matchId;
                   PredictionValues.predictedWinnerId := predictedWinnerId analysisResult;
                   PredictionValues.winProbability := winProbability;
                   PredictionValues.confidenceLevel := confidenceLevel;
                   PredictionValues.factorAnalysis := factorAnalysis analysisResult;
                   PredictionValues.reasoning := analysisReasoning analysisResult;
                   PredictionValues.agentContributions :=
                     agentContributions analysisResult |} in
              match Backend.createPrediction backend values with
              | Throw _ => ([started; CreatePrediction values], failedToAnalyze)
              | Ok prediction =>
                  ([ started; CreatePrediction values;
                     Broadcast "analysis:completed"
                       (VObj [("matchId", matchId); ("prediction", prediction)]) ],
                   json 200 prediction)
              end
          | _, _ => ([started], failedToAnalyze)
          end
      end
  end.

(** The handler; [body] is [req.body].  Everything runs inside the [try]
    block, whose [catch] answers 500; destructuring [undefined] or [null]
    throws. *)
Definition postAnalyze (backend : Backend.t) (numberToString : val -> string) (body : val)
  : list Effect * Response.t :=
  match body with
  | VUndefined | VNull => ([], failedToAnalyze)
  | _ =>
      let matchId := get body "matchId" in
      let forceRefresh :=
        match get body "forceRefresh" with
        | VUndefined => VBool false
        | v => v
        end in
      if negb (truthy matchId) then ([], json 400 (errorBody "Match ID is required"))
      else if negb (truthy forceRefresh) then
        match Backend.getPredictionByMatch backend matchId with
        | Throw _ => ([], failedToAnalyze)
        | Ok existingPrediction =>
            if truthy existingPrediction then ([], json 200 existingPrediction)
            else analyzeAndStore backend numberToString matchId
        end
      else analyzeAndStore backend numberToString matchId
  end.

(** The backend as the server wires it: [analyzeMatch] is the orchestrator's. *)
Definition wired (backend : Backend.t) (services : Services) (w : World)
    (clock : nat -> Z) (schedule : Schedule) (currentAnalysis : gmap string bool)
    (agents : gmap string AgentStatus.t) : Backend.t :=
  {| Backend.getPredictionByMatch := Backend.getPredictionByMatch backend;
     Backend.getMatch := Backend.getMatch backend;
     Backend.createPrediction := Backend.createPrediction backend;
     Backend.analyzeMatch :=
       fun m => snd (analyzeMatchCall services w m clock schedule currentAnalysis agents) |}.

(** ** Vocabulary: task records and advantage tags *)

(** A record that carries the labels of its task and a conclusion. *)
Definition labelled (t : Task) (r : Result.t) : Prop :=
  Result.agentName r = taskAgentName t /\
  Result.factor r = taskFactor t /\
  Result.conclusion r <> "".

(** The record [compileFactor] makes of a task record. *)
Definition compiled (r : Result.t) : FactorAnalysis :=
  {| factor := VStr (Result.factor r);
     conclusion := VStr (Result.conclusion r);
     advantage := VStr (if String.eqb (Result.advantage r) "" then "none"
                        else Result.advantage r);
     confidence := VNum (if Qeq_bool (Result.confidence r) 0 then 0.5
                         else Result.confidence r);
     reasoning := VStr (Result.reasoning r) |}.

(** The tags an extractor can give: ["none"], ["player"] followed by one
    digit, or ["playerundefined"]. *)
Definition playerTag (tag : string) : Prop :=
  tag = "none" \/ tag = "playerundefined" \/
  exists d, RegExp.isDigit d = true /\ tag = "player" ++ String d "".

(** ** Helpers of the agents: the records they pass around *)

(** The columns of a match row that the helpers read. *)
Module PlayedMatch.
Record t : Type := mk {
  surface : string;
  winnerId : option string;
  score : option string;
  scheduledTime : option Z
}.
End PlayedMatch.

Module RecentStats.
Record t : Type := mk {
  wins : nat;
  losses : nat;
  winRate : Q;
  totalMatches : nat
}.
End RecentStats.

(** [momentum.streakType] *)
Inductive StreakType : Type := win | loss | noStreak.

(** [{ advantage, confidence, winner }] *)
Module Graded.
Record t : Type := mk {
  advantage : string;
  confidence : Q;
  winner : string
}.
End Graded.

Module Momentum.
Record t : Type := mk {
  currentStreak : nat;
  streakType : StreakType;
  consistency : Q;
  recentForm : list nat
}.
End Momentum.

Module ReturnStats.
Record t : Type := mk {
  firstServeReturnWinRate : Q;
  secondServeReturnWinRate : Q;
  breakPointsConverted : Q;
  returnGamesWon : Q;
  averageBreaksPerMatch : Q
}.
End ReturnStats.

Module RallyStats.
Record t : Type := mk {
  avgRallyLength : Q;
  shortRallyWinRate : Q;
  longRallyWinRate : Q;
  winnersToErrors : Q;
  netApproachSuccess : Q
}.
End RallyStats.

Module PressureStats.
Record t : Type := mk {
  tiebreakWinRate : Q;
  decidingSetWinRate : Q;
  breakPointSaveRate : Q;
  breakPointConversionRate : Q;
  fifthSetWins : Z;
  fifthSetLosses : Z
}.
End PressureStats.

Module PhysicalStatus.
Record t : Type := mk {
  recentInjuries : list val;
  fitnessLevel : val;
  recentRetirements : Z;
  medicalTimeouts : Z;
  notes : list val
}.
End PhysicalStatus.

(** The columns of a match row that the head-to-head helpers read. *)
Module H2HMatch.
Record t : Type := mk {
  player1Id : string;
  player2Id : string;
  winner : val
}.
End H2HMatch.

Module H2HStats.
Record t : Type := mk {
  player1Wins : nat;
  player2Wins : nat;
  totalMatches : nat;
  player1WinRate : Q;
  lastWinner : option string
}.
End H2HStats.

Section Helpers.

Local Open Scope Q_scope.

(** ** Recent-performance helpers (server/agents/recentPerformanceAgents.ts) *)

(** [a < b] *)
Definition Qltb (a b : Q) : bool := negb (Qle_bool b a).

(** [match.winnerId === playerId] *)
Definition wonBy (playerId : string) (m : PlayedMatch.t) : bool :=
  match PlayedMatch.winnerId m with
  | Some winner => String.eqb winner playerId
  | None => false
  end.




(** [new Date(match.scheduledTime || 0).getTime()] *)
Definition timeOf (m : PlayedMatch.t) : Z :=
  match PlayedMatch.scheduledTime m with
  | Some t => t
  | None => 0%Z
  end.

(** [matches.sort((a, b) => time(b) - time(a))]: most recent first; the sort
    is stable, matches of the same time keep their order. *)
Fixpoint insertByTime (m : PlayedMatch.t) (sorted : list PlayedMatch.t)
  : list PlayedMatch.t :=
  match sorted with
  | [] => [m]
  | x :: sorted' =>
      if (timeOf x <=? timeOf m)%Z then m :: x :: sorted'
      else x :: insertByTime m sorted'
  end.

Fixpoint sortByTime (matches : list PlayedMatch.t) : list PlayedMatch.t :=
  match matches with
  | [] => []
  | m :: matches' => insertByTime m (sortByTime matches')
  end.

(** The [for] loop of [calculateMomentum], from the state
    [(currentStreak, streakType)]. *)
Fixpoint streakLoop (playerId : string) (currentStreak : nat) (streakType : StreakType)
    (sortedMatches : list PlayedMatch.t) : nat * StreakType :=
  match sortedMatches with
  | [] => (currentStreak, streakType)
  | m :: sortedMatches' =>
      let isWin := wonBy playerId m in
      match currentStreak with
      | O => streakLoop playerId 1%nat (if isWin then win else loss) sortedMatches'
      | _ =>
          if match streakType with
             | win => isWin
             | loss => negb isWin
             | noStreak => false
             end
          then streakLoop playerId (S currentStreak) streakType sortedMatches'
          else (currentStreak, streakType)
      end
  end.

Definition calculateMomentum (matches : list PlayedMatch.t) (playerId : string)
  : Momentum.t :=
  match matches with
  | [] => {| Momentum.currentStreak := 0%nat; Momentum.streakType := noStreak;
             Momentum.consistency := 0; Momentum.recentForm := [] |}
  | _ =>
      let sortedMatches := sortByTime matches in
      let streak := streakLoop playerId 0%nat noStreak sortedMatches in
      let recentResults :=
        map (fun m => if wonBy playerId m then 1%nat else 0%nat) (firstn 5 sortedMatches) in
      let wins := length (List.filter (Nat.eqb 1) recentResults) in
      let consistency :=
        inject_Z (Z.of_nat wins) / inject_Z (Z.of_nat (length recentResults)) in
      {| Momentum.currentStreak := fst streak;
         Momentum.streakType := snd streak;
         Momentum.consistency := consistency;
         Momentum.recentForm := recentResults |}
  end.

Definition scoreMomentum (momentum : Momentum.t) : Q :=
  let score := Momentum.consistency momentum * 0.6 in
  let score :=
    match Momentum.streakType momentum with
    | win => score + Qmin (inject_Z (Z.of_nat (Momentum.currentStreak momentum)) * 0.1) 0.4
    | loss => score - Qmin (inject_Z (Z.of_nat (Momentum.currentStreak momentum)) * 0.1) 0.4
    | noStreak => score
    end in
  Qmax 0 (Qmin 1 score).









(** The conclusion a recent-performance task writes for a grade. *)
Definition gradedConclusion (g : Graded.t) : string :=
  if String.eqb (Graded.advantage g) "none" then "No Clear Advantage"
  else "Advantage " ++ Graded.winner g.

(** ** Statistical helpers (server/agents/statisticalAgents.ts) *)







(** The draws of [Math.random()]: at least 0, below 1. *)
Definition unitDraws (draw : nat -> Q) : Prop := forall i, 0 <= draw i /\ draw i < 1.

(** ** Physical-condition helpers (server/agents/physicalConditionAgents.ts) *)

(** [fitnessLevel] is the field of that name of the player; [draw] is the
    draw of [Math.random()]. *)
Definition getPlayerPhysicalStatus (fitnessLevel : val) (draw : Q) : PhysicalStatus.t :=
  {| PhysicalStatus.recentInjuries := [];
     PhysicalStatus.fitnessLevel := or fitnessLevel (VStr "good");
     PhysicalStatus.recentRetirements := 0;
     PhysicalStatus.medicalTimeouts := Qfloor (draw * 2);
     PhysicalStatus.notes := [] |}.

Definition calculateFitnessConfidence (status1 status2 : PhysicalStatus.t) : Q :=
  if (0 <? length (PhysicalStatus.recentInjuries status1))%nat
     || (0 <? length (PhysicalStatus.recentInjuries status2))%nat then 0.9
  else if (0 <? PhysicalStatus.medicalTimeouts status1)%Z
          || (0 <? PhysicalStatus.medicalTimeouts status2)%Z then 0.75
  else 0.5.

Definition determineCareerStage (age : Q) : string :=
  if Qltb age 21 then "Rising"
  else if Qltb age 25 then "Developing"
  else if Qltb age 30 then "Prime"
  else if Qltb age 33 then "Experienced"
  else "Veteran".

Definition isInPhysicalPrime (age : Q) : bool := Qle_bool 23 age && Qle_bool age 29.

(** ** Match-up helpers (server/agents/matchupAgents.ts) *)

(** Who of the two won [m], seen from [player1Id]. *)
Definition h2hWinner (player1Id : string) (m : H2HMatch.t) : string :=
  if isStr (H2HMatch.winner m) "player1"
  then (if String.eqb (H2HMatch.player1Id m) player1Id then "player1" else "player2")
  else (if String.eqb (H2HMatch.player2Id m) player1Id then "player1" else "player2").

Definition calculateH2HStats (matches : list H2HMatch.t) (player1Id player2Id : string)
  : H2HStats.t :=
  let player1Wins :=
    length (List.filter
              (fun m => String.eqb (H2HMatch.player1Id m) player1Id
                        && isStr (H2HMatch.winner m) "player1"
                        || String.eqb (H2HMatch.player2Id m) player1Id
                           && isStr (H2HMatch.winner m) "player2") matches) in
  let player2Wins := (length matches - player1Wins)%nat in
  {| H2HStats.player1Wins := player1Wins;
     H2HStats.player2Wins := player2Wins;
     H2HStats.totalMatches := length matches;
     H2HStats.player1WinRate :=
       if (0 <? length matches)%nat
       then inject_Z (Z.of_nat player1Wins) / inject_Z (Z.of_nat (length matches))
       else 0;
     H2HStats.lastWinner :=
       match matches with
       | m :: _ => Some (h2hWinner player1Id m)
       | [] => None
       end |}.

(** The loop of [analyzePsychologicalFactors]: a streak is pushed when the
    next match has another winner. *)
Fixpoint streaksFrom (player1Id : string) (currentStreak : string * nat)
    (matches : list H2HMatch.t) : list (string * nat) :=
  match matches with
  | [] => []
  | m :: matches' =>
      let winner := h2hWinner player1Id m in
      if String.eqb winner (fst currentStreak)
      then streaksFrom player1Id (fst currentStreak, S (snd currentStreak)) matches'
      else (if (3 <=? snd currentStreak)%nat then [currentStreak] else [])
           ++ streaksFrom player1Id (winner, 1%nat) matches'
  end.

(** [stats.player2WinRate] is read off an object that has no such property:
    the comparison [undefined > 0.75] is false. *)
Definition analyzePsychologicalFactors (matches : list H2HMatch.t)
    (player1Id player2Id : string) : string * list (string * nat) :=
  match matches with
  | [] => ("none", [])
  | _ =>
      let stats := calculateH2HStats matches player1Id player2Id in
      let dominance :=
        if Qgtb (H2HStats.player1WinRate stats) 0.75 && (4 <=? length matches)%nat
        then "player1"
        else if false && (4 <=? length matches)%nat then "player2"
        else "none" in
      (dominance, streaksFrom player1Id ("", 0%nat) matches)
  end.

(** [overall] is the statistics object; the second argument is not read. *)
Definition calculateH2HConfidence (overall surface : H2HStats.t) : Q :=
  if (H2HStats.totalMatches overall =? 0)%nat then 0.0
  else
    let winRateDiff := Qabs (H2HStats.player1WinRate overall - 0.5) * 2 in
    let sampleConfidence :=
      Qmin 1.0 (inject_Z (Z.of_nat (H2HStats.totalMatches overall)) / 10) in
    winRateDiff * sampleConfidence * 0.8 + 0.2.

(** ** Contextual helpers (server/agents/contextualAgents.ts) *)

(** The filter of [calculateDataCoverage]. *)
Definition completedFactor (r : Result.t) : bool :=
  negb (String.eqb (Result.conclusion r) "Analysis Error")
  && Qgtb (Result.confidence r) 0.1.

Definition calculateDataCoverage (agentResults : list Result.t) : Q :=
  let totalFactors := 17 in
  let completedFactors := length (List.filter completedFactor agentResults) in
  inject_Z (Z.of_nat completedFactors) / totalFactors.

Definition calculateReliabilityScore (agentResults : list Result.t) : Q :=
  match agentResults with
  | [] => 0
  | _ =>
      let avgConfidence :=
        fold_left (fun sum r => sum + Result.confidence r) agentResults 0
        / inject_Z (Z.of_nat (length agentResults)) in
      let coverage := calculateDataCoverage agentResults in
      avgConfidence * 0.7 + coverage * 0.3
  end.

End Helpers.

(** ** The WebSocket relay (server/routes.ts) *)

(** [WebSocket.OPEN] and [WebSocket.CLOSED] *)
Definition OPEN : nat := 1.
Definition CLOSED : nat := 3.

(** A [WebSocketClient] object together with its socket: the frames sent on
    the socket, oldest first.  [subscriptions] keeps the strings of the [Set];
    members of another type are never looked up. *)
Module Client.
Record t : Type := mk {
  id : string;
  subscriptions : gset string;
  readyState : nat;
  sent : list val
}.
End Client.

(** The connections, numbered in the order in which they were accepted, each
    with the [client] object its handlers close over, and the module-level
    [clients] map, which holds a reference to the object registered under
    each id. *)
Record Relay : Type := mkRelay {
  connections : gmap nat Client.t;
  clients : gmap string nat;
  accepted : nat
}.

Definition noRelay : Relay := {| connections := ∅; clients := ∅; accepted := 0 |}.

(** [ws.send(JSON.stringify(frame))]: nothing leaves a socket that is not
    open. *)
Definition send (frame : val) (client : Client.t) : Client.t :=
  if (Client.readyState client =? OPEN)%nat then
    {| Client.id := Client.id client;
       Client.subscriptions := Client.subscriptions client;
       Client.readyState := Client.readyState client;
       Client.sent := Client.sent client ++ [frame] |}
  else client.

Definition withSubscriptions (subscriptions : gset string) (client : Client.t) : Client.t :=
  {| Client.id := Client.id client;
     Client.subscriptions := subscriptions;
     Client.readyState := Client.readyState client;
     Client.sent := Client.sent client |}.

Definition withReadyState (readyState : nat) (client : Client.t) : Client.t :=
  {| Client.id := Client.id client;
     Client.subscriptions := Client.subscriptions client;
     Client.readyState := readyState;
     Client.sent := Client.sent client |}.

(** [broadcastToSubscribers(channel, data)]: [clients.forEach] visits the
    object registered under each id once; the visits write to different
    sockets, so their order does not matter. *)
Definition broadcastToSubscribers (channel : string) (data : val) (relay : Relay) : Relay :=
  {| connections :=
       map_imap (fun ws client =>
                   Some (if bool_decide (clients relay !! Client.id client = Some ws)
                            && bool_decide (channel ∈ Client.subscriptions client)
                         then send (VObj [("channel", VStr channel); ("data", data)]) client
                         else client))
                (connections relay);
     clients := clients relay;
     accepted := accepted relay |}.

(** The [connection] handler; [clientId] is the id drawn for the client. *)
Definition onConnection (clientId : string) (relay : Relay) : Relay :=
  let client :=
    {| Client.id := clientId; Client.subscriptions := ∅;
       Client.readyState := OPEN; Client.sent := [] |} in
  {| connections :=
       <[ accepted relay :=
            send (VObj [ ("type", VStr "connected"); ("clientId", VStr clientId);
                         ("message", VStr "Connected to Divine Tennis AI Oracle") ])
                 client ]> (connections relay);
     clients := <[ clientId := accepted relay ]> (clients relay);
     accepted := S (accepted relay) |}.

(** The strings among the values a [Set] is asked to add or delete. *)
Definition channelOf (message : val) : option string :=
  match get message "channel" with
  | VStr channel => Some channel
  | _ => None
  end.

(** The [message] handler of connection [ws]; [parsed] is the outcome of
    [JSON.parse(data.toString())].  The [catch] block only logs. *)
Definition onMessage (ws : nat) (parsed : Res val) (relay : Relay) : Relay :=
  match connections relay !! ws, parsed with
  | Some client, Ok message =>
      let acknowledged (type : string) (subscriptions : gset string) :=
        {| connections :=
             <[ ws := send (VObj [ ("type", VStr type);
                                   ("channel", get message "channel");
                                   ("clientId", VStr (Client.id client)) ])
                           (withSubscriptions subscriptions client) ]> (connections relay);
           clients := clients relay;
           accepted := accepted relay |} in
      match message with
      | VNull => relay
      | _ =>
          if isStr (get message "type") "subscribe" then
            acknowledged "subscribed"
              (match channelOf message with
               | Some channel => {[ channel ]} ∪ Client.subscriptions client
               | None => Client.subscriptions client
               end)
          else if isStr (get message "type") "unsubscribe" then
            acknowledged "unsubscribed"
              (match channelOf message with
               | Some channel => Client.subscriptions client ∖ {[ channel ]}
               | None => Client.subscriptions client
               end)
          else if isStr (get message "type") "ping" then
            {| connections :=
                 <[ ws := send (VObj [ ("type", VStr "pong");
                                       ("clientId", VStr (Client.id client)) ]) client ]>
                   (connections relay);
               clients := clients relay;
               accepted := accepted relay |}
          else relay
      end
  | _, _ => relay
  end.

(** The [close] handler of connection [ws], run when its socket has closed:
    [clients.delete(clientId)]. *)
Definition onClose (ws : nat) (relay : Relay) : Relay :=
  match connections relay !! ws with
  | Some client =>
      {| connections := <[ ws := withReadyState CLOSED client ]> (connections relay);
         clients := delete (Client.id client) (clients relay);
         accepted := accepted relay |}
  | None => relay
  end.

(** The [error] handler of connection [ws]. *)
Definition onError (ws : nat) (relay : Relay) : Relay :=
  match connections relay !! ws with
  | Some client =>
      {| connections := connections relay;
         clients := delete (Client.id client) (clients relay);
         accepted := accepted relay |}
  | None => relay
  end.

Inductive RelayEvent : Type :=
| ClientConnected (clientId : string)
| FrameReceived (ws : nat) (parsed : Res val)
| SocketClosed (ws : nat)
| SocketFailed (ws : nat)
| Broadcasted (channel : string) (data : val).

Definition relayStep (relay : Relay) (e : RelayEvent) : Relay :=
  match e with
  | ClientConnected clientId => onConnection clientId relay
  | FrameReceived ws parsed => onMessage ws parsed relay
  | SocketClosed ws => onClose ws relay
  | SocketFailed ws => onError ws relay
  | Broadcasted channel data => broadcastToSubscribers channel data relay
  end.

Definition relayRun (es : list RelayEvent) : Relay := fold_left relayStep es noRelay.

(** The frames connection [ws] has been sent. *)
Definition framesOf (relay : Relay) (ws : nat) : list val :=
  match connections relay !! ws with
  | Some client => Client.sent client
  | None => []
  end.

(** The frame a subscriber of [channel] is sent. *)
Definition channelFrame (channel : string) (data : val) : val :=
  VObj [("channel", VStr channel); ("data", data)].

(** The parsed frame [{type: "subscribe", channel}]. *)
Definition subscribeTo (channel : string) : Res val :=
  Ok (VObj [("type", VStr "subscribe"); ("channel", VStr channel)]).


(** ** The completion client (server/services/openai.ts) *)

Module AIAnalysisRequest.
Record t : Type := mk {
  prompt : string;
  systemPrompt : option string;
  temperature : option Q;
  maxTokens : option Z;
  model : option string
}.
End AIAnalysisRequest.

Module Usage.
Record t : Type := mk {
  promptTokens : Z;
  completionTokens : Z;
  totalTokens : Z
}.
End Usage.

Module AIAnalysisResponse.
Record t : Type := mk {
  content : string;
  usage : option Usage.t
}.
End AIAnalysisResponse.

(** The argument of [openai.chat.completions.create]. *)
Module ChatRequest.
Record t : Type := mk {
  model : string;
  system : string;
  user : string;
  temperature : Q;
  max_tokens : Z
}.
End ChatRequest.

(** What the method reads off a completion: [choices[0]?.message?.content],
    a string unless it is [null] or missing, and [usage]. *)
Module ChatCompletion.
Record t : Type := mk {
  content : option string;
  usage : option Usage.t
}.
End ChatCompletion.









(** * Properties *)

(** ** Synthesizer *)

Lemma filter_length_countFavoring (tags : list string) (f : FactorAnalysis -> bool)
    (fas : list FactorAnalysis) :
  (forall fa, f fa = existsb (isStr (advantage fa)) tags) ->
  length (List.filter f fas) = countFavoring tags fas.
Proof.
  intros Hf. induction fas as [|fa fas IH]; simpl; [reflexivity|].
  rewrite Hf. destruct (existsb _ tags); simpl; rewrite IH; reflexivity.
Qed.

Lemma player1Advantages_count (fas : list FactorAnalysis) :
  length (List.filter favorsPlayer1 fas) = favoringPlayer1 fas.
Proof.
  apply filter_length_countFavoring. intros fa. unfold favorsPlayer1. simpl.
  rewrite orb_false_r. reflexivity.
Qed.

Lemma player2Advantages_count (fas : list FactorAnalysis) :
  length (List.filter favorsPlayer2 fas) = favoringPlayer2 fas.
Proof.
  apply filter_length_countFavoring. intros fa. unfold favorsPlayer2. simpl.
  rewrite orb_false_r. reflexivity.
Qed.

Lemma Qmax_Qmin_clamp (x lo hi : Q) :
  (lo <= hi)%Q -> Qmax lo (Qmin hi x) == clamp x lo hi.
Proof.
  intros Hle. unfold clamp.
  destruct (Qlt_le_dec x lo) as [Hlt|Hge].
  - rewrite (Q.min_r hi x) by (apply Qlt_le_weak; eapply Qlt_le_trans; eauto).
    apply Q.max_l. apply Qlt_le_weak. exact Hlt.
  - destruct (Qlt_le_dec hi x) as [Hgt|Hle'].
    + rewrite (Q.min_l hi x) by (apply Qlt_le_weak; exact Hgt).
      apply Q.max_r. exact Hle.
    + rewrite (Q.min_r hi x) by exact Hle'.
      apply Q.max_r. exact Hge.
Qed.

Lemma Qabs_count_difference (n1 n2 : nat) :
  Qabs (inject_Z (Z.of_nat n1 - Z.of_nat n2)) == countDifference n1 n2.
Proof.
  unfold countDifference, Qabs, inject_Z. simpl.
  unfold Qeq. simpl. f_equal. lia.
Qed.

Lemma fallback_winProbability (player1 player2 : Player.t) (ars : list (string * val))
    (fas : list FactorAnalysis) :
  isNum (winProbability (fallbackPrediction player1 player2 ars fas))
        (clamp (0.5 + 0.05 * countDifference (favoringPlayer1 fas) (favoringPlayer2 fas))
               0.5 0.9).
Proof.
  unfold fallbackPrediction. cbn [winProbability isNum].
  rewrite player1Advantages_count, player2Advantages_count.
  assert (Hx : 0.5 + Qabs (inject_Z (Z.of_nat (favoringPlayer1 fas)
                                     - Z.of_nat (favoringPlayer2 fas))) * 0.05
               == 0.5 + 0.05 * countDifference (favoringPlayer1 fas) (favoringPlayer2 fas)).
  { rewrite Qabs_count_difference. ring. }
  rewrite Hx. apply Qmax_Qmin_clamp. unfold Qle; simpl; lia.
Qed.



(** C9: whenever as many factor records favour player 1 as favour player 2
    (the empty list included) the fallback returns player 2's id with win
    probability 0.5 and confidence 0.75; the path divides nothing and cannot
    fail. *)
Theorem fallback_tie_elects_player2 :
  forall (player1 player2 : Player.t) (ars : list (string * val))
         (fas : list FactorAnalysis),
    favoringPlayer1 fas = favoringPlayer2 fas ->
    let r := fallbackPrediction player1 player2 ars fas in
    predictedWinnerId r = Player.id player2 /\
    isNum (winProbability r) 0.5 /\
    isNum (confidenceLevel r) 0.75 /\
    (let r0 := fallbackPrediction player1 player2 ars [] in
     predictedWinnerId r0 = Player.id player2 /\
     isNum (winProbability r0) 0.5 /\
     isNum (confidenceLevel r0) 0.75) /\
    (forall e, fas = compileFactorAnalyses ars ->
               synthesizePrediction (Throw e) player1 player2 ars = r).
Proof.
  intros player1 player2 ars fas Htie r.
  split; [|split; [|split; [|split]]]; [| | | |intros e ->; reflexivity].
  - unfold r, fallbackPrediction. simpl.
    rewrite player1Advantages_count, player2Advantages_count, Htie.
    rewrite Nat.ltb_irrefl. reflexivity.
  - unfold r, fallbackPrediction. cbn [winProbability isNum].
    rewrite player1Advantages_count, player2Advantages_count, Htie.
    rewrite Z.sub_diag. reflexivity.
  - reflexivity.
  - cbv zeta. split; [reflexivity | split; reflexivity].
Qed.

Lemma fallback_tie_elects_player2_witness :
  predictedWinnerId
    (fallbackPrediction alice bob []
       [factorWithAdvantage "player2"; factorWithAdvantage "slight_player1"])
  = "p-2".
Proof.
  apply (fallback_tie_elects_player2 alice bob []
           [factorWithAdvantage "player2"; factorWithAdvantage "slight_player1"]).
  reflexivity.
Defined.

(** C4, as stated, fails: with no factor record at all the fallback leaves
    nothing undefined, it elects player 2. *)
Lemma fallback_empty_winner_defined :
  ~ winnerUndefined alice bob (synthesizePrediction (Throw "synthesis failed") alice bob []).
Proof.
  intros [_ Hne]. apply Hne. reflexivity.
Qed.

(** C4 (amended): on the empty factor list the fallback performs no division;
    it returns player 2's id, win probability 0.5 and confidence 0.75, and
    reports zero factors for either player. *)
Theorem fallback_empty_factor_list :
  forall (player1 player2 : Player.t) (ars : list (string * val)),
    fallbackPrediction player1 player2 ars []
    = {| predictedWinnerId := Player.id player2;
         winProbability := VNum 0.5;
         confidenceLevel := VNum 0.75;
         factorAnalysis := [];
         analysisReasoning :=
           VStr ("Based on factor analysis: 0 factors favor " ++ Player.name player1
                 ++ ", 0 factors favor " ++ Player.name player2
                 ++ ". Prediction made using fallback majority vote system.");
         agentContributions := ars |}.
Proof.
  intros player1 player2 ars. reflexivity.
Qed.


Lemma compileFactor_In (category : string) (result : val) (fa : FactorAnalysis) :
  In fa (compileFactor category result) ->
  truthy (conclusion fa) = true /\ truthy (confidence fa) = true.
Proof.
  unfold compileFactor.
  destruct (truthy result); simpl; [|tauto].
  destruct (truthy (get result "conclusion")) eqn:Hc; simpl; [|tauto].
  intros [<-|[]]. simpl. split; [exact Hc|].
  unfold or. destruct (truthy (get result "confidence")) eqn:Hk; [exact Hk|reflexivity].
Qed.



(** The whole synthesizer on the outputs of two groups, the primary path
    failing: the error record of the serve task is kept with confidence 0.5
    and favours nobody, the record without conclusion is dropped. *)
Example synthesizePrediction_run :
  let w := failingWorld "completion failed" 5 in
  let ars :=
    [ ("statistical", VArr [toJs (analyzeServePerformance w final alice bob)]);
      ("matchup",
       VArr [ VObj [("conclusion", VStr "Advantage Player 1"); ("advantage", VStr "player1")];
              VObj [("advantage", VStr "player2")];
              VUndefined ]);
      ("elapsed", VNum 5) ] in
  let r := synthesizePrediction (Throw "generatePrediction is not a function") alice bob ars in
  predictedWinnerId r = "p-1" /\
  winProbability r = VNum (Qmax 0.5 (Qmin 0.9 (0.5 + 1 * 0.05))) /\
  map advantage (factorAnalysis r) = [VStr "none"; VStr "player1"] /\
  map confidence (factorAnalysis r) = [VNum 0.5; VNum 0.5] /\
  map factor (factorAnalysis r) = [VStr "Factor 3.1 (Serve Performance)"; VStr "matchup"] /\
  analysisReasoning r
  = VStr "Based on factor analysis: 1 factors favor Alice, 0 factors favor Bob. Prediction made using fallback majority vote system.".
Proof.
  cbv zeta. repeat split.
Qed.

(** ** Task functions *)






(** The serve task with an answering completion client: two of the three
    serve metrics differ by more than 0.1, hence the confidence 0.8. *)
Example analyzeServePerformance_run :
  let r := analyzeServePerformance (answeringWorld "Serve: **Advantage Player 1**")
                                   final alice bob in
  Result.conclusion r = "Advantage Player 1" /\
  Result.advantage r = "player1" /\
  Result.confidence r == 0.8 /\
  get (get (Result.analysis r) "player1") "name" = VStr "Alice".
Proof.
  cbv zeta. repeat split.
Qed.

(** ** The agent-status registry *)

Lemma updateAgentStatus_statusOf (agentName : string) (status : Status) (t : Z)
    (agents : gmap string AgentStatus.t) :
  is_Some (agents !! agentName) ->
  statusOf (updateAgentStatus agentName status t agents) agentName = Some status.
Proof.
  intros [agent Hagent]. unfold statusOf, updateAgentStatus.
  rewrite Hagent, lookup_insert_eq. reflexivity.
Qed.

Lemma updateAgentStatus_lookup_ne (agentName other : string) (status : Status) (t : Z)
    (agents : gmap string AgentStatus.t) :
  agentName <> other ->
  updateAgentStatus agentName status t agents !! other = agents !! other.
Proof.
  intros Hne. unfold updateAgentStatus.
  destruct (agents !! agentName); [apply lookup_insert_ne; exact Hne | reflexivity].
Qed.

Lemma updateAgentStatus_is_Some (agentName other : string) (status : Status) (t : Z)
    (agents : gmap string AgentStatus.t) :
  is_Some (updateAgentStatus agentName status t agents !! other) <-> is_Some (agents !! other).
Proof.
  destruct (decide (agentName = other)) as [<-|Hne].
  - unfold updateAgentStatus. destruct (agents !! agentName) eqn:E.
    + rewrite lookup_insert_eq. split; eauto.
    + rewrite E. reflexivity.
  - rewrite updateAgentStatus_lookup_ne by exact Hne. reflexivity.
Qed.

Lemma applyEvent_update (agents : gmap string AgentStatus.t) (e : RegistryEvent) :
  applyEvent agents e = updateAgentStatus (eventAgent e) (eventStatus e) (eventTime e) agents.
Proof. destruct e; reflexivity. Qed.

Lemma eventStatus_not_idle (e : RegistryEvent) : eventStatus e <> idle.
Proof. destruct e; discriminate. Qed.

Lemma applyEvents_untouched (es : list RegistryEvent) (agents : gmap string AgentStatus.t)
    (agentName : string) :
  ~ In agentName (map eventAgent es) ->
  applyEvents agents es !! agentName = agents !! agentName.
Proof.
  revert agents. induction es as [|e es IH]; intros agents Hnot; [reflexivity|].
  simpl in *. unfold applyEvents in *. simpl. rewrite IH by tauto.
  rewrite applyEvent_update. apply updateAgentStatus_lookup_ne. tauto.
Qed.

Lemma applyEvents_is_Some (es : list RegistryEvent) (agents : gmap string AgentStatus.t)
    (agentName : string) :
  is_Some (applyEvents agents es !! agentName) <-> is_Some (agents !! agentName).
Proof.
  revert agents. induction es as [|e es IH]; intros agents; [reflexivity|].
  unfold applyEvents in *. simpl. rewrite IH, applyEvent_update.
  apply updateAgentStatus_is_Some.
Qed.

Lemma applyEvents_stays_busy (es : list RegistryEvent) (agents : gmap string AgentStatus.t)
    (agentName : string) :
  (forall a, agents !! agentName = Some a -> AgentStatus.status a <> idle) ->
  forall a, applyEvents agents es !! agentName = Some a -> AgentStatus.status a <> idle.
Proof.
  revert agents. induction es as [|e es IH]; intros agents Hbusy a Ha; [eauto|].
  unfold applyEvents in *. simpl in Ha. eapply IH; [|exact Ha].
  intros a' Ha'. rewrite applyEvent_update in Ha'.
  destruct (decide (eventAgent e = agentName)) as [Heq|Hne].
  - unfold updateAgentStatus in Ha'. rewrite Heq in Ha'.
    destruct (agents !! agentName) eqn:E.
    + rewrite lookup_insert_eq in Ha'. injection Ha' as <-. simpl.
      apply eventStatus_not_idle.
    + rewrite E in Ha'. discriminate.
  - rewrite updateAgentStatus_lookup_ne in Ha' by exact Hne. eauto.
Qed.

Lemma applyEvents_touched (es : list RegistryEvent) (agents : gmap string AgentStatus.t)
    (agentName : string) :
  In agentName (map eventAgent es) ->
  forall a, applyEvents agents es !! agentName = Some a -> AgentStatus.status a <> idle.
Proof.
  revert agents. induction es as [|e es IH]; intros agents Hin a Ha; [contradiction|].
  unfold applyEvents in *. simpl in Ha.
  destruct (decide (eventAgent e = agentName)) as [Heq|Hne].
  - eapply (applyEvents_stays_busy es); [|exact Ha].
    intros a' Ha'. rewrite applyEvent_update, Heq in Ha'. unfold updateAgentStatus in Ha'.
    destruct (agents !! agentName) eqn:E.
    + rewrite lookup_insert_eq in Ha'. injection Ha' as <-. simpl.
      apply eventStatus_not_idle.
    + rewrite E in Ha'. discriminate.
  - simpl in Hin. destruct Hin as [Hin|Hin]; [contradiction|]. eapply IH; eauto.
Qed.

Lemma registerAgents_idle (t : Z) (random : nat -> Q) (definitions : list (string * string)) :
  forall (i : nat) (agents : gmap string AgentStatus.t),
    (forall n a, agents !! n = Some a -> AgentStatus.status a = idle) ->
    forall n a, registerAgents t random i definitions agents !! n = Some a ->
                AgentStatus.status a = idle.
Proof.
  induction definitions as [|d definitions IH]; intros i agents Hidle n a Ha; [eauto|].
  simpl in Ha. eapply IH; [|exact Ha].
  intros n' a' Ha'. destruct (decide (fst d = n')) as [<-|Hne].
  - rewrite lookup_insert_eq in Ha'. injection Ha' as <-. reflexivity.
  - rewrite lookup_insert_ne in Ha' by exact Hne. eauto.
Qed.

Lemma initializeAgents_idle (t : Z) (random : nat -> Q) (n : string) (a : AgentStatus.t) :
  initializeAgents t random !! n = Some a -> AgentStatus.status a = idle.
Proof.
  apply registerAgents_idle. intros n' a' Ha'. rewrite lookup_empty in Ha'. discriminate.
Qed.

(** C8: every entry of the registry is a state machine over idle, processing,
    active and error.  In every state the registry reaches from process start,
    starting the task of an entry makes its status "processing" whatever it
    was, success makes it "active" and failure "error" (one by one, and in
    [runAgentAnalysis] as a whole); and an entry is idle exactly as long as no
    run has touched it, that is, only at process start. *)
Theorem registry_state_machine :
  forall (t0 : Z) (random : nat -> Q) (es : list RegistryEvent)
         (agentName : string) (agent : AgentStatus.t),
    let agents := applyEvents (initializeAgents t0 random) es in
    agents !! agentName = Some agent ->
    In (AgentStatus.status agent) [idle; processing; active; error] /\
    (forall t, statusOf (applyEvent agents (TaskStarted agentName t)) agentName
               = Some processing) /\
    (forall t, statusOf (applyEvent agents (TaskSucceeded agentName t)) agentName
               = Some active) /\
    (forall t, statusOf (applyEvent agents (TaskFailed agentName t)) agentName
               = Some error) /\
    (forall (T : Type) (outcome : Res T) (t1 t2 : Z),
        statusOf (updateAgentStatus agentName processing t1 agents) agentName
        = Some processing /\
        statusOf (fst (runAgentAnalysis agentName outcome t1 t2 agents)) agentName
        = Some (match outcome with Ok _ => active | Throw _ => error end)) /\
    (AgentStatus.status agent = idle <-> ~ In agentName (map eventAgent es)).
Proof.
  intros t0 random es agentName agent agents Hagent.
  assert (Hsome : is_Some (agents !! agentName)) by eauto.
  split; [|split; [|split; [|split; [|split]]]].
  - destruct (AgentStatus.status agent); simpl; tauto.
  - intros t. apply updateAgentStatus_statusOf. exact Hsome.
  - intros t. apply updateAgentStatus_statusOf. exact Hsome.
  - intros t. apply updateAgentStatus_statusOf. exact Hsome.
  - intros T outcome t1 t2. split.
    + apply updateAgentStatus_statusOf. exact Hsome.
    + unfold runAgentAnalysis.
      destruct outcome; simpl; apply updateAgentStatus_statusOf;
        apply updateAgentStatus_is_Some; exact Hsome.
  - split.
    + intros Hidle Hin. eapply applyEvents_touched; eauto.
    + intros Hnot. unfold agents in Hagent.
      rewrite applyEvents_untouched in Hagent by exact Hnot.
      eapply initializeAgents_idle. exact Hagent.
Qed.

Lemma registry_state_machine_witness :
  statusOf
    (applyEvent
       (applyEvents (initializeAgents 0 (fun _ => 0.5%Q))
          [TaskStarted "News Monitor" 1; TaskFailed "News Monitor" 2])
       (TaskStarted "News Monitor" 3))
    "News Monitor"
  = Some processing.
Proof.
  assert (Hagent : is_Some (applyEvents (initializeAgents 0 (fun _ => 0.5%Q))
                              [TaskStarted "News Monitor" 1; TaskFailed "News Monitor" 2]
                            !! "News Monitor")).
  { apply applyEvents_is_Some. vm_compute. eauto. }
  destruct Hagent as [agent Hagent].
  exact (proj1 (proj2 (registry_state_machine 0 (fun _ => 0.5%Q)
                         [TaskStarted "News Monitor" 1; TaskFailed "News Monitor" 2]
                         "News Monitor" agent Hagent)) 3%Z).
Defined.

(** A name without an entry is ignored by [updateAgentStatus]; the
    orchestrator runs one such name. *)
Lemma updateAgentStatus_unregistered (agentName : string) (status : Status) (t : Z)
    (agents : gmap string AgentStatus.t) :
  agents !! agentName = None -> updateAgentStatus agentName status t agents = agents.
Proof.
  intros H. unfold updateAgentStatus. rewrite H. reflexivity.
Qed.

Example physical_toll_analyst_unregistered :
  initializeAgents 0 (fun _ => 0.5%Q) !! "Recent Match Physical Toll Analyst" = None /\
  size (initializeAgents 0 (fun _ => 0.5%Q)) = 18.
Proof.
  split; vm_compute; reflexivity.
Qed.

(** ** The per-match guard *)

Lemma inFlightb_In (matchId : string) (runs : Runs) :
  inFlightb matchId runs = true <-> In matchId (inFlight runs).
Proof.
  unfold inFlightb. rewrite existsb_exists. split.
  - intros [x [Hin Heq]]. apply String.eqb_eq in Heq. subst. exact Hin.
  - intros Hin. exists matchId. split; [exact Hin | apply String.eqb_refl].
Qed.

Lemma removeOne_In (x y : string) (l : list string) :
  NoDup l -> (In x (removeOne y l) <-> In x l /\ x <> y).
Proof.
  induction 1 as [|z l Hz Hnd IH]; simpl; [tauto|].
  destruct (String.eqb_spec y z) as [->|Hne].
  - split.
    + intros Hin. split; [tauto|]. intros ->. rewrite <- list_elem_of_In in Hin. contradiction.
    + intros [[->|Hin] Hxz]; [contradiction | exact Hin].
  - simpl. rewrite IH. split.
    + intros [->|[Hin Hxy]]; [split; [tauto | congruence] | tauto].
    + intros [[->|Hin] Hxy]; tauto.
Qed.

Lemma removeOne_NoDup (y : string) (l : list string) : NoDup l -> NoDup (removeOne y l).
Proof.
  induction 1 as [|z l Hz Hnd IH]; simpl; [constructor|].
  destruct (String.eqb_spec y z) as [->|Hne]; [exact Hnd|].
  constructor; [|exact IH].
  rewrite list_elem_of_In, removeOne_In by exact Hnd.
  rewrite <- list_elem_of_In. tauto.
Qed.

Lemma guardInvariant_step (runs : Runs) (e : CallEvent) :
  guardInvariant runs -> guardInvariant (stepRuns runs e).
Proof.
  intros [Hnd Hiff]. destruct e as [matchId|matchId]; simpl.
  - unfold analyzeMatchEnter.
    destruct (currentAnalysis runs !! matchId) as [[|]|] eqn:E; try (split; assumption).
    + split; simpl.
      * constructor; [|exact Hnd]. rewrite list_elem_of_In, Hiff, E. discriminate.
      * intros x. destruct (decide (matchId = x)) as [<-|Hne].
        -- rewrite lookup_insert_eq. tauto.
        -- rewrite lookup_insert_ne by exact Hne. rewrite <- Hiff. tauto.
    + split; simpl.
      * constructor; [|exact Hnd]. rewrite list_elem_of_In, Hiff, E. discriminate.
      * intros x. destruct (decide (matchId = x)) as [<-|Hne].
        -- rewrite lookup_insert_eq. tauto.
        -- rewrite lookup_insert_ne by exact Hne. rewrite <- Hiff. tauto.
  - destruct (inFlightb matchId runs) eqn:E; [|split; assumption].
    split; simpl.
    + apply removeOne_NoDup. exact Hnd.
    + intros x. rewrite removeOne_In by exact Hnd. unfold analyzeMatchFinally.
      destruct (decide (matchId = x)) as [<-|Hne].
      * rewrite lookup_delete_eq. split; [tauto | discriminate].
      * rewrite lookup_delete_ne by exact Hne. rewrite Hiff. split; [tauto|].
        intros H. split; [exact H | congruence].
Qed.

Lemma guardInvariant_fold (es : list CallEvent) (runs : Runs) :
  guardInvariant runs -> guardInvariant (fold_left stepRuns es runs).
Proof.
  revert runs. induction es as [|e es IH]; intros runs Hinv; [exact Hinv|].
  simpl. apply IH, guardInvariant_step, Hinv.
Qed.

Lemma guardInvariant_runCalls (es : list CallEvent) : guardInvariant (runCalls es).
Proof.
  apply guardInvariant_fold. split; simpl; [constructor|].
  intros matchId. rewrite lookup_empty. split; [contradiction | discriminate].
Qed.

(** C2: [analyzeMatch] guards each match: after any interleaving of calls
    and completions, no match id has two runs in flight; a call for a match
    whose run is in flight fails at once with "Match analysis already in
    progress" and changes nothing (it is neither queued nor joined), while a
    call for any other match is admitted and is in flight from then on. *)
Theorem analysis_guard :
  forall (es : list CallEvent) (matchId : string),
    let runs := runCalls es in
    NoDup (inFlight runs) /\
    (In matchId (inFlight runs) ->
     analyzeMatchEnter matchId (currentAnalysis runs)
     = Throw "Match analysis already in progress" /\
     (forall run m, Match.id m = matchId ->
                    analyzeMatch run m (currentAnalysis runs)
                    = (currentAnalysis runs, Throw "Match analysis already in progress")) /\
     stepRuns runs (Called matchId) = runs) /\
    (~ In matchId (inFlight runs) ->
     inFlight (stepRuns runs (Called matchId)) = matchId :: inFlight runs).
Proof.
  intros es matchId runs.
  destruct (guardInvariant_runCalls es) as [Hnd Hiff]. fold runs in Hnd, Hiff.
  split; [exact Hnd|]. split.
  - intros Hin. apply Hiff in Hin.
    assert (Henter : analyzeMatchEnter matchId (currentAnalysis runs)
                     = Throw "Match analysis already in progress").
    { unfold analyzeMatchEnter. rewrite Hin. reflexivity. }
    split; [exact Henter|]. split.
    + intros run m <-. unfold analyzeMatch. rewrite Henter. reflexivity.
    + simpl. rewrite Henter. reflexivity.
  - intros Hnot. simpl. unfold analyzeMatchEnter.
    destruct (currentAnalysis runs !! matchId) as [[|]|] eqn:E; try reflexivity.
    exfalso. apply Hnot, Hiff, E.
Qed.

Lemma analysis_guard_witness :
  analyzeMatchEnter "m-1" (currentAnalysis (runCalls [Called "m-1"; Called "m-2"; Settled "m-2"]))
  = Throw "Match analysis already in progress".
Proof.
  refine (proj1 (proj1 (proj2 (analysis_guard [Called "m-1"; Called "m-2"; Settled "m-2"] "m-1")) _)).
  vm_compute. tauto.
Defined.

(** ** The match-up group *)

Lemma tactical_battle_consumes_context (w : World) (m : Match.t) (player1 player2 : Player.t)
    (styleAnalysis h2hAnalysis : val) :
  (forall data, exists reply, complete w "Tactical Battle" data = Ok reply) ->
  let tactical := analyzeTacticalBattle w m player1 player2 styleAnalysis h2hAnalysis in
  get (Result.analysis tactical) "styleContext" = styleAnalysis /\
  get (Result.analysis tactical) "h2hContext" = h2hAnalysis.
Proof.
  intros Hreply. unfold analyzeTacticalBattle. simpl.
  match goal with |- context [complete w "Tactical Battle" ?d] =>
    destruct (Hreply d) as [reply ->] end.
  simpl. split; reflexivity.
Qed.

(** C5: what the orchestrator does with the match-up group.  The three tasks
    run one after the other, each started after the previous one has settled,
    but [analyzeTacticalBattle] is called with three arguments only: neither
    the style analysis nor the head-to-head analysis reaches it, and the
    [styleContext] and [h2hContext] of its analysis data are undefined. *)
Theorem matchup_tactical_context :
  forall (w : World) (m : Match.t) (player1 player2 : Player.t) (clock : nat -> Z)
         (agents : gmap string AgentStatus.t),
    exists style h2h tactical,
      runMatchupAnalyses w m player1 player2 clock agents
      = (applyEvents agents
           [ TaskStarted "Playing Style Profiler" (clock 0%nat);
             TaskSucceeded "Playing Style Profiler" (clock 1%nat);
             TaskStarted "Head-to-Head Analyst" (clock 2%nat);
             TaskSucceeded "Head-to-Head Analyst" (clock 3%nat);
             TaskStarted "Tactical Battle Synthesizer" (clock 4%nat);
             TaskSucceeded "Tactical Battle Synthesizer" (clock 5%nat) ],
         Ok [style; h2h; tactical]) /\
      style = analyzePlayingStyles w m player1 player2 /\
      h2h = analyzeHeadToHead w m player1 player2 /\
      tactical = analyzeTacticalBattle w m player1 player2 VUndefined VUndefined /\
      get (Result.analysis tactical) "styleContext" = VUndefined /\
      get (Result.analysis tactical) "h2hContext" = VUndefined.
Proof.
  intros w m player1 player2 clock agents.
  do 3 eexists. split; [reflexivity|]. split; [reflexivity|]. split; [reflexivity|].
  split; [reflexivity|].
  unfold analyzeTacticalBattle. simpl.
  match goal with |- context [complete w "Tactical Battle" ?d] =>
    destruct (complete w "Tactical Battle" d) end; simpl; split; reflexivity.
Qed.

(** The same at a concrete run: the completion client answers, the style and
    head-to-head records exist, and the tactical task sees neither. *)
Example matchup_tactical_context_run :
  let w := answeringWorld "Edge on return: **Advantage Player 2**" in
  let tactical := analyzeTacticalBattle w final alice bob VUndefined VUndefined in
  snd (runMatchupAnalyses w final alice bob (fun i => Z.of_nat i) (initializeAgents 0 (fun _ => 0.5%Q)))
  = Ok [analyzePlayingStyles w final alice bob; analyzeHeadToHead w final alice bob; tactical] /\
  Result.conclusion (analyzePlayingStyles w final alice bob) = "Analysis Error" /\
  Result.conclusion (analyzeHeadToHead w final alice bob) = "No Previous Meetings" /\
  Result.advantage tactical = "player2" /\
  get (Result.analysis tactical) "surface" = VStr "clay" /\
  get (Result.analysis tactical) "styleContext" = VUndefined /\
  get (Result.analysis tactical) "h2hContext" = VUndefined.
Proof.
  cbv zeta. repeat split.
Qed.

(** ** Prediction accessors *)



(** ** Advantage extraction *)

Lemma append_cons (x : ascii) (a b : string) : String x a ++ b = String x (a ++ b).
Proof. reflexivity. Qed.

Lemma append_nil (b : string) : "" ++ b = b.
Proof. reflexivity. Qed.

Lemma append_assoc (a b c : string) : (a ++ b) ++ c = a ++ b ++ c.
Proof.
  induction a as [|x a IH]; [reflexivity|]. rewrite !append_cons, IH. reflexivity.
Qed.

Lemma append_length (a b : string) :
  String.length (a ++ b) = String.length a + String.length b.
Proof.
  induction a as [|x a IH]; [reflexivity|]. rewrite append_cons. simpl. rewrite IH. reflexivity.
Qed.

Lemma upper_append (a b : string) : upper (a ++ b) = upper a ++ upper b.
Proof.
  induction a as [|x a IH]; [reflexivity|].
  rewrite append_cons. simpl. rewrite append_cons, IH. reflexivity.
Qed.

Lemma take_append (m rest : string) : RegExp.take (String.length m) (m ++ rest) = m.
Proof.
  induction m as [|x m IH]; [destruct rest; reflexivity|].
  rewrite append_cons. simpl. rewrite IH. reflexivity.
Qed.

Lemma consumed_append (m rest : string) : RegExp.consumed (m ++ rest) rest = m.
Proof.
  unfold RegExp.consumed. rewrite append_length.
  replace (String.length m + String.length rest - String.length rest) with (String.length m) by lia.
  apply take_append.
Qed.

Lemma consumed_one (d : ascii) (s : string) : RegExp.consumed (String d s) s = String d "".
Proof. apply (consumed_append (String d "") s). Qed.

Lemma prefixCI_sound (w s rest : string) :
  prefixCI w s = Some rest -> exists m, s = m ++ rest /\ upper m = upper w.
Proof.
  revert s. induction w as [|c w IH]; intros s H; simpl in H.
  - injection H as <-. exists "". split; reflexivity.
  - destruct s as [|d s]; [discriminate|].
    destruct (Ascii.eqb_spec (RegExp.toUpper c) (RegExp.toUpper d)) as [Heq|]; [|discriminate].
    destruct (IH _ H) as [m [-> Hm]]. exists (String d m). simpl.
    rewrite Hm, Heq. split; reflexivity.
Qed.

Lemma prefixCI_complete (w m rest : string) :
  upper m = upper w -> prefixCI w (m ++ rest) = Some rest.
Proof.
  revert m. induction w as [|c w IH]; intros m H.
  - destruct m; [reflexivity | discriminate].
  - destruct m as [|d m]; [discriminate|]. simpl in H. injection H as Hd Hm.
    rewrite append_cons. simpl. rewrite Hd, Ascii.eqb_refl. apply IH, Hm.
Qed.

Lemma upper_split (a x m : string) :
  upper m = upper a ++ x -> exists m1 m2, m = m1 ++ m2 /\ upper m1 = upper a /\ upper m2 = x.
Proof.
  revert m. induction a as [|c a IH]; intros m H.
  - exists "", m. repeat split. exact H.
  - destruct m as [|d m]; [discriminate|]. simpl in H. rewrite append_cons in H.
    injection H as Hd Hm.
    destruct (IH _ Hm) as [m1 [m2 [-> [H1 H2]]]].
    exists (String d m1), m2. simpl. rewrite Hd, H1. repeat split. exact H2.
Qed.

Lemma toUpper_fixes_digits (d : ascii) :
  RegExp.isDigit (RegExp.toUpper d) = true -> RegExp.toUpper d = d.
Proof.
  destruct d as [[] [] [] [] [] [] [] []]; vm_compute; intros H;
    first [reflexivity | discriminate H].
Qed.

Lemma isDigit_toUpper (n : ascii) : RegExp.isDigit n = true -> RegExp.toUpper n = n.
Proof.
  destruct n as [[] [] [] [] [] [] [] []]; vm_compute; intros H;
    first [reflexivity | discriminate H].
Qed.

Lemma toUpper_digit (d n : ascii) :
  RegExp.isDigit n = true -> RegExp.toUpper d = RegExp.toUpper n -> d = n.
Proof.
  intros Hn H. rewrite (isDigit_toUpper n Hn) in H.
  rewrite <- H. symmetry. apply toUpper_fixes_digits. rewrite H. exact Hn.
Qed.

Lemma class12_digit (d : ascii) :
  existsb (fun c => Ascii.eqb (RegExp.canonicalize true c) (RegExp.canonicalize true d))
          ["1"; "2"]%char = true ->
  RegExp.isDigit d = true.
Proof.
  destruct d as [[] [] [] [] [] [] [] []]; vm_compute; intros H;
    first [reflexivity | discriminate H].
Qed.

Lemma matchRe_lit {X : Type} (w s : string) (caps : RegExp.captures)
    (k : string -> RegExp.captures -> option X) :
  RegExp.matchRe true (RegExp.lit w) s caps k
  = match prefixCI w s with
    | Some rest => k rest caps
    | None => None
    end.
Proof.
  revert s. induction w as [|c w IH]; intros s; [reflexivity|].
  simpl. destruct s as [|d s]; [reflexivity|].
  unfold RegExp.canonicalize.
  destruct (Ascii.eqb (RegExp.toUpper c) (RegExp.toUpper d)); [apply IH | reflexivity].
Qed.

Lemma matchRe_playerGroup {X : Type} (n : nat) (s : string) (caps : RegExp.captures)
    (k : string -> RegExp.captures -> option X) :
  RegExp.matchRe true (playerGroup n) s caps k
  = match s with
    | String d s' => if RegExp.isDigit d then k s' ((n, String d "") :: caps) else None
    | EmptyString => None
    end.
Proof.
  unfold playerGroup. cbn [RegExp.matchRe].
  destruct s as [|d s]; [reflexivity|].
  rewrite consumed_one.
  destruct (RegExp.isDigit d) eqn:Hd.
  - destruct (k s ((n, String d "") :: caps)); [reflexivity|].
    destruct (existsb _ _); reflexivity.
  - destruct (existsb _ _) eqn:Hc; [|reflexivity].
    apply class12_digit in Hc. congruence.
Qed.

Lemma matchAt_advantagePattern (s : string) :
  RegExp.matchAt true advantagePattern s
  = match readAdvantage "**Advantage Player " 1 s with
    | Some m => Some m
    | None =>
        match readAdvantage "**Slight Advantage Player " 2 s with
        | Some m => Some m
        | None =>
            match prefixCI "**No Clear Advantage**" s with
            | Some rest =>
                Some {| RegExp.whole := RegExp.consumed s rest; RegExp.groups := [] |}
            | None => None
            end
        end
    end.
Proof.
  unfold RegExp.matchAt, advantagePattern, readAdvantage.
  cbn [RegExp.matchRe]. rewrite !matchRe_lit.
  assert (Hread : forall w g,
             match prefixCI w s with
             | Some rest =>
                 RegExp.matchRe true (playerGroup g) rest []
                   (fun s' caps' =>
                      RegExp.matchRe true (RegExp.lit "**") s' caps'
                        (fun s'' caps'' =>
                           Some {| RegExp.whole := RegExp.consumed s s'';
                                   RegExp.groups := caps'' |}))
             | None => None
             end
             = match prefixCI w s with
               | Some (String d r) =>
                   if RegExp.isDigit d then
                     match prefixCI "**" r with
                     | Some rest =>
                         Some {| RegExp.whole := RegExp.consumed s rest;
                                 RegExp.groups := [(g, String d "")] |}
                     | None => None
                     end
                   else None
               | _ => None
               end).
  { intros w g. destruct (prefixCI w s) as [[|d r]|]; [reflexivity| |reflexivity].
    rewrite matchRe_playerGroup. destruct (RegExp.isDigit d); [|reflexivity].
    rewrite matchRe_lit. reflexivity. }
  rewrite !Hread. reflexivity.
Qed.

Lemma prefixCI_upper (w t r : string) :
  prefixCI w t = Some r -> upper t = upper w ++ upper r.
Proof.
  intros H. destruct (prefixCI_sound _ _ _ H) as [m [-> Hm]].
  rewrite upper_append, Hm. reflexivity.
Qed.

Lemma readAdvantage_sound (w : string) (g : nat) (t : string) (ma : RegExp.MatchArray) :
  readAdvantage w g t = Some ma ->
  exists n rest,
    RegExp.isDigit n = true /\
    t = RegExp.whole ma ++ rest /\
    upper (RegExp.whole ma) = upper (w ++ String n "**") /\
    RegExp.groups ma = [(g, String n "")].
Proof.
  unfold readAdvantage. intros H.
  destruct (prefixCI w t) as [[|d r]|] eqn:Hw; try discriminate.
  destruct (RegExp.isDigit d) eqn:Hd; [|discriminate].
  destruct (prefixCI "**" r) as [rest|] eqn:Hr; [|discriminate].
  injection H as <-. simpl.
  destruct (prefixCI_sound _ _ _ Hw) as [m1 [-> H1]].
  destruct (prefixCI_sound _ _ _ Hr) as [m2 [-> H2]].
  exists d, rest. split; [exact Hd|].
  assert (Hshape : m1 ++ String d (m2 ++ rest) = (m1 ++ String d m2) ++ rest).
  { rewrite append_assoc, append_cons. reflexivity. }
  rewrite Hshape, consumed_append. split; [reflexivity|]. split; [|reflexivity].
  rewrite !upper_append. simpl. rewrite H1, H2, (isDigit_toUpper d Hd). reflexivity.
Qed.

Lemma readAdvantage_complete (w : string) (g : nat) (n : ascii) (m rest : string) :
  RegExp.isDigit n = true ->
  upper m = upper (w ++ String n "**") ->
  readAdvantage w g (m ++ rest)
  = Some {| RegExp.whole := m; RegExp.groups := [(g, String n "")] |}.
Proof.
  intros Hn Hm. rewrite upper_append in Hm.
  destruct (upper_split _ _ _ Hm) as [m1 [m2 [-> [H1 H2]]]].
  destruct m2 as [|d m3]; [discriminate|]. simpl in H2. injection H2 as Hd H3.
  apply (toUpper_digit d n Hn) in Hd. subst d.
  unfold readAdvantage.
  assert (Hshape : (m1 ++ String n m3) ++ rest = m1 ++ String n (m3 ++ rest)).
  { rewrite append_assoc, append_cons. reflexivity. }
  rewrite Hshape at 1. rewrite (prefixCI_complete w m1 _ H1), Hn.
  rewrite (prefixCI_complete "**" m3 rest H3), consumed_append. reflexivity.
Qed.

Lemma readAdvantage_clash (w : string) (g : nat) (t : string) :
  (forall r, upper t <> upper w ++ upper r) -> readAdvantage w g t = None.
Proof.
  intros H. unfold readAdvantage. destruct (prefixCI w t) as [r|] eqn:E; [|reflexivity].
  apply prefixCI_upper in E. destruct (H _ E).
Qed.

(** Where the pattern matches, one of the markers stands. *)
Lemma matchAt_marker (t : string) (ma : RegExp.MatchArray) :
  RegExp.matchAt true advantagePattern t = Some ma ->
  exists rest, t = RegExp.whole ma ++ rest /\ markerText (RegExp.whole ma).
Proof.
  rewrite matchAt_advantagePattern. intros H.
  destruct (readAdvantage "**Advantage Player " 1 t) as [m1|] eqn:E1.
  { injection H as <-. destruct (readAdvantage_sound _ _ _ _ E1) as [n [rest [Hn [Ht [Hu _]]]]].
    exists rest. split; [exact Ht|]. left. exists n. split; [exact Hn | exact Hu]. }
  destruct (readAdvantage "**Slight Advantage Player " 2 t) as [m2|] eqn:E2.
  { injection H as <-. destruct (readAdvantage_sound _ _ _ _ E2) as [n [rest [Hn [Ht [Hu _]]]]].
    exists rest. split; [exact Ht|]. right. left. exists n. split; [exact Hn | exact Hu]. }
  destruct (prefixCI "**No Clear Advantage**" t) as [rest|] eqn:E3; [|discriminate].
  injection H as <-. simpl.
  destruct (prefixCI_sound _ _ _ E3) as [m [-> Hm]].
  rewrite consumed_append. exists rest. split; [reflexivity|]. right. right. exact Hm.
Qed.

Ltac clash H := vm_compute in H; discriminate H.

(** Where a marker stands, the pattern matches it, with the player digit in
    the group of its alternative. *)
Lemma matchAt_advantageMarker (n : ascii) (m rest : string) :
  RegExp.isDigit n = true -> upper m = upper (advantageMarker n) ->
  RegExp.matchAt true advantagePattern (m ++ rest)
  = Some {| RegExp.whole := m; RegExp.groups := [(1, String n "")] |}.
Proof.
  intros Hn Hm. rewrite matchAt_advantagePattern.
  rewrite (readAdvantage_complete _ 1 n m rest Hn Hm). reflexivity.
Qed.

Lemma matchAt_slightMarker (n : ascii) (m rest : string) :
  RegExp.isDigit n = true -> upper m = upper (slightMarker n) ->
  RegExp.matchAt true advantagePattern (m ++ rest)
  = Some {| RegExp.whole := m; RegExp.groups := [(2, String n "")] |}.
Proof.
  intros Hn Hm. rewrite matchAt_advantagePattern.
  rewrite readAdvantage_clash.
  - rewrite (readAdvantage_complete _ 2 n m rest Hn Hm). reflexivity.
  - intros r H. rewrite upper_append, Hm in H. clash H.
Qed.

Lemma matchAt_noClearMarker (m rest : string) :
  upper m = upper noClearMarker ->
  RegExp.matchAt true advantagePattern (m ++ rest)
  = Some {| RegExp.whole := m; RegExp.groups := [] |}.
Proof.
  intros Hm. rewrite matchAt_advantagePattern.
  rewrite readAdvantage_clash.
  - rewrite readAdvantage_clash.
    + rewrite (prefixCI_complete "**No Clear Advantage**" m rest Hm), consumed_append.
      reflexivity.
    + intros r H. rewrite upper_append, Hm in H. clash H.
  - intros r H. rewrite upper_append, Hm in H. clash H.
Qed.

Lemma exec_none (ignoreCase : bool) (r : RegExp.re) (s : string) :
  (forall before t, s = before ++ t -> RegExp.matchAt ignoreCase r t = None) ->
  RegExp.exec ignoreCase r s = None.
Proof.
  induction s as [|c s IH]; intros H; simpl.
  - rewrite (H "" "" eq_refl). reflexivity.
  - rewrite (H "" (String c s) eq_refl). apply IH.
    intros before t ->. apply (H (String c before) t). reflexivity.
Qed.

Lemma exec_leftmost (ignoreCase : bool) (r : RegExp.re) (before t : string)
    (ma : RegExp.MatchArray) :
  RegExp.matchAt ignoreCase r t = Some ma ->
  (forall before' t',
      before ++ t = before' ++ t' -> String.length before' < String.length before ->
      RegExp.matchAt ignoreCase r t' = None) ->
  RegExp.exec ignoreCase r (before ++ t) = Some ma.
Proof.
  induction before as [|c before IH]; intros Hhere Hleft.
  - rewrite append_nil. destruct t; simpl; rewrite Hhere; reflexivity.
  - rewrite append_cons. simpl.
    rewrite (Hleft "" (String c (before ++ t))) by (reflexivity || (simpl; lia)).
    apply IH; [exact Hhere|].
    intros before' t' Heq Hlen. apply (Hleft (String c before') t').
    + rewrite !append_cons, Heq. reflexivity.
    + simpl. lia.
Qed.

Lemma startsWith_upper (s w : string) :
  startsWith s w = true -> startsWith (upper s) (upper w) = true.
Proof.
  revert s. induction w as [|c w IH]; intros s H; [destruct s; reflexivity|].
  destruct s as [|d s]; [discriminate|]. simpl in *.
  apply andb_true_iff in H. destruct H as [Hc Hs].
  apply Ascii.eqb_eq in Hc. subst d. rewrite Ascii.eqb_refl. apply IH, Hs.
Qed.

Lemma includes_upper (s w : string) :
  includes s w = true -> includes (upper s) (upper w) = true.
Proof.
  induction s as [|d s IH]; intros H.
  - simpl in *. rewrite orb_false_r in *. apply (startsWith_upper "" w H).
  - simpl in H. apply orb_true_iff in H. destruct H as [H|H].
    + apply (startsWith_upper (String d s) w) in H. simpl in *. rewrite H. reflexivity.
    + simpl. rewrite (IH H). apply orb_true_r.
Qed.

Lemma includes_upper_false (s u w : string) :
  upper s = u -> includes u (upper w) = false -> includes s w = false.
Proof.
  intros <- H. destruct (includes s w) eqn:E; [|reflexivity].
  apply includes_upper in E. congruence.
Qed.

Lemma advantage_not_noClear (n : ascii) :
  RegExp.isDigit n = true ->
  includes (upper (advantageMarker n)) (upper "No Clear") = false /\
  includes (upper (slightMarker n)) (upper "No Clear") = false /\
  includes (advantageMarker n) "Slight" = false /\
  includes (slightMarker n) "Slight" = true.
Proof.
  destruct n as [[] [] [] [] [] [] [] []]; intros H; try discriminate H;
    vm_compute; repeat split.
Qed.

Lemma marker_matchAt (m rest : string) :
  markerText m -> exists ma, RegExp.matchAt true advantagePattern (m ++ rest) = Some ma.
Proof.
  intros [[n [Hn Hm]] | [[n [Hn Hm]] | Hm]]; eexists.
  - apply (matchAt_advantageMarker n m rest Hn Hm).
  - apply (matchAt_slightMarker n m rest Hn Hm).
  - apply (matchAt_noClearMarker m rest Hm).
Qed.

Lemma exec_noMarker (reply : string) :
  noMarker reply -> RegExp.exec true advantagePattern reply = None.
Proof.
  intros Hno. apply exec_none. intros before t ->.
  destruct (RegExp.matchAt true advantagePattern t) as [ma|] eqn:E; [|reflexivity].
  destruct (matchAt_marker _ _ E) as [rest [-> Hm]].
  destruct (Hno before (RegExp.whole ma) rest eq_refl Hm).
Qed.

Lemma exec_firstMarker (reply before m after : string) (ma : RegExp.MatchArray) :
  firstMarker reply before m after ->
  RegExp.matchAt true advantagePattern (m ++ after) = Some ma ->
  RegExp.exec true advantagePattern reply = Some ma.
Proof.
  intros [-> [_ Hleft]] Hhere. apply exec_leftmost; [exact Hhere|].
  intros before' t' Heq Hlen.
  destruct (RegExp.matchAt true advantagePattern t') as [ma'|] eqn:E; [|reflexivity].
  destruct (matchAt_marker _ _ E) as [rest [-> Hm]].
  specialize (Hleft before' (RegExp.whole ma') rest Heq Hm). lia.
Qed.

Lemma noMatchBefore_spec (k : nat) (s : string) :
  noMatchBefore k s = true ->
  forall before t, s = before ++ t -> String.length before < k ->
                   RegExp.matchAt true advantagePattern t = None.
Proof.
  revert s. induction k as [|k IH]; intros s H before t Hs Hlen; [lia|].
  simpl in H.
  destruct (RegExp.matchAt true advantagePattern s) eqn:E; [discriminate|].
  destruct s as [|c s]; [discriminate|].
  destruct before as [|d before].
  - rewrite append_nil in Hs. subst t. exact E.
  - rewrite append_cons in Hs. injection Hs as _ Hs.
    apply (IH s H before t Hs). simpl in Hlen. lia.
Qed.

Lemma firstMarker_intro (reply before m after : string) :
  reply = before ++ m ++ after -> markerText m ->
  noMatchBefore (String.length before) reply = true ->
  firstMarker reply before m after.
Proof.
  intros Hreply Hm Hnone. split; [exact Hreply|]. split; [exact Hm|].
  intros before' m' after' Hreply' Hm'.
  destruct (Nat.le_gt_cases (String.length before) (String.length before')) as [Hle|Hgt];
    [exact Hle|].
  destruct (marker_matchAt m' after' Hm') as [ma Hma].
  pose proof (noMatchBefore_spec _ _ Hnone before' (m' ++ after') Hreply' Hgt) as Hnone'.
  congruence.
Qed.

Lemma contains_length (reply m : string) :
  contains reply m ->
  String.length m <= String.length reply /\
  (String.length m = String.length reply -> reply = m).
Proof.
  intros [before [after ->]]. rewrite !append_length. split; [lia|].
  intros Hlen. destruct before; [|simpl in Hlen; lia].
  destruct after; [|simpl in Hlen; lia].
  rewrite append_nil. clear Hlen. induction m as [|c m IH]; [reflexivity|].
  rewrite append_cons, IH. reflexivity.
Qed.

(** C6, as stated, fails twice.  A reply that holds the marker of player 1
    after the marker of no clear advantage is read as no clear advantage; and
    a reply that holds none of the markers as they are written, but the marker
    of player 1 in lower case, is read as an advantage of player 1. *)
Lemma stated_extraction_fails :
  (contains "**No Clear Advantage** overall, though **Advantage Player 1** on serve"
            (advantageMarker "1") /\
   extractAdvantage "**No Clear Advantage** overall, though **Advantage Player 1** on serve"
   = noClearAdvantage) /\
  ((forall n, ~ contains "**advantage player 1**" (advantageMarker n) /\
              ~ contains "**advantage player 1**" (slightMarker n)) /\
   ~ contains "**advantage player 1**" noClearMarker /\
   extractAdvantage "**advantage player 1**" = advantageOf "1") /\
  ~ statedExtraction.
Proof.
  assert (Hin : contains
                  "**No Clear Advantage** overall, though **Advantage Player 1** on serve"
                  (advantageMarker "1")).
  { exists "**No Clear Advantage** overall, though ", " on serve". reflexivity. }
  split; [split; [exact Hin | reflexivity]|]. split.
  - split; [|split; [|reflexivity]].
    + intros n. split; intros H; apply contains_length in H; destruct H as [Hle Heq].
      * specialize (Heq eq_refl). vm_compute in Heq. discriminate Heq.
      * vm_compute in Hle. lia.
    + intros H. apply contains_length in H. destruct H as [_ Heq].
      specialize (Heq eq_refl). discriminate Heq.
  - intros H.
    destruct (H "**No Clear Advantage** overall, though **Advantage Player 1** on serve")
      as [H1 _].
    destruct (H1 "1"%char eq_refl) as [[_ Hback] _].
    apply Hback in Hin. vm_compute in Hin. discriminate Hin.
Qed.

(** A marker of no clear advantage written in another letter case matches the
    pattern but not the case-sensitive test that follows it. *)
Example lowercase_no_clear_advantage :
  extractAdvantage "Even match: **no clear advantage**"
  = {| Advantage.player := "playerundefined";
       Advantage.conclusion := "Advantage Player undefined" |}.
Proof. reflexivity. Qed.

(** C6 (amended): the extractor reads the leftmost marker of the reply,
    letter case ignored.  When that marker is **Advantage Player N** it returns
    advantage "playerN" with conclusion "Advantage Player N", when it is
    **Slight Advantage Player N** it returns "playerN" with "Slight Advantage
    Player N" (in any letter case of either marker the advantage is
    "playerN"), when it is **No Clear Advantage** it returns "none" with "No
    Clear Advantage"; and a reply that holds none of the markers, in any
    letter case, yields "none" with "No Clear Advantage". *)
Theorem extractAdvantage_first_marker :
  forall reply : string,
    (noMarker reply -> extractAdvantage reply = noClearAdvantage) /\
    (forall before m after n,
        firstMarker reply before m after -> RegExp.isDigit n = true ->
        (m = advantageMarker n -> extractAdvantage reply = advantageOf n) /\
        (m = slightMarker n -> extractAdvantage reply = slightAdvantageOf n) /\
        (upper m = upper (advantageMarker n) \/ upper m = upper (slightMarker n) ->
         Advantage.player (extractAdvantage reply) = "player" ++ String n "")) /\
    (forall before after,
        firstMarker reply before noClearMarker after ->
        extractAdvantage reply = noClearAdvantage).
Proof.
  intros reply. split; [|split].
  - intros Hno. unfold extractAdvantage. rewrite (exec_noMarker _ Hno). reflexivity.
  - intros before m after n Hfirst Hn.
    destruct (advantage_not_noClear n Hn) as [Ha [Hs [Hns Hsl]]].
    split; [|split].
    + intros ->. unfold extractAdvantage.
      rewrite (exec_firstMarker _ _ _ _ _ Hfirst
                 (matchAt_advantageMarker n _ after Hn eq_refl)).
      cbn [RegExp.whole RegExp.groups].
      rewrite (includes_upper_false _ _ "No Clear" eq_refl Ha), Hns. reflexivity.
    + intros ->. unfold extractAdvantage.
      rewrite (exec_firstMarker _ _ _ _ _ Hfirst
                 (matchAt_slightMarker n _ after Hn eq_refl)).
      cbn [RegExp.whole RegExp.groups].
      rewrite (includes_upper_false _ _ "No Clear" eq_refl Hs), Hsl. reflexivity.
    + intros [Hm|Hm]; unfold extractAdvantage.
      * rewrite (exec_firstMarker _ _ _ _ _ Hfirst
                   (matchAt_advantageMarker n _ after Hn Hm)).
        cbn [RegExp.whole RegExp.groups].
        rewrite (includes_upper_false _ _ "No Clear" Hm Ha). reflexivity.
      * rewrite (exec_firstMarker _ _ _ _ _ Hfirst
                   (matchAt_slightMarker n _ after Hn Hm)).
        cbn [RegExp.whole RegExp.groups].
        rewrite (includes_upper_false _ _ "No Clear" Hm Hs). reflexivity.
  - intros before after Hfirst. unfold extractAdvantage.
    rewrite (exec_firstMarker _ _ _ _ _ Hfirst
               (matchAt_noClearMarker _ after eq_refl)).
    reflexivity.
Qed.

Lemma extractAdvantage_first_marker_witness :
  extractAdvantage "Edge: **Slight Advantage Player 2** overall, not **Advantage Player 1**"
  = slightAdvantageOf "2".
Proof.
  refine (proj1 (proj2 (proj1 (proj2 (extractAdvantage_first_marker _))
                          "Edge: " (slightMarker "2") " overall, not **Advantage Player 1**"
                          "2"%char _ eq_refl)) eq_refl).
  apply firstMarker_intro.
  - reflexivity.
  - right. left. exists "2"%char. split; reflexivity.
  - vm_compute. reflexivity.
Defined.

Example extractAdvantage_runs :
  extractAdvantage "On serve: **Advantage Player 1**, clearly." = advantageOf "1" /\
  extractAdvantage "**advantage player 2**" = advantageOf "2" /\
  extractAdvantage "**Slight Advantage Player 2** overall" = slightAdvantageOf "2" /\
  extractAdvantage "**Advantage Player 7**" = advantageOf "7" /\
  extractAdvantage "Advantage Player 1" = noClearAdvantage /\
  extractAdvantage "" = noClearAdvantage /\
  extractAdvantageSurface "**Slight Advantage Player 2**" = noClearAdvantage /\
  Advantage.conclusion (extractAdvantageContextual "nothing to report")
  = "No Significant Factors".
Proof.
  repeat split.
Qed.

(** * Further properties *)

(** ** The registry over whole traces *)

Lemma applyEvents_cons (agents : gmap string AgentStatus.t) (e : RegistryEvent)
    (es : list RegistryEvent) :
  applyEvents agents (e :: es) = applyEvents (applyEvent agents e) es.
Proof. reflexivity. Qed.

Lemma countStarts_cons (agentName : string) (e : RegistryEvent) (es : list RegistryEvent) :
  countStarts agentName (e :: es)
  = (match eventStatus e with
     | processing => if String.eqb (eventAgent e) agentName then 1 else 0
     | _ => 0
     end + countStarts agentName es)%nat.
Proof. destruct e; reflexivity. Qed.

(** What a trace does to one entry. *)
Lemma applyEvents_entry (es : list RegistryEvent) :
  forall (agents : gmap string AgentStatus.t) (agentName : string) (a : AgentStatus.t),
    applyEvents agents es !! agentName = Some a ->
    exists a0,
      agents !! agentName = Some a0 /\
      AgentStatus.name a = AgentStatus.name a0 /\
      AgentStatus.type a = AgentStatus.type a0 /\
      AgentStatus.accuracy a = AgentStatus.accuracy a0 /\
      AgentStatus.totalAnalyses a
      = (AgentStatus.totalAnalyses a0 + countStarts agentName es)%nat /\
      AgentStatus.lastActivity a = lastTouch (AgentStatus.lastActivity a0) agentName es /\
      AgentStatus.status a = lastStatus (AgentStatus.status a0) agentName es.
Proof.
  induction es as [|e es IH]; intros agents agentName a Ha.
  - exists a. simpl. rewrite Nat.add_0_r. repeat split. exact Ha.
  - rewrite applyEvents_cons in Ha.
    destruct (IH _ _ _ Ha) as [a1 [H1 [Hn [Ht [Hacc [Htot [Hlast Hstatus]]]]]]].
    rewrite countStarts_cons. cbn [lastTouch lastStatus].
    rewrite applyEvent_update in H1. unfold updateAgentStatus in H1.
    destruct (decide (eventAgent e = agentName)) as [Heq|Hne].
    + rewrite Heq in H1. destruct (agents !! agentName) as [a0|] eqn:E.
      * rewrite lookup_insert_eq in H1. injection H1 as <-.
        cbn [AgentStatus.name AgentStatus.type AgentStatus.accuracy AgentStatus.status
             AgentStatus.totalAnalyses AgentStatus.lastActivity] in *.
        exists a0. split; [reflexivity|]. split; [exact Hn|]. split; [exact Ht|].
        split; [exact Hacc|]. rewrite Heq, String.eqb_refl.
        split; [|split; [exact Hlast | exact Hstatus]].
        rewrite Htot. destruct (eventStatus e); lia.
      * rewrite E in H1. discriminate.
    + assert (H1' : agents !! agentName = Some a1).
      { destruct (agents !! eventAgent e); [|exact H1].
        rewrite lookup_insert_ne in H1 by exact Hne. exact H1. }
      exists a1. split; [exact H1'|]. split; [exact Hn|]. split; [exact Ht|].
      split; [exact Hacc|].
      apply String.eqb_neq in Hne. rewrite Hne.
      split; [|split; [exact Hlast | exact Hstatus]].
      rewrite Htot. destruct (eventStatus e); lia.
Qed.

Lemma registerAgents_entry (t : Z) (random : nat -> Q) (definitions : list (string * string)) :
  forall (i : nat) (agents : gmap string AgentStatus.t) (n : string) (a : AgentStatus.t),
    registerAgents t random i definitions agents !! n = Some a ->
    agents !! n = Some a \/
    (AgentStatus.name a = n /\ In (n, AgentStatus.type a) definitions /\
     AgentStatus.status a = idle /\ AgentStatus.lastActivity a = t /\
     AgentStatus.totalAnalyses a = 0%nat /\
     exists j, (i <= j < i + length definitions)%nat /\
               AgentStatus.accuracy a = (85 + random j * 15)%Q).
Proof.
  induction definitions as [|d definitions IH]; intros i agents n a Ha; [left; exact Ha|].
  simpl in Ha. destruct (IH _ _ _ _ Ha) as [Hold|[Hn [Hin [Hs [Hl [Ht [j [Hj Hacc]]]]]]]].
  - destruct (decide (fst d = n)) as [<-|Hne].
    + rewrite lookup_insert_eq in Hold. injection Hold as <-. right. simpl.
      split; [reflexivity|]. split; [left; destruct d; reflexivity|].
      repeat split. exists i. split; [lia | reflexivity].
    + rewrite lookup_insert_ne in Hold by exact Hne. left. exact Hold.
  - right. split; [exact Hn|]. split; [right; exact Hin|]. repeat split; try assumption.
    exists j. split; [simpl; lia | exact Hacc].
Qed.

Lemma registerAgents_is_Some (t : Z) (random : nat -> Q) (definitions : list (string * string)) :
  forall (i : nat) (agents : gmap string AgentStatus.t) (n : string),
    is_Some (registerAgents t random i definitions agents !! n) <->
    In n (map fst definitions) \/ is_Some (agents !! n).
Proof.
  induction definitions as [|d definitions IH]; intros i agents n; simpl; [tauto|].
  rewrite IH. destruct (decide (fst d = n)) as [<-|Hne].
  - rewrite lookup_insert_eq. split; [intros _; left; left; reflexivity | eauto].
  - rewrite lookup_insert_ne by exact Hne. tauto.
Qed.

Lemma registerAgents_size (t : Z) (random : nat -> Q) (definitions : list (string * string)) :
  forall (i : nat) (agents : gmap string AgentStatus.t),
    NoDup (map fst definitions) ->
    (forall n, In n (map fst definitions) -> agents !! n = None) ->
    size (registerAgents t random i definitions agents) = (size agents + length definitions)%nat.
Proof.
  induction definitions as [|d definitions IH]; intros i agents Hnd Hfresh; simpl; [lia|].
  simpl in Hnd. apply NoDup_cons in Hnd. destruct Hnd as [Hd Hnd].
  rewrite IH.
  - rewrite map_size_insert_None by (apply Hfresh; left; reflexivity). lia.
  - exact Hnd.
  - intros n Hn. rewrite lookup_insert_ne; [apply Hfresh; right; exact Hn|].
    intros Heq. subst n. apply Hd. apply list_elem_of_In. exact Hn.
Qed.

Lemma applyEvents_size (es : list RegistryEvent) :
  forall agents : gmap string AgentStatus.t, size (applyEvents agents es) = size agents.
Proof.
  induction es as [|e es IH]; intros agents; [reflexivity|].
  rewrite applyEvents_cons, IH, applyEvent_update. unfold updateAgentStatus.
  destruct (agents !! eventAgent e) eqn:E; [|reflexivity].
  apply map_size_insert_Some. eauto.
Qed.

(** X1: after any sequence of status updates on the registry built by
    [initializeAgents], an entry counts in [totalAnalyses] the starts of its
    task, carries in [lastActivity] the time of the last update that named it
    (the time of registration if none did), and in [status] the status that
    update set (idle if none did). *)
Theorem registry_entry_after_trace :
  forall (t0 : Z) (random : nat -> Q) (es : list RegistryEvent)
         (agentName : string) (agent : AgentStatus.t),
    applyEvents (initializeAgents t0 random) es !! agentName = Some agent ->
    AgentStatus.totalAnalyses agent = countStarts agentName es /\
    AgentStatus.lastActivity agent = lastTouch t0 agentName es /\
    AgentStatus.status agent = lastStatus idle agentName es.
Proof.
  intros t0 random es agentName agent Hagent.
  destruct (applyEvents_entry _ _ _ _ Hagent) as [a0 [H0 [_ [_ [_ [Htot [Hlast Hstatus]]]]]]].
  destruct (registerAgents_entry _ _ _ _ _ _ _ H0) as [Hold|[_ [_ [Hs [Hl [Ht _]]]]]].
  - rewrite lookup_empty in Hold. discriminate.
  - rewrite Htot, Hlast, Hstatus, Ht, Hl, Hs. repeat split.
Qed.

Lemma registry_entry_after_trace_witness :
  exists agent,
    applyEvents (initializeAgents 100 (fun _ => 0.5%Q))
                [ TaskStarted "News Monitor" 101; TaskFailed "News Monitor" 102;
                  TaskStarted "Momentum Analyst" 103; TaskStarted "News Monitor" 104 ]
    !! "News Monitor" = Some agent /\
    AgentStatus.totalAnalyses agent = 2%nat /\
    AgentStatus.lastActivity agent = 104%Z /\
    AgentStatus.status agent = processing.
Proof.
  eexists. split; [vm_compute; reflexivity|].
  refine (registry_entry_after_trace 100 (fun _ => 0.5%Q)
            [ TaskStarted "News Monitor" 101; TaskFailed "News Monitor" 102;
              TaskStarted "Momentum Analyst" 103; TaskStarted "News Monitor" 104 ]
            "News Monitor" _ _).
  vm_compute. reflexivity.
Defined.

(** X2: no sequence of status updates adds or removes an agent: the registry
    keeps its eighteen entries, each under its own name with the type of its
    definition and the accuracy drawn at registration, and a status update or
    a task run under a name that is not registered leaves the registry as it
    is and hands the outcome of the task on. *)
Theorem registry_fixed_table :
  forall (t0 : Z) (random : nat -> Q) (es : list RegistryEvent) (agentName : string),
    let agents := applyEvents (initializeAgents t0 random) es in
    size agents = 18%nat /\
    (is_Some (agents !! agentName) <-> In agentName (map fst agentDefinitions)) /\
    (forall agent,
        agents !! agentName = Some agent ->
        AgentStatus.name agent = agentName /\
        In (agentName, AgentStatus.type agent) agentDefinitions /\
        exists i, (i < 18)%nat /\ AgentStatus.accuracy agent = (85 + random i * 15)%Q) /\
    (agents !! agentName = None ->
     forall (T : Type) (outcome : Res T) (t1 t2 : Z),
       runAgentAnalysis agentName outcome t1 t2 agents = (agents, outcome)).
Proof.
  intros t0 random es agentName agents. split; [|split; [|split]].
  - unfold agents. rewrite applyEvents_size. unfold initializeAgents.
    rewrite registerAgents_size.
    + reflexivity.
    + vm_compute. repeat constructor; intros H; repeat (apply elem_of_cons in H as [H|H]; [discriminate H|]); inversion H.
    + intros n _. apply lookup_empty.
  - unfold agents. rewrite applyEvents_is_Some. unfold initializeAgents.
    rewrite registerAgents_is_Some. rewrite lookup_empty. split; [|tauto].
    intros [H|[x H]]; [exact H | discriminate H].
  - intros agent Hagent.
    destruct (applyEvents_entry _ _ _ _ Hagent) as [a0 [H0 [Hn [Ht [Hacc _]]]]].
    destruct (registerAgents_entry _ _ _ _ _ _ _ H0) as [Hold|[Hn0 [Hin [_ [_ [_ [j [Hj Hj']]]]]]]].
    + rewrite lookup_empty in Hold. discriminate.
    + rewrite Hn, Ht, Hacc. split; [exact Hn0|]. split; [exact Hin|].
      exists j. split; [simpl in Hj; lia | exact Hj'].
  - intros Hnone T outcome t1 t2. unfold runAgentAnalysis.
    rewrite !(updateAgentStatus_unregistered _ _ _ _ Hnone).
    destruct outcome; reflexivity.
Qed.

(** ** The guard over whole runs *)

Lemma markers_are_true (es : list CallEvent) (matchId : string) (b : bool) :
  currentAnalysis (runCalls es) !! matchId = Some b -> b = true.
Proof.
  unfold runCalls.
  assert (H : forall runs,
             (forall i b, currentAnalysis runs !! i = Some b -> b = true) ->
             forall i b, currentAnalysis (fold_left stepRuns es runs) !! i = Some b -> b = true).
  { induction es as [|e es IH]; intros runs Hruns; [exact Hruns|].
    simpl. apply IH. intros i b' Hi. destruct e as [id|id]; simpl in Hi.
    - unfold analyzeMatchEnter in Hi.
      destruct (currentAnalysis runs !! id) as [[|]|] eqn:E; simpl in Hi; eauto.
      + destruct (decide (id = i)) as [<-|Hne].
        * rewrite lookup_insert_eq in Hi. congruence.
        * rewrite lookup_insert_ne in Hi by exact Hne. eauto.
      + destruct (decide (id = i)) as [<-|Hne].
        * rewrite lookup_insert_eq in Hi. congruence.
        * rewrite lookup_insert_ne in Hi by exact Hne. eauto.
    - destruct (inFlightb id runs); simpl in Hi; eauto.
      unfold analyzeMatchFinally in Hi.
      destruct (decide (id = i)) as [<-|Hne].
      + rewrite lookup_delete_eq in Hi. discriminate.
      + rewrite lookup_delete_ne in Hi by exact Hne. eauto. }
  apply H. intros i b' Hi. simpl in Hi. rewrite lookup_empty in Hi. discriminate.
Qed.

Lemma runCalls_app (es : list CallEvent) (e : CallEvent) :
  runCalls (es ++ [e])%list = stepRuns (runCalls es) e.
Proof. unfold runCalls. rewrite fold_left_app. reflexivity. Qed.

Lemma called_enters (runs : Runs) (matchId : string) :
  guardInvariant runs -> ~ In matchId (inFlight runs) ->
  inFlight (stepRuns runs (Called matchId)) = matchId :: inFlight runs.
Proof.
  intros [_ Hiff] Hnot. simpl. unfold analyzeMatchEnter.
  destruct (currentAnalysis runs !! matchId) as [[|]|] eqn:E; try reflexivity.
  exfalso. apply Hnot, Hiff, E.
Qed.

(** X3: over every interleaving of calls and completions, a match has no
    marker exactly when no run for it is in flight; when a run settles, its
    [finally] block frees that match and no other, and the next call for
    the match is let in again. *)
Theorem guard_released_on_settle :
  forall (es : list CallEvent) (matchId : string),
    let runs := runCalls es in
    (currentAnalysis runs !! matchId = None <-> ~ In matchId (inFlight runs)) /\
    (In matchId (inFlight runs) ->
     let runs' := runCalls (es ++ [Settled matchId])%list in
     ~ In matchId (inFlight runs') /\
     (forall other, other <> matchId ->
                    (In other (inFlight runs') <-> In other (inFlight runs))) /\
     inFlight (runCalls (es ++ [Settled matchId] ++ [Called matchId])%list)
     = matchId :: inFlight runs').
Proof.
  intros es matchId runs.
  destruct (guardInvariant_runCalls es) as [Hnd Hiff]. fold runs in Hnd, Hiff.
  split.
  - rewrite Hiff. split.
    + intros H. rewrite H. discriminate.
    + intros H. destruct (currentAnalysis runs !! matchId) as [b|] eqn:E; [|reflexivity].
      rewrite (markers_are_true es matchId b E) in H. congruence.
  - intros Hin runs'.
    assert (Hruns' : runs' = {| currentAnalysis := analyzeMatchFinally matchId (currentAnalysis runs);
                                inFlight := removeOne matchId (inFlight runs) |}).
    { unfold runs'. rewrite runCalls_app. fold runs. simpl.
      apply inFlightb_In in Hin. rewrite Hin. reflexivity. }
    assert (Hnot : ~ In matchId (inFlight runs')).
    { rewrite Hruns'. simpl. rewrite removeOne_In by exact Hnd. tauto. }
    split; [exact Hnot|]. split.
    + intros other Hne. rewrite Hruns'. simpl. rewrite removeOne_In by exact Hnd. tauto.
    + rewrite app_assoc, runCalls_app. fold runs'.
      apply called_enters; [apply guardInvariant_runCalls | exact Hnot].
Qed.

Lemma guard_released_on_settle_witness :
  inFlight (runCalls ([Called "m-1"; Called "m-2"] ++ [Settled "m-1"] ++ [Called "m-1"])%list)
  = ["m-1"; "m-2"].
Proof.
  refine (proj2 (proj2 (proj2 (guard_released_on_settle [Called "m-1"; Called "m-2"] "m-1") _))).
  vm_compute. tauto.
Defined.

Lemma analyzeMatch_unmarked (run : Res AnalysisResult) (m : Match.t)
    (cur : gmap string bool) :
  cur !! Match.id m = None -> analyzeMatch run m cur = (cur, run).
Proof.
  intros Hnone. unfold analyzeMatch, analyzeMatchEnter, analyzeMatchFinally.
  rewrite Hnone. rewrite delete_insert_eq. rewrite delete_id by exact Hnone. reflexivity.
Qed.

(** X4: calls of [analyzeMatch] that each run to completion before the
    next one starts never meet the guard: every call hands on the outcome of
    its own run, a failed run included, and no marker is left behind, also
    when the same match is analysed again and again. *)
Theorem sequential_analyses_pass :
  forall (calls : list (Res AnalysisResult * Match.t)),
    analyzeAll calls ∅ = (∅, map fst calls).
Proof.
  induction calls as [|[run m] calls IH]; [reflexivity|].
  simpl. rewrite analyzeMatch_unmarked by apply lookup_empty.
  rewrite IH. reflexivity.
Qed.

(** ** The synthesizer and what feeds it *)

(** X5: the fallback probability stays within [0.5, 0.9] and reaches 0.9
    exactly from a lead of eight factors on. *)
Theorem fallback_probability_bounds :
  forall (player1 player2 : Player.t) (ars : list (string * val))
         (fas : list FactorAnalysis),
    exists q,
      winProbability (fallbackPrediction player1 player2 ars fas) = VNum q /\
      (0.5 <= q)%Q /\ (q <= 0.9)%Q /\
      (q == 0.9 <->
       (8 <= Nat.max (favoringPlayer1 fas) (favoringPlayer2 fas)
             - Nat.min (favoringPlayer1 fas) (favoringPlayer2 fas))%nat).
Proof.
  intros player1 player2 ars fas.
  pose proof (fallback_winProbability player1 player2 ars fas) as H.
  destruct (winProbability (fallbackPrediction player1 player2 ars fas)) as [| | |q| | |] eqn:E;
    try contradiction.
  exists q. split; [reflexivity|]. simpl in H. unfold countDifference in H.
  set (d := (Nat.max (favoringPlayer1 fas) (favoringPlayer2 fas)
             - Nat.min (favoringPlayer1 fas) (favoringPlayer2 fas))%nat) in *.
  assert (Hd : (0 <= Z.of_nat d)%Z) by lia.
  assert (Hiff : (8 <= d)%nat <-> (8 <= Z.of_nat d)%Z) by lia.
  rewrite Hiff. clear Hiff. generalize dependent (Z.of_nat d). intros z H Hz.
  unfold clamp in H.
  destruct (Qlt_le_dec (0.5 + 0.05 * inject_Z z) 0.5) as [H1|H1].
  - exfalso. revert H1. unfold Qlt, Qplus, Qmult, inject_Z. simpl. lia.
  - destruct (Qlt_le_dec 0.9 (0.5 + 0.05 * inject_Z z)) as [H2|H2].
    + rewrite H. split; [unfold Qle; simpl; lia|]. split; [unfold Qle; simpl; lia|].
      split; [intros _|intros _; reflexivity].
      revert H2. unfold Qlt, Qplus, Qmult, inject_Z. simpl. lia.
    + rewrite H. split; [exact H1|]. split; [exact H2|].
      revert H2. unfold Qle, Qeq, Qplus, Qmult, inject_Z. simpl. lia.
Qed.

(** X6: whatever the completion service answers, or if it fails, the
    predicted winner is one of the two players, and the factor list and the
    agent contributions are the same on both paths. *)
Theorem synthesize_invariants :
  forall (generatePrediction : Res AiPrediction) (player1 player2 : Player.t)
         (ars : list (string * val)),
    let r := synthesizePrediction generatePrediction player1 player2 ars in
    (predictedWinnerId r = Player.id player1 \/ predictedWinnerId r = Player.id player2) /\
    factorAnalysis r = compileFactorAnalyses ars /\
    agentContributions r = ars /\
    Forall (fun fa => truthy (conclusion fa) = true /\ truthy (confidence fa) = true)
           (factorAnalysis r).
Proof.
  intros generatePrediction player1 player2 ars r.
  assert (Hfa : factorAnalysis r = compileFactorAnalyses ars).
  { unfold r, synthesizePrediction. destruct generatePrediction; reflexivity. }
  split; [|split; [exact Hfa|split]].
  - unfold r, synthesizePrediction. destruct generatePrediction as [ai|e]; simpl.
    + destruct (isStr (predictedWinner ai) "player1"); tauto.
    + destruct (_ <? _)%nat; tauto.
  - unfold r, synthesizePrediction. destruct generatePrediction; reflexivity.
  - rewrite Hfa. apply List.Forall_forall. intros fa Hin.
    unfold compileFactorAnalyses in Hin. apply in_flat_map in Hin.
    destruct Hin as [[category results] [_ Hin]]. simpl in Hin.
    destruct results; try contradiction.
    apply in_flat_map in Hin. destruct Hin as [result [_ Hin]].
    eapply compileFactor_In; eassumption.
Qed.



(** ** The whole run of [analyzeMatch] *)

Lemma promiseAll_resolved {T : Type} (values : list T) :
  promiseAll (map Ok values) = Ok values.
Proof.
  induction values as [|v values IH]; [reflexivity|].
  simpl. rewrite IH. reflexivity.
Qed.

Lemma runGroup_resolves (clock : nat -> Z) (tasks : list (string * Result.t))
    (order : list string) (agents : gmap string AgentStatus.t) :
  runGroup clock tasks order agents
  = (applyEvents agents (groupEvents clock (map fst tasks) order), Ok (map snd tasks)).
Proof.
  unfold runGroup. f_equal.
  rewrite <- (promiseAll_resolved (map snd tasks)), map_map. reflexivity.
Qed.

Lemma applyEvents_app (agents : gmap string AgentStatus.t) (es es' : list RegistryEvent) :
  applyEvents agents (es ++ es')%list = applyEvents (applyEvents agents es) es'.
Proof. unfold applyEvents. apply fold_left_app. Qed.

Lemma runMatchupAnalyses_run (w : World) (m : Match.t) (player1 player2 : Player.t)
    (clock : nat -> Z) (agents : gmap string AgentStatus.t) :
  runMatchupAnalyses w m player1 player2 clock agents
  = (applyEvents agents
       [ TaskStarted "Playing Style Profiler" (clock 0%nat);
         TaskSucceeded "Playing Style Profiler" (clock 1%nat);
         TaskStarted "Head-to-Head Analyst" (clock 2%nat);
         TaskSucceeded "Head-to-Head Analyst" (clock 3%nat);
         TaskStarted "Tactical Battle Synthesizer" (clock 4%nat);
         TaskSucceeded "Tactical Battle Synthesizer" (clock 5%nat) ],
     Ok [ analyzePlayingStyles w m player1 player2;
          analyzeHeadToHead w m player1 player2;
          analyzeTacticalBattle w m player1 player2 VUndefined VUndefined ]).
Proof. reflexivity. Qed.

Lemma runAgentAnalysis_failed {T : Type} (agentName e : string) (started settled : Z)
    (agents : gmap string AgentStatus.t) :
  runAgentAnalysis (T := T) agentName (Throw e) started settled agents
  = (applyEvents agents [TaskStarted agentName started; TaskFailed agentName settled],
     Throw e).
Proof. reflexivity. Qed.

Lemma runAgentAnalyses_run (w : World) (m : Match.t) (player1 player2 : Player.t)
    (clock : nat -> Z) (schedule : Schedule) (agents : gmap string AgentStatus.t) :
  runAgentAnalyses w m player1 player2 clock schedule agents
  = (applyEvents agents (analysesTrace clock schedule),
     Throw (notAFunction "contextualAgents.analyzeNews")).
Proof.
  unfold runAgentAnalyses, analysesTrace, bindRun.
  rewrite !runGroup_resolves, runMatchupAnalyses_run, !runAgentAnalysis_failed.
  cbn [promiseAll]. rewrite <- !applyEvents_app. reflexivity.
Qed.

Lemma lastStatus_app (s0 : Status) (agentName : string) (es es' : list RegistryEvent) :
  lastStatus s0 agentName (es ++ es')%list
  = lastStatus (lastStatus s0 agentName es) agentName es'.
Proof. revert s0. induction es as [|e es IH]; intros s0; [reflexivity|]. simpl. apply IH. Qed.

Lemma countStarts_app (agentName : string) (es es' : list RegistryEvent) :
  countStarts agentName (es ++ es')%list
  = (countStarts agentName es + countStarts agentName es')%nat.
Proof.
  induction es as [|e es IH]; [reflexivity|].
  rewrite <- app_comm_cons, !countStarts_cons, IH. lia.
Qed.

(** Events made from a list of names, all with the same status. *)
Lemma named_events (status : Status) (names : list string) :
  forall (f : nat -> string -> RegistryEvent) (agentName : string) (s0 : Status),
    (forall i n, eventAgent (f i n) = n /\ eventStatus (f i n) = status) ->
    lastStatus s0 agentName (imap f names)
    = (if existsb (String.eqb agentName) names then status else s0) /\
    countStarts agentName (imap f names)
    = match status with
      | processing => length (List.filter (String.eqb agentName) names)
      | _ => 0%nat
      end.
Proof.
  induction names as [|n names IH]; intros f agentName s0 Hf.
  - split; [reflexivity | destruct status; reflexivity].
  - cbn [imap lastStatus existsb List.filter]. rewrite countStarts_cons.
    destruct (Hf 0%nat n) as [-> ->].
    destruct (IH (f ∘ S) agentName (if String.eqb n agentName then status else s0)) as [-> ->].
    { intros i n'. apply Hf. }
    rewrite (String.eqb_sym agentName n).
    destruct (String.eqb n agentName); simpl.
    + split; [destruct (existsb _ names); reflexivity | destruct status; reflexivity].
    + split; [reflexivity | destruct status; reflexivity].
Qed.

Lemma existsb_Permutation (agentName : string) (order names : list string) :
  Permutation order names ->
  existsb (String.eqb agentName) order = existsb (String.eqb agentName) names.
Proof.
  intros Hp. induction Hp as [|x l l' _ IH|x y l|l l' l'' _ IH1 _ IH2]; simpl.
  - reflexivity.
  - rewrite IH. reflexivity.
  - destruct (String.eqb agentName x), (String.eqb agentName y); reflexivity.
  - congruence.
Qed.

(** A group whose tasks all settle leaves its agents active, and starts each
    once per occurrence in the array. *)
Lemma groupEvents_settled (clock : nat -> Z) (names order : list string)
    (agentName : string) (s0 : Status) :
  Permutation order names ->
  lastStatus s0 agentName (groupEvents clock names order)
  = (if existsb (String.eqb agentName) names then active else s0) /\
  countStarts agentName (groupEvents clock names order)
  = length (List.filter (String.eqb agentName) names).
Proof.
  intros Hp. unfold groupEvents. rewrite lastStatus_app, countStarts_app.
  destruct (named_events processing names (fun i n => TaskStarted n (clock i)) agentName s0)
    as [-> ->]; [split; reflexivity|].
  destruct (named_events active order
              (fun i n => TaskSucceeded n (clock (length names + i)%nat)) agentName
              (if existsb (String.eqb agentName) names then processing else s0))
    as [-> ->]; [split; reflexivity|].
  rewrite (existsb_Permutation _ _ _ Hp).
  split; [destruct (existsb _ names); reflexivity | lia].
Qed.

(** One run over the registry, entry by entry. *)
Lemma analysesTrace_entry (clock : nat -> Z) (schedule : Schedule) (agentName : string)
    (s0 : Status) :
  fair schedule ->
  In agentName (map fst agentDefinitions) ->
  lastStatus s0 agentName (analysesTrace clock schedule)
  = (if existsb (String.eqb agentName) ["News Monitor"; "Data Gaps & Uncertainty Reporter"]
     then error else active) /\
  countStarts agentName (analysesTrace clock schedule) = 1%nat.
Proof.
  intros [Hp1 [Hp2 [Hp3 Hp4]]] Hin. unfold analysesTrace.
  rewrite !lastStatus_app, !countStarts_app.
  destruct (groupEvents_settled clock _ _ agentName s0 Hp1) as [-> ->].
  destruct (groupEvents_settled (fun i => clock (6 + i)%nat) _ _ agentName
              (if existsb (String.eqb agentName) recentPerformanceNames then active else s0)
              Hp2) as [-> ->].
  destruct (groupEvents_settled (fun i => clock (10 + i)%nat) _ _ agentName
              (if existsb (String.eqb agentName) surfaceEnvironmentNames then active
               else if existsb (String.eqb agentName) recentPerformanceNames then active
                    else s0) Hp3) as [-> ->].
  destruct (groupEvents_settled (fun i => clock (20 + i)%nat) _ _ agentName
              (if existsb (String.eqb agentName) statisticalNames then active
               else if existsb (String.eqb agentName) surfaceEnvironmentNames then active
                    else if existsb (String.eqb agentName) recentPerformanceNames then active
                         else s0) Hp4) as [-> ->].
  simpl in Hin.
  repeat (destruct Hin as [<-|Hin]; [split; reflexivity|]).
  contradiction.
Qed.

(** X8: a run of [runAgentAnalyses] over the registry never returns the
    grouped results: it rejects with the [TypeError] of the first call of
    group 6.  When every task of the four parallel groups settles, it leaves
    each of the eighteen agents with one more analysis counted, the two
    contextual agents in error and the sixteen others active. *)
Theorem agent_analyses_always_reject :
  forall (w : World) (m : Match.t) (player1 player2 : Player.t) (clock : nat -> Z)
         (schedule : Schedule) (t0 : Z) (random : nat -> Q) (es : list RegistryEvent),
    fair schedule ->
    let agents := applyEvents (initializeAgents t0 random) es in
    let run := runAgentAnalyses w m player1 player2 clock schedule agents in
    snd run = Throw (notAFunction "contextualAgents.analyzeNews") /\
    forall agentName,
      In agentName (map fst agentDefinitions) ->
      exists before after,
        agents !! agentName = Some before /\
        fst run !! agentName = Some after /\
        AgentStatus.status after
        = (if existsb (String.eqb agentName)
                      ["News Monitor"; "Data Gaps & Uncertainty Reporter"]
           then error else active) /\
        AgentStatus.totalAnalyses after = S (AgentStatus.totalAnalyses before).
Proof.
  intros w m player1 player2 clock schedule t0 random es Hfair agents run.
  unfold run. rewrite runAgentAnalyses_run. split; [reflexivity|].
  intros agentName Hin. cbn [fst].
  assert (Hsome : is_Some (applyEvents agents (analysesTrace clock schedule) !! agentName)).
  { unfold agents. rewrite !applyEvents_is_Some. unfold initializeAgents.
    rewrite registerAgents_is_Some. left. exact Hin. }
  destruct Hsome as [after Hafter].
  destruct (applyEvents_entry _ _ _ _ Hafter) as [before [Hbefore [_ [_ [_ [Htot [_ Hst]]]]]]].
  destruct (analysesTrace_entry clock schedule agentName (AgentStatus.status before)
              Hfair Hin) as [Hlast Hcount].
  exists before, after. split; [exact Hbefore|]. split; [exact Hafter|].
  rewrite Hst, Hlast, Htot, Hcount. split; [reflexivity | lia].
Qed.

Lemma agent_analyses_always_reject_witness :
  let schedule :=
    {| recentPerformanceOrder :=
         ["Clutch Performance Analyst"; "Recent Matches Analyst"; "Momentum Analyst"];
       surfaceEnvironmentOrder := surfaceEnvironmentNames;
       statisticalOrder := statisticalNames;
       physicalOrder := physicalNames |} in
  snd (runAgentAnalyses (failingWorld "no key" 3) final alice bob Z.of_nat schedule
         (applyEvents (initializeAgents 0 (fun _ => 0.5%Q)) []))
  = Throw "contextualAgents.analyzeNews is not a function".
Proof.
  intros schedule.
  refine (proj1 (agent_analyses_always_reject (failingWorld "no key" 3) final alice bob
                   Z.of_nat schedule 0 (fun _ => 0.5%Q) [] _)).
  unfold fair, schedule. simpl.
  split; [|split; [|split]]; try reflexivity.
  apply Permutation_cons_append.
Defined.

(** X9: no call of [analyzeMatch] returns a prediction or stores an agent
    analysis.  A call for a match that is marked is refused and changes
    nothing; any other call ends with the marker of its match removed and
    rejects: with the storage error or "Player data not found" before any
    agent has run, and with the [TypeError] of group 6 once the agents have
    run. *)
Theorem analyze_match_never_returns :
  forall (services : Services) (w : World) (m : Match.t) (clock : nat -> Z)
         (schedule : Schedule) (currentAnalysis : gmap string bool)
         (agents : gmap string AgentStatus.t),
    analyzeMatchCall services w m clock schedule currentAnalysis agents
    = match currentAnalysis !! Match.id m with
      | Some true => (currentAnalysis, agents, [], Throw "Match analysis already in progress")
      | _ =>
          match getPlayers services with
          | Throw e => (delete (Match.id m) currentAnalysis, agents, [], Throw e)
          | Ok (Some _, Some _) =>
              (delete (Match.id m) currentAnalysis,
               applyEvents agents (analysesTrace clock schedule), [],
               Throw (notAFunction "contextualAgents.analyzeNews"))
          | Ok _ =>
              (delete (Match.id m) currentAnalysis, agents, [], Throw "Player data not found")
          end
      end.
Proof.
  intros services w m clock schedule currentAnalysis agents.
  unfold analyzeMatchCall, analyzeMatchEnter, analyzeMatchFinally, analyzeMatchTry.
  destruct (currentAnalysis !! Match.id m) as [[|]|];
    [reflexivity| |];
    rewrite delete_insert_eq;
    (destruct (getPlayers services) as [[[player1|] [player2|]]|e]; try reflexivity;
     rewrite runAgentAnalyses_run; reflexivity).
Qed.

Lemma analyzeMatchCall_rejects (services : Services) (w : World) (m : Match.t)
    (clock : nat -> Z) (schedule : Schedule) (currentAnalysis : gmap string bool)
    (agents : gmap string AgentStatus.t) :
  exists e, snd (analyzeMatchCall services w m clock schedule currentAnalysis agents)
            = Throw e.
Proof.
  unfold analyzeMatchCall, analyzeMatchEnter, analyzeMatchTry.
  destruct (currentAnalysis !! Match.id m) as [[|]|]; [eexists; reflexivity| |];
    (destruct (getPlayers services) as [[[player1|] [player2|]]|e];
     try (eexists; reflexivity);
     rewrite runAgentAnalyses_run; eexists; reflexivity).
Qed.

(** X10: whatever the request and the stored data, the analyze endpoint never
    calls [storage.createPrediction] and never broadcasts on
    "analysis:completed"; it answers 200 only with a prediction that was
    already stored, found because the request did not force a refresh, and
    otherwise 400, 404 or 500. *)
Theorem analyze_endpoint_stores_nothing :
  forall (backend : Backend.t) (services : Services) (w : World) (clock : nat -> Z)
         (schedule : Schedule) (currentAnalysis : gmap string bool)
         (agents : gmap string AgentStatus.t) (numberToString : val -> string)
         (body : val),
    let served :=
      postAnalyze (wired backend services w clock schedule currentAnalysis agents)
                  numberToString body in
    (forall effect, In effect (fst served) ->
                    effect = Broadcast "analysis:started"
                                       (VObj [("matchId", get body "matchId")])) /\
    (Response.statusCode (snd served) = 200%nat ->
     truthy (get body "forceRefresh") = false /\
     Backend.getPredictionByMatch backend (get body "matchId")
     = Ok (Response.body (snd served)) /\
     truthy (Response.body (snd served)) = true) /\
    In (Response.statusCode (snd served)) [200; 400; 404; 500]%nat.
Proof.
  intros backend services w clock schedule currentAnalysis agents numberToString body served.
  assert (Hstore : forall matchId,
             let r := analyzeAndStore
                        (wired backend services w clock schedule currentAnalysis agents)
                        numberToString matchId in
             (forall effect, In effect (fst r) ->
                             effect = Broadcast "analysis:started" (VObj [("matchId", matchId)])) /\
             Response.statusCode (snd r) <> 200%nat /\
             In (Response.statusCode (snd r)) [200; 400; 404; 500]%nat).
  { intros matchId. unfold analyzeAndStore. cbn [wired Backend.getMatch Backend.analyzeMatch].
    destruct (Backend.getMatch backend matchId) as [[m|]|e]; cbn.
    - destruct (analyzeMatchCall_rejects services w m clock schedule currentAnalysis agents)
        as [e ->]. cbn. split; [intros effect [<-|[]]; reflexivity|]. split; [lia | tauto].
    - split; [intros effect []|]. split; [lia | tauto].
    - split; [intros effect []|]. split; [lia | tauto]. }
  unfold served, postAnalyze.
  destruct body as [| |b|q|s|l|ps];
    try (cbn; split; [intros effect []|]; split; [intros H; discriminate H | tauto]).
  all: set (body := _ : val) in *.
  all: destruct (truthy (get body "matchId")) eqn:Hid; cbn [negb];
    [|cbn; split; [intros effect []|]; split; [intros H; discriminate H | tauto]].
  all: assert (Hforce : truthy (match get body "forceRefresh" with
                                | VUndefined => VBool false
                                | v => v
                                end) = truthy (get body "forceRefresh"))
         by (destruct (get body "forceRefresh"); reflexivity).
  all: rewrite Hforce; clear Hforce.
  all: destruct (truthy (get body "forceRefresh")) eqn:Hforce; cbn [negb];
    [destruct (Hstore (get body "matchId")) as [H1 [H2 H3]];
     split; [exact H1|]; split; [intros H; contradiction | exact H3]|].
  all: cbn [wired Backend.getPredictionByMatch].
  all: destruct (Backend.getPredictionByMatch backend (get body "matchId"))
         as [existing|e] eqn:Hcached;
    [|cbn; split; [intros effect []|]; split; [intros H; discriminate H | tauto]].
  all: destruct (truthy existing) eqn:Hexisting;
    [cbn; split; [intros effect []|]; split; [intros _; repeat split; assumption | tauto]|].
  all: destruct (Hstore (get body "matchId")) as [H1 [H2 H3]];
    split; [exact H1|]; split; [intros H; contradiction | exact H3].
Qed.

(** ** From the task functions to the factor list and the store *)

Lemma extractAdvantage_conclusion (analysis : string) :
  Advantage.conclusion (extractAdvantage analysis) <> "" /\
  Advantage.conclusion (extractAdvantageSurface analysis) <> "" /\
  Advantage.conclusion (extractAdvantageContextual analysis) <> "".
Proof.
  unfold extractAdvantage, extractAdvantageSurface, extractAdvantageContextual.
  split; [|split].
  - destruct (RegExp.exec true advantagePattern analysis) as [ma|]; [|discriminate].
    destruct (includes (RegExp.whole ma) "No Clear"); [discriminate|].
    destruct (includes (RegExp.whole ma) "Slight"); discriminate.
  - destruct (RegExp.exec true surfaceAdvantagePattern analysis) as [ma|]; [|discriminate].
    destruct (includes (RegExp.whole ma) "No Clear"); discriminate.
  - destruct (RegExp.exec true contextualAdvantagePattern analysis) as [ma|]; [|discriminate].
    destruct (includes (RegExp.whole ma) "No"); discriminate.
Qed.

Lemma aiTaskWith_labelled (w : World) (t : Task) (extract : string -> Advantage.t)
    (gathered : Res Gathered) :
  (forall analysis, Advantage.conclusion (extract analysis) <> "") ->
  errorConclusion t <> "" ->
  labelled t (aiTaskWith w t extract gathered).
Proof.
  intros Hextract Herror. unfold aiTaskWith, aiBody, labelled.
  destruct gathered as [g|e]; simpl; [|tauto].
  destruct (complete w (promptFactor t) (analysisData g)); simpl; [|tauto].
  split; [reflexivity|]. split; [reflexivity|]. apply Hextract.
Qed.

Lemma derivedTask_labelled (w : World) (t : Task) :
  errorConclusion t <> "" -> labelled t (derivedTask w t).
Proof.
  intros Herror. unfold derivedTask, derivedBody, labelled.
  destruct (derive w (taskAgentName t)) as [d|e]; simpl; [|tauto].
  split; [reflexivity|]. split; [reflexivity|].
  destruct (String.eqb (derivedAdvantage d) "none"); discriminate.
Qed.

Lemma taskFunctions_labelled (t : Task)
    (f : World -> Match.t -> Player.t -> Player.t -> list val -> Result.t) :
  In (t, f) taskFunctions ->
  taskFactor t <> "" /\ taskAgentName t <> "" /\
  forall w m player1 player2 rest, labelled t (f w m player1 player2 rest).
Proof.
  pose proof (fun a => proj1 (extractAdvantage_conclusion a)) as H1.
  pose proof (fun a => proj1 (proj2 (extractAdvantage_conclusion a))) as H2.
  pose proof (fun a => proj2 (proj2 (extractAdvantage_conclusion a))) as H3.
  intros Hin. simpl in Hin.
  repeat (destruct Hin as [Heq|Hin];
          [injection Heq as <- <-; split; [discriminate|]; split; [discriminate|];
           intros w m player1 player2 rest;
           first [ apply derivedTask_labelled; discriminate
                 | apply aiTaskWith_labelled; [assumption | discriminate]
                 | idtac ] |]);
    [| |contradiction].
  - unfold analyzeTacticalBattle, labelled. simpl.
    match goal with |- context [complete w ?f ?d] => destruct (complete w f d) end;
      simpl; [|repeat split; discriminate].
    split; [reflexivity|]. split; [reflexivity|]. apply H1.
  - unfold reportDataGapsAndLimitations, labelled.
    destruct (derive w "Data Gaps & Uncertainty Reporter"); simpl; repeat split; discriminate.
Qed.

Lemma compileFactor_record (category : string) (r : Result.t) :
  Result.factor r <> "" -> Result.conclusion r <> "" ->
  compileFactor category (toJs r) = [compiled r].
Proof.
  intros Hf Hc. unfold compileFactor, compiled, toJs. cbn [truthy andb get lookupProp].
  cbn - [Qeq_bool]. unfold or. cbn - [Qeq_bool].
  apply String.eqb_neq in Hf, Hc. rewrite Hf, Hc. cbn - [Qeq_bool].
  destruct (String.eqb (Result.advantage r) ""), (Qeq_bool (Result.confidence r) 0),
    (String.eqb (Result.reasoning r) "") eqn:Hr; cbn; try reflexivity;
    apply String.eqb_eq in Hr; rewrite Hr; reflexivity.
Qed.

(** X11: whatever its collaborators do, the record of every task function
    carries the agent name and the factor label of its task and a conclusion,
    so it is never dropped: it enters the factor list, with 0.5 in place of a
    confidence of 0 and "none" in place of an empty advantage, and it is
    handed to [storage.createAgentAnalysis] under its agent name, with the
    confidence as the record has it. *)
Theorem task_records_kept :
  forall (t : Task)
         (f : World -> Match.t -> Player.t -> Player.t -> list val -> Result.t),
    In (t, f) taskFunctions ->
    forall (w : World) (m : Match.t) (player1 player2 : Player.t) (rest : list val)
           (category matchId : string) (numberToString : val -> string),
      let r := f w m player1 player2 rest in
      Result.agentName r = taskAgentName t /\
      Result.factor r = taskFactor t /\
      compileFactor category (toJs r) = [compiled r] /\
      exists values,
        agentAnalysisOf numberToString matchId category (toJs r) = [values] /\
        InsertAgentAnalysis.agentName values = VStr (taskAgentName t) /\
        InsertAgentAnalysis.agentType values = category /\
        InsertAgentAnalysis.conclusion values = VStr (Result.conclusion r) /\
        (numberToString (VNum (Result.confidence r)) <> "" ->
         InsertAgentAnalysis.confidenceLevel values
         = numberToString (VNum (Result.confidence r))).
Proof.
  intros t f Hin w m player1 player2 rest category matchId numberToString r.
  destruct (taskFunctions_labelled t f Hin) as [Hfactor [Hname Hlab]].
  destruct (Hlab w m player1 player2 rest) as [Hn [Hf Hc]]. fold r in Hn, Hf, Hc.
  split; [exact Hn|]. split; [exact Hf|]. split.
  - apply compileFactor_record; [rewrite Hf; exact Hfactor | exact Hc].
  - unfold agentAnalysisOf, toJs. cbn [truthy andb get lookupProp].
    cbn - [Qeq_bool confidenceLevelOf]. rewrite Hn.
    apply String.eqb_neq in Hname. rewrite Hname. cbn - [Qeq_bool confidenceLevelOf].
    eexists. split; [reflexivity|]. cbn - [Qeq_bool confidenceLevelOf].
    split; [reflexivity|]. split; [reflexivity|]. split.
    + unfold or. cbn. apply String.eqb_neq in Hc. rewrite Hc. reflexivity.
    + intros Hs. unfold confidenceLevelOf. apply String.eqb_neq in Hs. rewrite Hs.
      reflexivity.
Qed.

Lemma task_records_kept_witness :
  compileFactor "statistical"
    (toJs (analyzeServePerformance (failingWorld "no key" 3) final alice bob))
  = [ {| factor := VStr "Factor 3.1 (Serve Performance)";
         conclusion := VStr "Analysis Error";
         advantage := VStr "none";
         confidence := VNum 0.5;
         reasoning := VStr "Unable to analyze serve performance due to data limitations." |} ].
Proof.
  refine (proj1 (proj2 (proj2
    (task_records_kept servePerformance
       (fun w m player1 player2 _ => analyzeServePerformance w m player1 player2) _
       (failingWorld "no key" 3) final alice bob [] "statistical" "m-1"
       (fun _ => "0"))))).
  simpl. tauto.
Defined.

(** ** What the extractors can answer *)

Lemma exec_sound (ignoreCase : bool) (r : RegExp.re) (s : string) (ma : RegExp.MatchArray) :
  RegExp.exec ignoreCase r s = Some ma ->
  exists before t, s = before ++ t /\ RegExp.matchAt ignoreCase r t = Some ma.
Proof.
  induction s as [|c s IH]; simpl; intros H.
  - destruct (RegExp.matchAt ignoreCase r "") eqn:E; [|discriminate].
    exists "", "". split; [reflexivity | congruence].
  - destruct (RegExp.matchAt ignoreCase r (String c s)) eqn:E.
    + exists "", (String c s). split; [reflexivity | congruence].
    + destruct (IH H) as [before [t [-> Ht]]].
      exists (String c before), t. split; [reflexivity | exact Ht].
Qed.

(** The alternative with the captured digit, followed by whatever the pattern
    tries next. *)
Lemma matchRe_readAdvantage (w : string) (g : nat) (s : string) :
  RegExp.matchRe true
    (RegExp.Seq (RegExp.lit w) (RegExp.Seq (playerGroup g) (RegExp.lit "**"))) s []
    (fun s' caps => Some {| RegExp.whole := RegExp.consumed s s'; RegExp.groups := caps |})
  = readAdvantage w g s.
Proof.
  unfold readAdvantage. cbn [RegExp.matchRe]. rewrite matchRe_lit.
  destruct (prefixCI w s) as [[|d r]|]; [reflexivity| |reflexivity].
  rewrite matchRe_playerGroup. destruct (RegExp.isDigit d); [|reflexivity].
  rewrite matchRe_lit. reflexivity.
Qed.

Lemma matchAt_surfaceAdvantagePattern (s : string) :
  RegExp.matchAt true surfaceAdvantagePattern s
  = match readAdvantage "**Advantage Player " 1 s with
    | Some m => Some m
    | None =>
        match prefixCI "**No Clear Advantage**" s with
        | Some rest => Some {| RegExp.whole := RegExp.consumed s rest; RegExp.groups := [] |}
        | None => None
        end
    end.
Proof.
  unfold RegExp.matchAt, surfaceAdvantagePattern.
  cbn [RegExp.matchRe]. fold (RegExp.lit "**Advantage Player ").
  pose proof (matchRe_readAdvantage "**Advantage Player " 1 s) as H.
  cbn [RegExp.matchRe] in H. rewrite H. rewrite matchRe_lit. reflexivity.
Qed.

Lemma matchAt_contextualAdvantagePattern (s : string) :
  RegExp.matchAt true contextualAdvantagePattern s
  = match readAdvantage "**Advantage Player " 1 s with
    | Some m => Some m
    | None =>
        match prefixCI "**No Clear Advantage**" s with
        | Some rest => Some {| RegExp.whole := RegExp.consumed s rest; RegExp.groups := [] |}
        | None =>
            match prefixCI "**No Significant" s with
            | Some rest =>
                Some {| RegExp.whole := RegExp.consumed s rest; RegExp.groups := [] |}
            | None => None
            end
        end
    end.
Proof.
  unfold RegExp.matchAt, contextualAdvantagePattern.
  cbn [RegExp.matchRe].
  pose proof (matchRe_readAdvantage "**Advantage Player " 1 s) as H.
  cbn [RegExp.matchRe] in H. rewrite H. rewrite !matchRe_lit.
  destruct (readAdvantage "**Advantage Player " 1 s); [reflexivity|].
  destruct (prefixCI "**No Clear Advantage**" s); reflexivity.
Qed.

(** The captures of a match of one of the three patterns. *)
Lemma advantage_groups (r : RegExp.re) (s : string) (ma : RegExp.MatchArray) :
  In r [advantagePattern; surfaceAdvantagePattern; contextualAdvantagePattern] ->
  RegExp.exec true r s = Some ma ->
  RegExp.groups ma = [] \/
  exists g d, (g = 1 \/ (g = 2 /\ r = advantagePattern))%nat /\
              RegExp.isDigit d = true /\ RegExp.groups ma = [(g, String d "")].
Proof.
  intros Hr Hexec. destruct (exec_sound _ _ _ _ Hexec) as [before [t [_ Hat]]].
  assert (Hread : forall w g m, readAdvantage w g t = Some m ->
                    exists d, RegExp.isDigit d = true /\ RegExp.groups m = [(g, String d "")]).
  { intros w g m Hm. destruct (readAdvantage_sound _ _ _ _ Hm) as [d [_ [Hd [_ [_ Hg]]]]].
    exists d. split; assumption. }
  simpl in Hr. destruct Hr as [<-|[<-|[<-|[]]]].
  - rewrite matchAt_advantagePattern in Hat.
    destruct (readAdvantage "**Advantage Player " 1 t) as [m1|] eqn:H1.
    { injection Hat as <-. destruct (Hread _ _ _ H1) as [d [Hd Hg]].
      right. exists 1%nat, d. tauto. }
    destruct (readAdvantage "**Slight Advantage Player " 2 t) as [m2|] eqn:H2.
    { injection Hat as <-. destruct (Hread _ _ _ H2) as [d [Hd Hg]].
      right. exists 2%nat, d. tauto. }
    destruct (prefixCI "**No Clear Advantage**" t); [|discriminate].
    injection Hat as <-. left. reflexivity.
  - rewrite matchAt_surfaceAdvantagePattern in Hat.
    destruct (readAdvantage "**Advantage Player " 1 t) as [m1|] eqn:H1.
    { injection Hat as <-. destruct (Hread _ _ _ H1) as [d [Hd Hg]].
      right. exists 1%nat, d. tauto. }
    destruct (prefixCI "**No Clear Advantage**" t); [|discriminate].
    injection Hat as <-. left. reflexivity.
  - rewrite matchAt_contextualAdvantagePattern in Hat.
    destruct (readAdvantage "**Advantage Player " 1 t) as [m1|] eqn:H1.
    { injection Hat as <-. destruct (Hread _ _ _ H1) as [d [Hd Hg]].
      right. exists 1%nat, d. tauto. }
    destruct (prefixCI "**No Clear Advantage**" t).
    { injection Hat as <-. left. reflexivity. }
    destruct (prefixCI "**No Significant" t); [|discriminate].
    injection Hat as <-. left. reflexivity.
Qed.

Lemma playerTag_not_slight (tag : string) :
  playerTag tag -> tag <> "slight_player1" /\ tag <> "slight_player2".
Proof.
  intros [->|[->|[d [_ ->]]]]; split; discriminate.
Qed.

(** X12: whatever the reply, each of the three extractors answers with the
    tag "none", with "player" followed by one digit, or with
    "playerundefined", and with a conclusion that is not empty.  So no
    extractor ever gives one of the tags "slight_player1" and
    "slight_player2" that the fallback vote also counts: a factor record made
    from an extractor's answer is counted for player 1 exactly when its tag is
    "player1", and for player 2 exactly when it is "player2". *)
Theorem extracted_tags :
  forall (reply : string) (extract : string -> Advantage.t),
    In extract [extractAdvantage; extractAdvantageSurface; extractAdvantageContextual] ->
    let tag := Advantage.player (extract reply) in
    playerTag tag /\
    Advantage.conclusion (extract reply) <> "" /\
    (favorsPlayer1 (factorWithAdvantage tag) = true <-> tag = "player1") /\
    (favorsPlayer2 (factorWithAdvantage tag) = true <-> tag = "player2").
Proof.
  intros reply extract Hin tag.
  assert (Htag : playerTag tag).
  { unfold tag. simpl in Hin. destruct Hin as [<-|[<-|[<-|[]]]].
    - unfold extractAdvantage.
      destruct (RegExp.exec true advantagePattern reply) as [ma|] eqn:E;
        [|left; reflexivity].
      destruct (includes (RegExp.whole ma) "No Clear"); [left; reflexivity|].
      destruct (advantage_groups advantagePattern reply ma) as [Hg|[g [d [Hgd [Hd Hg]]]]];
        [simpl; tauto | exact E | |]; rewrite Hg; cbn [Advantage.player].
      + right. left. reflexivity.
      + right. right. exists d. split; [exact Hd|].
        destruct Hgd as [->|[-> _]]; reflexivity.
    - unfold extractAdvantageSurface.
      destruct (RegExp.exec true surfaceAdvantagePattern reply) as [ma|] eqn:E;
        [|left; reflexivity].
      destruct (includes (RegExp.whole ma) "No Clear"); [left; reflexivity|].
      destruct (advantage_groups surfaceAdvantagePattern reply ma)
        as [Hg|[g [d [Hgd [Hd Hg]]]]];
        [simpl; tauto | exact E | |]; rewrite Hg; cbn [Advantage.player].
      + right. left. reflexivity.
      + right. right. exists d. split; [exact Hd|].
        destruct Hgd as [->|[_ Habs]]; [reflexivity | discriminate Habs].
    - unfold extractAdvantageContextual.
      destruct (RegExp.exec true contextualAdvantagePattern reply) as [ma|] eqn:E;
        [|left; reflexivity].
      destruct (includes (RegExp.whole ma) "No"); [left; reflexivity|].
      destruct (advantage_groups contextualAdvantagePattern reply ma)
        as [Hg|[g [d [Hgd [Hd Hg]]]]];
        [simpl; tauto | exact E | |]; rewrite Hg; cbn [Advantage.player].
      + right. left. reflexivity.
      + right. right. exists d. split; [exact Hd|].
        destruct Hgd as [->|[_ Habs]]; [reflexivity | discriminate Habs]. }
  split; [exact Htag|]. split.
  - unfold tag in *. simpl in Hin. destruct Hin as [<-|[<-|[<-|[]]]];
      apply extractAdvantage_conclusion.
  - destruct (playerTag_not_slight tag Htag) as [Hs1 Hs2].
    unfold favorsPlayer1, favorsPlayer2, factorWithAdvantage. cbn [advantage isStr].
    apply String.eqb_neq in Hs1, Hs2. rewrite Hs1, Hs2, !orb_false_r.
    split; apply String.eqb_eq.
Qed.

Lemma extracted_tags_witness :
  playerTag (Advantage.player (extractAdvantage "Serve: **Slight Advantage Player 2**")).
Proof.
  refine (proj1 (extracted_tags "Serve: **Slight Advantage Player 2**" extractAdvantage _)).
  simpl. tauto.
Defined.

Section HelperProperties.

Local Open Scope Q_scope.

(** ** Grading two scores *)

Lemma Qltb_lt (a b : Q) : Qltb a b = true <-> a < b.
Proof.
  unfold Qltb. rewrite negb_true_iff. split.
  - intros H. apply Qnot_le_lt. intros Hle. apply Qle_bool_iff in Hle. congruence.
  - intros H. destruct (Qle_bool b a) eqn:E; [|reflexivity].
    apply Qle_bool_iff in E. exfalso. apply (Qlt_not_le _ _ H E).
Qed.

Lemma Qltb_ge (a b : Q) : Qltb a b = false <-> b <= a.
Proof.
  unfold Qltb. rewrite negb_false_iff. apply Qle_bool_iff.
Qed.

Lemma Qgtb_lt (a b : Q) : Qgtb a b = true <-> b < a.
Proof. apply Qltb_lt. Qed.

Lemma Qgtb_le (a b : Q) : Qgtb a b = false <-> a <= b.
Proof. apply Qltb_ge. Qed.






(** ** Recent performance *)

Lemma filter_length_le {A : Type} (f : A -> bool) (l : list A) :
  (length (List.filter f l) <= length l)%nat.
Proof.
  induction l as [|x l IH]; simpl; [lia|]. destruct (f x); simpl; lia.
Qed.

Lemma ratio_bounds (k n : nat) :
  (k <= n)%nat -> (0 < n)%nat ->
  0 <= inject_Z (Z.of_nat k) / inject_Z (Z.of_nat n) /\
  inject_Z (Z.of_nat k) / inject_Z (Z.of_nat n) <= 1.
Proof.
  intros Hk Hn.
  assert (Hpos : 0 < inject_Z (Z.of_nat n)).
  { unfold Qlt, inject_Z. simpl. lia. }
  split.
  - apply Qle_shift_div_l; [exact Hpos|]. rewrite Qmult_0_l.
    unfold Qle, inject_Z. simpl. lia.
  - apply Qle_shift_div_r; [exact Hpos|]. rewrite Qmult_1_l.
    unfold Qle, inject_Z. simpl. lia.
Qed.












(** ** Momentum *)

Lemma insertByTime_length (m : PlayedMatch.t) (sorted : list PlayedMatch.t) :
  length (insertByTime m sorted) = S (length sorted).
Proof.
  induction sorted as [|x sorted IH]; [reflexivity|].
  simpl. destruct (timeOf x <=? timeOf m)%Z; simpl; [reflexivity | rewrite IH; reflexivity].
Qed.

Lemma sortByTime_length (matches : list PlayedMatch.t) :
  length (sortByTime matches) = length matches.
Proof.
  induction matches as [|m matches IH]; [reflexivity|].
  simpl. rewrite insertByTime_length, IH. reflexivity.
Qed.

(** A running streak: the loop counts on while the results stay the same. *)
Lemma streakLoop_running (playerId : string) (isWin : bool) (matches : list PlayedMatch.t) :
  forall n,
    let streak := streakLoop playerId (S n) (if isWin then win else loss) matches in
    snd streak = (if isWin then win else loss) /\
    (S n <= fst streak <= S n + length matches)%nat /\
    List.Forall (fun m => wonBy playerId m = isWin) (firstn (fst streak - S n) matches).
Proof.
  induction matches as [|m matches IH]; intros n.
  - cbn. split; [reflexivity|]. split; [lia|]. rewrite Nat.sub_diag. constructor.
  - cbn [streakLoop length].
    assert (Hsame : (match (if isWin then win else loss) with
                     | win => wonBy playerId m
                     | loss => negb (wonBy playerId m)
                     | noStreak => false
                     end) = Bool.eqb (wonBy playerId m) isWin).
    { destruct isWin, (wonBy playerId m); reflexivity. }
    rewrite Hsame. destruct (Bool.eqb (wonBy playerId m) isWin) eqn:E.
    + apply Bool.eqb_prop in E. destruct (IH (S n)) as [Hty [Hrange Hall]].
      split; [exact Hty|]. split; [lia|].
      set (k := fst (streakLoop playerId (S (S n)) (if isWin then win else loss) matches)) in *.
      replace (k - S n)%nat with (S (k - S (S n))) by lia.
      cbn [firstn]. constructor; [exact E | exact Hall].
    + cbn [fst snd]. split; [reflexivity|]. split; [lia|].
      rewrite Nat.sub_diag. constructor.
Qed.

Lemma results_all (playerId : string) (isWin : bool) (matches : list PlayedMatch.t) :
  List.Forall (fun m => wonBy playerId m = isWin) matches ->
  length (List.filter (Nat.eqb 1)
            (map (fun m => if wonBy playerId m then 1%nat else 0%nat) matches))
  = (if isWin then length matches else 0%nat).
Proof.
  induction 1 as [|m matches Hm _ IH]; [destruct isWin; reflexivity|].
  cbn [map List.filter]. rewrite Hm.
  destruct isWin.
  - change (Nat.eqb 1 1) with true. cbv iota. cbn [length]. rewrite IH. reflexivity.
  - change (Nat.eqb 1 0) with false. cbv iota. exact IH.
Qed.

Lemma firstn_firstn_le {A : Type} (k n : nat) (l : list A) :
  (k <= n)%nat -> firstn k (firstn n l) = firstn k l.
Proof.
  revert n l. induction k as [|k IH]; intros n l Hle; [reflexivity|].
  destruct n as [|n]; [lia|]. destruct l as [|x l]; [reflexivity|].
  cbn [firstn]. rewrite IH by lia. reflexivity.
Qed.

(** X16: momentum of a match list.  For a player with recent matches the
    current streak is at least 1 and at most the number of matches, it is a
    winning or a losing streak, the consistency lies between 0 and 1 and the
    recent form lists the last five results.  A winning streak of five or
    more means consistency 1 and momentum score 1; a losing streak of five or
    more means consistency 0 and momentum score 0.  Without recent matches
    the score is 0. *)
Theorem momentum_of_streaks :
  forall (matches : list PlayedMatch.t) (playerId : string),
    let momentum := calculateMomentum matches playerId in
    (matches = [] -> scoreMomentum momentum == 0) /\
    (matches <> [] ->
     (1 <= Momentum.currentStreak momentum <= length matches)%nat /\
     Momentum.streakType momentum <> noStreak /\
     (0 <= Momentum.consistency momentum /\ Momentum.consistency momentum <= 1) /\
     length (Momentum.recentForm momentum) = Nat.min 5 (length matches) /\
     ((5 <= Momentum.currentStreak momentum)%nat ->
      (Momentum.streakType momentum = win ->
       Momentum.consistency momentum == 1 /\ scoreMomentum momentum == 1) /\
      (Momentum.streakType momentum = loss ->
       Momentum.consistency momentum == 0 /\ scoreMomentum momentum == 0))).
Proof.
  intros matches playerId momentum. split; [intros ->; reflexivity|].
  intros Hne.
  assert (Hshape : momentum
                   = let sortedMatches := sortByTime matches in
                     let streak := streakLoop playerId 0%nat noStreak sortedMatches in
                     let recentResults :=
                       map (fun m => if wonBy playerId m then 1%nat else 0%nat)
                           (firstn 5 sortedMatches) in
                     {| Momentum.currentStreak := fst streak;
                        Momentum.streakType := snd streak;
                        Momentum.consistency :=
                          inject_Z (Z.of_nat (length (List.filter (Nat.eqb 1) recentResults)))
                          / inject_Z (Z.of_nat (length recentResults));
                        Momentum.recentForm := recentResults |}).
  { unfold momentum, calculateMomentum. destruct matches; [contradiction | reflexivity]. }
  rewrite Hshape. cbv zeta.
  cbn [Momentum.currentStreak Momentum.streakType Momentum.consistency Momentum.recentForm].
  pose proof (sortByTime_length matches) as Hlen.
  destruct (sortByTime matches) as [|m sorted] eqn:Hsorted.
  { destruct matches; [contradiction | discriminate Hlen]. }
  cbn [streakLoop].
  destruct (streakLoop_running playerId (wonBy playerId m) sorted 0) as [Hty [Hrange Hall]].
  set (streak := streakLoop playerId 1 (if wonBy playerId m then win else loss) sorted) in *.
  set (recent := map (fun m0 => if wonBy playerId m0 then 1%nat else 0%nat)
                     (firstn 5 (m :: sorted))).
  assert (Hrecent : length recent = Nat.min 5 (length matches)).
  { unfold recent. rewrite length_map, length_firstn, Hlen. reflexivity. }
  assert (Hpos : (0 < length recent)%nat).
  { rewrite Hrecent, <- Hlen. cbn [length]. lia. }
  split; [cbn [length] in Hlen; lia|].
  split; [rewrite Hty; destruct (wonBy playerId m); discriminate|].
  split; [apply ratio_bounds; [apply filter_length_le | exact Hpos]|].
  split; [exact Hrecent|].
  intros Hfive.
  assert (Hfirst : List.Forall (fun m0 => wonBy playerId m0 = wonBy playerId m)
                               (firstn 5 (m :: sorted))).
  { cbn [firstn]. constructor; [reflexivity|].
    rewrite <- (firstn_firstn_le 4 (fst streak - 1) sorted) by lia.
    apply Forall_take. exact Hall. }
  pose proof (results_all playerId (wonBy playerId m) _ Hfirst) as Hwins.
  fold recent in Hwins.
  assert (Hfull : length (firstn 5 (m :: sorted)) = length recent).
  { unfold recent. rewrite length_map. reflexivity. }
  rewrite Hty. destruct (wonBy playerId m) eqn:Hwon.
  - split; [intros _|intros H; discriminate H].
    rewrite Hwins, Hfull.
    assert (Hone : inject_Z (Z.of_nat (length recent)) / inject_Z (Z.of_nat (length recent))
                   == 1).
    { apply Qmult_inv_r. unfold Qeq, inject_Z. simpl. lia. }
    split; [exact Hone|].
    unfold scoreMomentum.
    cbn [Momentum.currentStreak Momentum.streakType Momentum.consistency].
    rewrite Hone.
    assert (Hbonus : Qmin (inject_Z (Z.of_nat (fst streak)) * 0.1) 0.4 == 0.4).
    { apply Q.min_r.
      assert (H5 : 5 <= inject_Z (Z.of_nat (fst streak))).
      { change 5 with (inject_Z 5). rewrite <- Zle_Qle. lia. }
      lra. }
    rewrite Hbonus.
    assert (Hsum : 1 * 0.6 + 0.4 == 1) by reflexivity.
    rewrite Hsum. reflexivity.
  - split; [intros H; discriminate H|intros _].
    rewrite Hwins.
    assert (Hzero : inject_Z (Z.of_nat 0) / inject_Z (Z.of_nat (length recent)) == 0).
    { unfold Qdiv. change (inject_Z (Z.of_nat 0)) with 0. ring. }
    split; [exact Hzero|].
    unfold scoreMomentum.
    cbn [Momentum.currentStreak Momentum.streakType Momentum.consistency].
    rewrite Hzero.
    assert (Hbonus : Qmin (inject_Z (Z.of_nat (fst streak)) * 0.1) 0.4 == 0.4).
    { apply Q.min_r.
      assert (H5 : 5 <= inject_Z (Z.of_nat (fst streak))).
      { change 5 with (inject_Z 5). rewrite <- Zle_Qle. lia. }
      lra. }
    rewrite Hbonus. reflexivity.
Qed.

Lemma momentum_of_streaks_witness :
  let won := {| PlayedMatch.surface := "clay"; PlayedMatch.winnerId := Some "p-1";
                PlayedMatch.score := None; PlayedMatch.scheduledTime := Some 86400000%Z |} in
  scoreMomentum (calculateMomentum [won; won; won; won; won; won] "p-1") == 1.
Proof.
  intros won.
  refine (proj2 (proj1 (proj2 (proj2 (proj2 (proj2 (proj2
    (momentum_of_streaks [won; won; won; won; won; won] "p-1") _)))) _) _)).
  - discriminate.
  - vm_compute. lia.
  - reflexivity.
Defined.

(** ** Confidence of the statistical tasks *)

Lemma Qabs_diff_lt (a x y k : Q) :
  0 < k -> 0 <= x -> x < 1 -> 0 <= y -> y < 1 ->
  Qabs ((a + x * k) - (a + y * k)) < k.
Proof.
  intros Hk Hx0 Hx1 Hy0 Hy1.
  assert (Heq : (a + x * k) - (a + y * k) == (x - y) * k) by ring.
  rewrite Heq. apply Qabs_case; intros _; nra.
Qed.

Lemma Qabs_swap (a b : Q) : Qabs (a - b) == Qabs (b - a).
Proof. rewrite <- Qabs_opp. apply Qabs_wd. ring. Qed.

Lemma Qgtb_wd (a a' b : Q) : a == a' -> Qgtb a b = Qgtb a' b.
Proof.
  intros H. destruct (Qgtb a' b) eqn:E.
  - apply Qgtb_lt. apply Qgtb_lt in E. rewrite H. exact E.
  - apply Qgtb_le. apply Qgtb_le in E. rewrite H. exact E.
Qed.

Lemma calculateServeConfidence_count (stats1 stats2 : ServeStats.t) :
  calculateServeConfidence stats1 stats2
  = Qmin 0.9
      (0.5 + inject_Z (Z.of_nat
               ((if Qgtb (Qabs (ServeStats.firstServeWinRate stats1
                                - ServeStats.firstServeWinRate stats2)) 0.1 then 1 else 0)
                + ((if Qgtb (Qabs (ServeStats.serviceGamesHeld stats1
                                   - ServeStats.serviceGamesHeld stats2)) 0.1 then 1 else 0)
                   + (if Qgtb (Qabs (ServeStats.aceRate stats1 - ServeStats.aceRate stats2)) 0.1
                      then 1 else 0)))%nat) * 0.15).
Proof.
  unfold calculateServeConfidence. cbn [List.filter].
  destruct (Qgtb (Qabs (ServeStats.firstServeWinRate stats1
                        - ServeStats.firstServeWinRate stats2)) 0.1),
    (Qgtb (Qabs (ServeStats.serviceGamesHeld stats1 - ServeStats.serviceGamesHeld stats2)) 0.1),
    (Qgtb (Qabs (ServeStats.aceRate stats1 - ServeStats.aceRate stats2)) 0.1); reflexivity.
Qed.

Ltac pick := first [reflexivity | left; reflexivity | right; pick].

Lemma serve_levels (b1 b2 b3 : bool) :
  let c := Qmin 0.9 (0.5 + inject_Z (Z.of_nat ((if b1 then 1 else 0)
                                               + ((if b2 then 1 else 0)
                                                  + (if b3 then 1 else 0)))%nat) * 0.15) in
  (c == 0.5 \/ c == 0.65 \/ c == 0.8 \/ c == 0.9) /\
  (b3 = false -> c == 0.5 \/ c == 0.65 \/ c == 0.8).
Proof.
  destruct b1, b2, b3; cbv zeta; (split; [pick | intros H; first [discriminate H | pick]]).
Qed.

(** X17: the serve confidence.  It takes one of the values 0.5, 0.65, 0.8
    and 0.9 and does not depend on the order of the two players.  With the
    placeholder statistics the ace rates of two players are never more than
    0.1 apart, so the value 0.9 is out of reach: the record of the serve task
    carries 0.5, 0.65 or 0.8, or 0 when the task failed. *)
Theorem serve_confidence_levels :
  forall (w : World) (m : Match.t) (player1 player2 : Player.t)
         (stats1 stats2 : ServeStats.t),
    (forall playerId, unitDraws (random w playerId)) ->
    let c := calculateServeConfidence stats1 stats2 in
    let served := Result.confidence (analyzeServePerformance w m player1 player2) in
    (c == 0.5 \/ c == 0.65 \/ c == 0.8 \/ c == 0.9) /\
    calculateServeConfidence stats2 stats1 = c /\
    (served == 0 \/ served == 0.5 \/ served == 0.65 \/ served == 0.8).
Proof.
  intros w m player1 player2 stats1 stats2 Hdraws c served.
  split; [|split].
  - unfold c. rewrite calculateServeConfidence_count. apply serve_levels.
  - unfold c. rewrite !calculateServeConfidence_count.
    rewrite (Qgtb_wd _ _ 0.1 (Qabs_swap (ServeStats.firstServeWinRate stats2)
                                        (ServeStats.firstServeWinRate stats1))).
    rewrite (Qgtb_wd _ _ 0.1 (Qabs_swap (ServeStats.serviceGamesHeld stats2)
                                        (ServeStats.serviceGamesHeld stats1))).
    rewrite (Qgtb_wd _ _ 0.1 (Qabs_swap (ServeStats.aceRate stats2)
                                        (ServeStats.aceRate stats1))).
    reflexivity.
  - unfold served, analyzeServePerformance, aiTaskWith, aiBody. cbn [bindRes].
    match goal with |- context [complete w ?f ?d] => destruct (complete w f d) end;
      cbn [tryCatch Result.confidence errorRecord servePerformance errorConfidence
           gatheredConfidence]; [|left; reflexivity].
    right. rewrite calculateServeConfidence_count.
    assert (Hace : Qgtb (Qabs (ServeStats.aceRate
                                 (getPlayerServeStats (random w (Player.id player1))
                                    (Player.id player1) (Match.surface m))
                               - ServeStats.aceRate
                                   (getPlayerServeStats (random w (Player.id player2))
                                      (Player.id player2) (Match.surface m)))) 0.1 = false).
    { apply Qgtb_le. cbn [getPlayerServeStats ServeStats.aceRate].
      destruct (Hdraws (Player.id player1) 3%nat) as [H1 H2].
      destruct (Hdraws (Player.id player2) 3%nat) as [H3 H4].
      apply Qlt_le_weak.
      apply (Qlt_le_trans _ 0.10); [|unfold Qle; simpl; lia].
      apply Qabs_diff_lt; try assumption; reflexivity. }
    apply serve_levels. exact Hace.
Qed.

Lemma serve_confidence_levels_witness :
  Result.confidence (analyzeServePerformance (answeringWorld "**Advantage Player 1**")
                                             final alice bob) == 0.8.
Proof.
  destruct (serve_confidence_levels (answeringWorld "**Advantage Player 1**") final alice bob
              (getPlayerServeStats (fun _ => 0) "p-1" "clay")
              (getPlayerServeStats (fun _ => 0) "p-2" "clay")) as [_ [_ H]].
  - intros playerId i. cbn [answeringWorld random].
    destruct (String.eqb playerId "p-1"); split; (discriminate || reflexivity).
  - destruct H as [H|[H|[H|H]]]; [vm_compute in H; discriminate H ..|exact H].
Defined.


Lemma Qfloor_lt (x : Q) (z : Z) : x < inject_Z z -> (Qfloor x < z)%Z.
Proof.
  intros H. rewrite Zlt_Qlt. eapply Qle_lt_trans; [apply Qfloor_le | exact H].
Qed.

Lemma Qfloor_pos (x : Q) : (0 < Qfloor x)%Z <-> 1 <= x.
Proof.
  split.
  - intros H. eapply Qle_trans; [|apply Qfloor_le].
    change 1 with (inject_Z 1). rewrite <- Zle_Qle. lia.
  - intros H. apply Qfloor_resp_le in H. change (Qfloor 1) with 1%Z in H. lia.
Qed.



(** ** Physical condition *)

(** X19: the fitness confidence.  The placeholder status of a player lists
    no injury and zero or one medical timeout, so the confidence of the
    injury task is never the 0.9 of the injury branch: it is 0.75 when one of
    the two draws is at least one half, and 0.5 otherwise. *)
Theorem fitness_confidence_levels :
  forall (fitnessLevel1 fitnessLevel2 : val) (draw1 draw2 : Q),
    0 <= draw1 < 1 -> 0 <= draw2 < 1 ->
    let status1 := getPlayerPhysicalStatus fitnessLevel1 draw1 in
    let status2 := getPlayerPhysicalStatus fitnessLevel2 draw2 in
    In (PhysicalStatus.medicalTimeouts status1) [0; 1]%Z /\
    truthy (PhysicalStatus.fitnessLevel status1) = true /\
    calculateFitnessConfidence status1 status2
    = (if Qle_bool 0.5 draw1 || Qle_bool 0.5 draw2 then 0.75 else 0.5).
Proof.
  intros fitnessLevel1 fitnessLevel2 draw1 draw2 [H1 H2] [H3 H4] status1 status2.
  assert (Hfloor : forall d, 0 <= d -> d < 1 ->
             (0 <= Qfloor (d * 2) <= 1)%Z /\
             (0 <? Qfloor (d * 2))%Z = Qle_bool 0.5 d).
  { intros d Hd0 Hd1. split.
    - split.
      + change 0%Z with (Qfloor 0). apply Qfloor_resp_le. lra.
      + assert (Hlt : (Qfloor (d * 2) < 2)%Z).
        { apply Qfloor_lt. change (inject_Z 2) with 2. lra. }
        lia.
    - destruct (Qle_bool 0.5 d) eqn:E.
      + apply Qle_bool_iff in E. apply Z.ltb_lt. apply Qfloor_pos. lra.
      + apply Z.ltb_ge.
        destruct (Z_lt_le_dec 0 (Qfloor (d * 2))) as [Hpos|Hle]; [|exact Hle].
        apply Qfloor_pos in Hpos.
        assert (Hhalf : 0.5 <= d) by lra.
        apply Qle_bool_iff in Hhalf. congruence. }
  destruct (Hfloor draw1 H1 H2) as [Hr1 Hb1]. destruct (Hfloor draw2 H3 H4) as [Hr2 Hb2].
  split; [|split].
  - unfold status1. cbn [getPlayerPhysicalStatus PhysicalStatus.medicalTimeouts In].
    lia.
  - unfold status1. cbn [getPlayerPhysicalStatus PhysicalStatus.fitnessLevel].
    unfold or. destruct (truthy fitnessLevel1) eqn:E; [exact E | reflexivity].
  - unfold calculateFitnessConfidence, status1, status2.
    cbn [getPlayerPhysicalStatus PhysicalStatus.recentInjuries
         PhysicalStatus.medicalTimeouts length Nat.ltb Nat.leb orb].
    rewrite Hb1, Hb2. reflexivity.
Qed.

Lemma fitness_confidence_levels_witness :
  calculateFitnessConfidence (getPlayerPhysicalStatus VUndefined 0.2)
                             (getPlayerPhysicalStatus (VStr "excellent") 0.7) = 0.75.
Proof.
  refine (proj2 (proj2 (fitness_confidence_levels VUndefined (VStr "excellent") 0.2 0.7 _ _)));
    split; (discriminate || reflexivity).
Defined.

(** X20: career stage and physical prime.  For an age in whole years, a
    player in the stage "Prime" is in the physical prime, and a player in the
    physical prime is in one of the stages "Developing" and "Prime"; at 23
    and 24 a player is in the physical prime while still "Developing". *)
Theorem prime_stage_in_physical_prime :
  forall age : Z,
    (determineCareerStage (inject_Z age) = "Prime" -> isInPhysicalPrime (inject_Z age) = true) /\
    (isInPhysicalPrime (inject_Z age) = true ->
     In (determineCareerStage (inject_Z age)) ["Developing"; "Prime"]) /\
    (isInPhysicalPrime (inject_Z age) = true /\
     determineCareerStage (inject_Z age) = "Developing" <-> (age = 23 \/ age = 24)%Z).
Proof.
  intros age.
  assert (Hlt : forall k : Z, Qltb (inject_Z age) (inject_Z k) = (age <? k)%Z).
  { intros k. destruct (age <? k)%Z eqn:E.
    - apply Qltb_lt. rewrite <- Zlt_Qlt. apply Z.ltb_lt. exact E.
    - apply Qltb_ge. rewrite <- Zle_Qle. apply Z.ltb_ge. exact E. }
  assert (Hprime : isInPhysicalPrime (inject_Z age) = (23 <=? age)%Z && (age <=? 29)%Z).
  { unfold isInPhysicalPrime. f_equal.
    - destruct (23 <=? age)%Z eqn:E.
      + apply Qle_bool_iff. change 23 with (inject_Z 23). rewrite <- Zle_Qle.
        apply Z.leb_le. exact E.
      + destruct (Qle_bool 23 (inject_Z age)) eqn:E'; [|reflexivity].
        apply Qle_bool_iff in E'. change 23 with (inject_Z 23) in E'.
        rewrite <- Zle_Qle in E'. apply Z.leb_gt in E. lia.
    - destruct (age <=? 29)%Z eqn:E.
      + apply Qle_bool_iff. change 29 with (inject_Z 29). rewrite <- Zle_Qle.
        apply Z.leb_le. exact E.
      + destruct (Qle_bool (inject_Z age) 29) eqn:E'; [|reflexivity].
        apply Qle_bool_iff in E'. change 29 with (inject_Z 29) in E'.
        rewrite <- Zle_Qle in E'. apply Z.leb_gt in E. lia. }
  rewrite Hprime. unfold determineCareerStage.
  change 21 with (inject_Z 21). change 25 with (inject_Z 25).
  change 30 with (inject_Z 30). change 33 with (inject_Z 33). rewrite !Hlt.
  destruct (age <? 21)%Z eqn:E21; destruct (age <? 25)%Z eqn:E25;
    destruct (age <? 30)%Z eqn:E30; destruct (age <? 33)%Z eqn:E33;
    destruct (23 <=? age)%Z eqn:E23; destruct (age <=? 29)%Z eqn:E29;
    try (apply Z.ltb_lt in E21); try (apply Z.ltb_ge in E21);
    try (apply Z.ltb_lt in E25); try (apply Z.ltb_ge in E25);
    try (apply Z.ltb_lt in E30); try (apply Z.ltb_ge in E30);
    try (apply Z.ltb_lt in E33); try (apply Z.ltb_ge in E33);
    try (apply Z.leb_le in E23); try (apply Z.leb_gt in E23);
    try (apply Z.leb_le in E29); try (apply Z.leb_gt in E29);
    try (exfalso; lia);
    (split; [intros H; first [discriminate H | reflexivity]|]);
    (split; [intros H; first [discriminate H | simpl; tauto]|]);
    (split; [intros [H H']; first [discriminate H | discriminate H' | lia]
            | intros H; first [exfalso; lia | split; reflexivity]]).
Qed.

Lemma prime_stage_in_physical_prime_witness : isInPhysicalPrime (inject_Z 27) = true.
Proof.
  refine (proj1 (prime_stage_in_physical_prime 27) _). reflexivity.
Defined.

(** ** Head-to-head history *)

Lemma streaksFrom_same (player1Id winner : string) (matches : list H2HMatch.t) :
  List.Forall (fun m => h2hWinner player1Id m = winner) matches ->
  forall n, streaksFrom player1Id (winner, n) matches = [].
Proof.
  induction 1 as [|m matches Hm _ IH]; intros n; [reflexivity|].
  cbn [streaksFrom fst snd]. rewrite Hm, String.eqb_refl. apply IH.
Qed.

Lemma h2hWinner_player (player1Id : string) (m : H2HMatch.t) :
  h2hWinner player1Id m = "player1" \/ h2hWinner player1Id m = "player2".
Proof.
  unfold h2hWinner.
  destruct (isStr (H2HMatch.winner m) "player1");
    [destruct (String.eqb (H2HMatch.player1Id m) player1Id)
    |destruct (String.eqb (H2HMatch.player2Id m) player1Id)]; tauto.
Qed.

Lemma calculateH2HStats_bounds (matches : list H2HMatch.t) (player1Id player2Id : string) :
  let stats := calculateH2HStats matches player1Id player2Id in
  (H2HStats.player1Wins stats + H2HStats.player2Wins stats)%nat = length matches /\
  0 <= H2HStats.player1WinRate stats /\ H2HStats.player1WinRate stats <= 1.
Proof.
  set (won := fun m : H2HMatch.t =>
                String.eqb (H2HMatch.player1Id m) player1Id
                && isStr (H2HMatch.winner m) "player1"
                || String.eqb (H2HMatch.player2Id m) player1Id
                   && isStr (H2HMatch.winner m) "player2").
  pose proof (filter_length_le won matches) as Hle.
  cbv zeta. unfold calculateH2HStats.
  cbn [H2HStats.player1Wins H2HStats.player2Wins H2HStats.player1WinRate]. fold won.
  split; [lia|].
  destruct (0 <? length matches)%nat eqn:E.
  - apply Nat.ltb_lt in E. apply ratio_bounds; [exact Hle | exact E].
  - split; [apply Qle_refl | unfold Qle; simpl; lia].
Qed.

(** X21: head-to-head statistics and what is read into them.  The wins of
    the two players add up to the number of meetings and the win rate of
    player 1 lies between 0 and 1.  The psychological factors never report
    player 2 as dominant, whatever the history, and report player 1 exactly
    when player 1 won more than three quarters of at least four meetings; a
    history in which one player won every meeting has no streak reported,
    because a streak is only recorded when it is broken. *)
Theorem head_to_head_factors :
  forall (matches : list H2HMatch.t) (player1Id player2Id : string),
    let stats := calculateH2HStats matches player1Id player2Id in
    let factors := analyzePsychologicalFactors matches player1Id player2Id in
    (H2HStats.player1Wins stats + H2HStats.player2Wins stats)%nat = length matches /\
    (0 <= H2HStats.player1WinRate stats /\ H2HStats.player1WinRate stats <= 1) /\
    fst factors <> "player2" /\
    (fst factors = "player1" <->
     0.75 < H2HStats.player1WinRate stats /\ (4 <= length matches)%nat) /\
    (forall winner, List.Forall (fun m => h2hWinner player1Id m = winner) matches ->
                    snd factors = []).
Proof.
  intros matches player1Id player2Id stats factors.
  destruct (calculateH2HStats_bounds matches player1Id player2Id) as [Hsum Hrate].
  split; [exact Hsum|]. split; [exact Hrate|]. split; [|split].
  - unfold factors, analyzePsychologicalFactors.
    destruct matches as [|m matches']; [discriminate|]. cbn [fst].
    destruct (Qgtb _ 0.75 && _); cbn [andb]; discriminate.
  - unfold factors, analyzePsychologicalFactors.
    destruct matches as [|m matches'].
    + cbn [fst length]. split; [discriminate | intros [_ H]; lia].
    + cbn [fst andb]. fold stats.
      destruct (Qgtb (H2HStats.player1WinRate stats) 0.75) eqn:Erate;
        destruct (4 <=? length (m :: matches'))%nat eqn:Elen; cbn [andb].
      * apply Qgtb_lt in Erate. apply Nat.leb_le in Elen. tauto.
      * apply Nat.leb_gt in Elen. split; [discriminate | intros [_ H]; lia].
      * apply Qgtb_le in Erate. split; [discriminate | intros [H _]; lra].
      * apply Qgtb_le in Erate. split; [discriminate | intros [H _]; lra].
  - intros winner Hall. unfold factors, analyzePsychologicalFactors.
    destruct matches as [|m matches']; [reflexivity|]. cbn [snd].
    inversion Hall as [|m' ms Hm Hrest]; subst.
    cbn [streaksFrom fst snd].
    destruct (String.eqb (h2hWinner player1Id m) "") eqn:E.
    + apply String.eqb_eq in E. destruct (h2hWinner_player player1Id m); congruence.
    + cbn [Nat.leb app]. apply streaksFrom_same. exact Hrest.
Qed.

Lemma head_to_head_factors_witness :
  let lost := {| H2HMatch.player1Id := "p-2"; H2HMatch.player2Id := "p-1";
                 H2HMatch.winner := VStr "player1" |} in
  snd (analyzePsychologicalFactors [lost; lost; lost; lost; lost] "p-1" "p-2") = [].
Proof.
  intros lost.
  refine (proj2 (proj2 (proj2 (proj2
    (head_to_head_factors [lost; lost; lost; lost; lost] "p-1" "p-2")))) "player2" _).
  repeat constructor.
Defined.

(** X22: the head-to-head confidence.  Over the statistics of a history it
    is 0 exactly when the players never met; otherwise it lies between 0.2
    and 1, and it is 0.2 whenever the meetings are shared evenly. *)
Theorem head_to_head_confidence :
  forall (matches : list H2HMatch.t) (player1Id player2Id : string)
         (surface : H2HStats.t),
    let overall := calculateH2HStats matches player1Id player2Id in
    let confidence := calculateH2HConfidence overall surface in
    (matches = [] -> confidence = 0.0) /\
    (matches <> [] -> 0.2 <= confidence /\ confidence <= 1) /\
    (matches <> [] -> H2HStats.player1WinRate overall == 0.5 -> confidence == 0.2).
Proof.
  intros matches player1Id player2Id surface overall confidence.
  split; [intros ->; reflexivity|].
  assert (Hshape : matches <> [] ->
            confidence
            = Qabs (H2HStats.player1WinRate overall - 0.5) * 2
              * Qmin 1.0 (inject_Z (Z.of_nat (length matches)) / 10) * 0.8 + 0.2).
  { intros Hne. unfold confidence, calculateH2HConfidence.
    unfold overall at 1. cbn [calculateH2HStats H2HStats.totalMatches].
    destruct matches as [|m matches']; [contradiction|]. reflexivity. }
  destruct (calculateH2HStats_bounds matches player1Id player2Id) as [_ [H0 H1]].
  fold overall in H0, H1.
  split.
  - intros Hne. rewrite (Hshape Hne).
    assert (Hdiff : 0 <= Qabs (H2HStats.player1WinRate overall - 0.5) * 2 /\
                    Qabs (H2HStats.player1WinRate overall - 0.5) * 2 <= 1).
    { apply Qabs_case; intros Hsign; split; lra. }
    assert (Hsample : 0 <= Qmin 1.0 (inject_Z (Z.of_nat (length matches)) / 10) /\
                      Qmin 1.0 (inject_Z (Z.of_nat (length matches)) / 10) <= 1).
    { split.
      - apply Q.min_glb; [unfold Qle; simpl; lia|].
        apply Qle_shift_div_l; [reflexivity|]. rewrite Qmult_0_l.
        unfold Qle, inject_Z. simpl. lia.
      - eapply Qle_trans; [apply Q.le_min_l | unfold Qle; simpl; lia]. }
    destruct Hdiff as [Hd0 Hd1]. destruct Hsample as [Hs0 Hs1].
    set (d := Qabs (H2HStats.player1WinRate overall - 0.5) * 2) in *.
    set (s := Qmin 1.0 (inject_Z (Z.of_nat (length matches)) / 10)) in *.
    split; nra.
  - intros Hne Hhalf. rewrite (Hshape Hne).
    assert (Hzero : Qabs (H2HStats.player1WinRate overall - 0.5) == 0).
    { rewrite Hhalf. reflexivity. }
    rewrite Hzero. ring.
Qed.

Lemma head_to_head_confidence_witness :
  calculateH2HConfidence
    (calculateH2HStats
       [ {| H2HMatch.player1Id := "p-1"; H2HMatch.player2Id := "p-2";
            H2HMatch.winner := VStr "player1" |};
         {| H2HMatch.player1Id := "p-1"; H2HMatch.player2Id := "p-2";
            H2HMatch.winner := VStr "player2" |} ] "p-1" "p-2")
    (calculateH2HStats [] "p-1" "p-2") == 0.2.
Proof.
  refine (proj2 (proj2 (head_to_head_confidence _ "p-1" "p-2" _)) _ _).
  - discriminate.
  - reflexivity.
Defined.

(** ** Data coverage *)

Lemma sum_confidence_bounds (agentResults : list Result.t) :
  List.Forall (fun r => 0 <= Result.confidence r /\ Result.confidence r <= 1) agentResults ->
  forall sum,
    sum <= fold_left (fun sum r => sum + Result.confidence r) agentResults sum /\
    fold_left (fun sum r => sum + Result.confidence r) agentResults sum
    <= sum + inject_Z (Z.of_nat (length agentResults)).
Proof.
  induction 1 as [|r rs [Hr0 Hr1] _ IH]; intros sum.
  - cbn [fold_left length]. change (inject_Z (Z.of_nat 0)) with 0. split; lra.
  - cbn [fold_left length]. destruct (IH (sum + Result.confidence r)) as [IH1 IH2].
    split; [lra|].
    rewrite Nat2Z.inj_succ, <- Z.add_1_r, inject_Z_plus. change (inject_Z 1) with 1. lra.
Qed.

(** X23: data coverage and reliability.  The error record of a task counts
    as a completed factor exactly for the four tasks whose error record
    carries a confidence above 0.1: the environment, injury, news and
    data-gap tasks; every other failed task lowers the coverage.  Over at
    most seventeen records with confidences between 0 and 1 the coverage and
    the reliability score lie between 0 and 1. *)
Theorem coverage_counts_error_records :
  forall (w : World) (t : Task)
         (f : World -> Match.t -> Player.t -> Player.t -> list val -> Result.t)
         (agentResults : list Result.t),
    In (t, f) taskFunctions ->
    (completedFactor (errorRecord w t) = true <->
     In (taskAgentName t) ["Environment Analyst"; "Injury & Fitness Status Monitor";
                           "News Monitor"; "Data Gaps & Uncertainty Reporter"]) /\
    ((length agentResults <= 17)%nat ->
     List.Forall (fun r => 0 <= Result.confidence r /\ Result.confidence r <= 1)
                 agentResults ->
     (0 <= calculateDataCoverage agentResults /\ calculateDataCoverage agentResults <= 1) /\
     (0 <= calculateReliabilityScore agentResults /\
      calculateReliabilityScore agentResults <= 1)).
Proof.
  intros w t f agentResults Hin. split.
  - simpl in Hin.
    repeat (destruct Hin as [Heq|Hin];
            [injection Heq as <- _; vm_compute; split; intros H;
             first [discriminate H | reflexivity | tauto
                   | repeat (destruct H as [H|H]; try discriminate H); contradiction]|]).
    contradiction.
  - intros Hlen Hall.
    assert (Hcov : 0 <= calculateDataCoverage agentResults /\
                   calculateDataCoverage agentResults <= 1).
    { unfold calculateDataCoverage.
      pose proof (filter_length_le completedFactor agentResults) as Hle.
      split.
      - apply Qle_shift_div_l; [reflexivity|]. rewrite Qmult_0_l.
        unfold Qle, inject_Z. simpl. lia.
      - apply Qle_shift_div_r; [reflexivity|]. rewrite Qmult_1_l.
        change 17 with (inject_Z 17). rewrite <- Zle_Qle. lia. }
    split; [exact Hcov|].
    unfold calculateReliabilityScore.
    destruct agentResults as [|r rs] eqn:E; [split; [apply Qle_refl | unfold Qle; simpl; lia]|].
    rewrite <- E in *.
    destruct (sum_confidence_bounds agentResults Hall 0) as [Hs0 Hs1].
    set (total := fold_left (fun sum r => sum + Result.confidence r) agentResults 0) in *.
    assert (Hn : 0 < inject_Z (Z.of_nat (length agentResults))).
    { rewrite E. unfold Qlt, inject_Z. simpl. lia. }
    assert (Havg : 0 <= total / inject_Z (Z.of_nat (length agentResults)) /\
                   total / inject_Z (Z.of_nat (length agentResults)) <= 1).
    { split.
      - apply Qle_shift_div_l; [exact Hn | lra].
      - apply Qle_shift_div_r; [exact Hn | lra]. }
    destruct Hcov as [Hc0 Hc1]. destruct Havg as [Ha0 Ha1]. split; lra.
Qed.

Lemma coverage_counts_error_records_witness :
  completedFactor (errorRecord (failingWorld "no key" 3) injuryFitnessStatus) = true.
Proof.
  refine (proj2 (proj1 (coverage_counts_error_records (failingWorld "no key" 3)
                          injuryFitnessStatus
                          (fun w m player1 player2 _ =>
                             analyzeInjuryFitnessStatus w m player1 player2) [] _)) _).
  - simpl. tauto.
  - simpl. tauto.
Defined.

End HelperProperties.

(** ** The WebSocket relay *)

Lemma relayRun_app (es es' : list RelayEvent) :
  relayRun (es ++ es')%list = fold_left relayStep es' (relayRun es).
Proof. unfold relayRun. apply fold_left_app. Qed.

Lemma relayRun_snoc (es : list RelayEvent) (e : RelayEvent) :
  relayRun (es ++ [e])%list = relayStep (relayRun es) e.
Proof. rewrite relayRun_app. reflexivity. Qed.

Lemma broadcast_lookup (channel : string) (data : val) (relay : Relay) (ws : nat) :
  connections (broadcastToSubscribers channel data relay) !! ws
  = (fun client =>
       if bool_decide (clients relay !! Client.id client = Some ws)
          && bool_decide (channel ∈ Client.subscriptions client)
       then send (channelFrame channel data) client
       else client) <$> connections relay !! ws.
Proof.
  unfold broadcastToSubscribers. cbn [connections].
  rewrite map_lookup_imap. destruct (connections relay !! ws); reflexivity.
Qed.






(** Connection [ws] is open under the id [clientId] and subscribed to
    [channel]. *)
Lemma onConnection_new (clientId : string) (relay : Relay) :
  exists client,
    connections (onConnection clientId relay) !! accepted relay = Some client /\
    Client.id client = clientId /\ Client.readyState client = OPEN.
Proof.
  unfold onConnection. cbn [connections]. rewrite lookup_insert_eq.
  eexists. split; [reflexivity|]. split; reflexivity.
Qed.

Lemma onMessage_subscribe (ws : nat) (channel : string) (relay : Relay) (client : Client.t) :
  connections relay !! ws = Some client ->
  Client.readyState client = OPEN ->
  clients (onMessage ws (subscribeTo channel) relay) = clients relay /\
  accepted (onMessage ws (subscribeTo channel) relay) = accepted relay /\
  (forall ws', ws' <> ws ->
               connections (onMessage ws (subscribeTo channel) relay) !! ws'
               = connections relay !! ws') /\
  exists client',
    connections (onMessage ws (subscribeTo channel) relay) !! ws = Some client' /\
    Client.id client' = Client.id client /\ Client.readyState client' = OPEN /\
    channel ∈ Client.subscriptions client'.
Proof.
  intros H Hopen. unfold onMessage, subscribeTo. rewrite H.
  cbn [get lookupProp isStr String.eqb Ascii.eqb Bool.eqb channelOf connections clients
       accepted].
  split; [reflexivity|]. split; [reflexivity|]. split.
  - intros ws' Hne. apply lookup_insert_ne. congruence.
  - rewrite lookup_insert_eq. eexists. split; [reflexivity|].
    unfold send, withSubscriptions. cbn [Client.readyState]. rewrite Hopen.
    cbn. repeat split; try assumption. set_solver.
Qed.

(** The relay after two clients have connected and subscribed to [channel]. *)
Lemma two_subscribers (relay : Relay) (id1 id2 channel : string) :
  let h := accepted relay in
  let relay' :=
    fold_left relayStep
      [ ClientConnected id1; FrameReceived h (subscribeTo channel);
        ClientConnected id2; FrameReceived (S h) (subscribeTo channel) ] relay in
  exists client1 client2,
    connections relay' !! h = Some client1 /\
    connections relay' !! S h = Some client2 /\
    Client.id client1 = id1 /\ Client.id client2 = id2 /\
    Client.readyState client1 = OPEN /\ Client.readyState client2 = OPEN /\
    channel ∈ Client.subscriptions client1 /\ channel ∈ Client.subscriptions client2 /\
    clients relay' = <[ id2 := S h ]> (<[ id1 := h ]> (clients relay)).
Proof.
  intros h relay'. unfold relay'. cbn [fold_left relayStep].
  destruct (onConnection_new id1 relay) as [c1 [Hc1 [Hi1 Ho1]]]. fold h in Hc1.
  set (r1 := onConnection id1 relay) in *.
  destruct (onMessage_subscribe h channel r1 c1 Hc1 Ho1)
    as [Hcl2 [Hacc2 [_ [c1' [Hc1' [Hi1' [Ho1' Hs1']]]]]]].
  set (r2 := onMessage h (subscribeTo channel) r1) in *.
  assert (Hr2 : accepted r2 = S h) by (rewrite Hacc2; reflexivity).
  destruct (onConnection_new id2 r2) as [c2 [Hc2 [Hi2 Ho2]]]. rewrite Hr2 in Hc2.
  assert (Hold3 : connections (onConnection id2 r2) !! h = Some c1').
  { unfold onConnection. cbn [connections]. rewrite Hr2.
    rewrite lookup_insert_ne by lia. exact Hc1'. }
  assert (Hcl3 : clients (onConnection id2 r2) = <[ id2 := S h ]> (<[ id1 := h ]> (clients relay))).
  { unfold onConnection at 1. cbn [clients]. rewrite Hr2, Hcl2. reflexivity. }
  set (r3 := onConnection id2 r2) in *.
  destruct (onMessage_subscribe (S h) channel r3 c2 Hc2 Ho2)
    as [Hcl4 [_ [Hother4 [c2' [Hc2' [Hi2' [Ho2' Hs2']]]]]]].
  exists c1', c2'.
  split; [rewrite Hother4 by lia; exact Hold3|].
  split; [exact Hc2'|].
  split; [congruence|]. split; [congruence|].
  split; [exact Ho1'|]. split; [exact Ho2'|].
  split; [exact Hs1'|]. split; [exact Hs2'|].
  rewrite Hcl4. exact Hcl3.
Qed.

(** X25: client ids are drawn at random and a second client that draws the
    id of a connected one takes its place in the [clients] map.  From then
    on the first client, though still open and subscribed, gets no
    broadcast, while the second does; and when the first one disconnects,
    its close handler removes the entry of the second, which then gets no
    broadcast either.  Two clients with different ids both get the
    broadcast. *)
Theorem client_id_collision :
  forall (es : list RelayEvent) (id1 id2 channel : string) (data : val),
    let h := accepted (relayRun es) in
    let subscribed :=
      (es ++ [ ClientConnected id1; FrameReceived h (subscribeTo channel);
               ClientConnected id2; FrameReceived (S h) (subscribeTo channel) ])%list in
    let before := relayRun subscribed in
    let after := relayRun (subscribed ++ [Broadcasted channel data])%list in
    let afterClose :=
      relayRun (subscribed ++ [SocketClosed h; Broadcasted channel data])%list in
    framesOf after (S h) = (framesOf before (S h) ++ [channelFrame channel data])%list /\
    (id1 = id2 ->
     framesOf after h = framesOf before h /\
     framesOf afterClose (S h) = framesOf before (S h)) /\
    (id1 <> id2 ->
     framesOf after h = (framesOf before h ++ [channelFrame channel data])%list /\
     framesOf afterClose (S h)
     = (framesOf before (S h) ++ [channelFrame channel data])%list).
Proof.
  intros es id1 id2 channel data h subscribed before after afterClose.
  destruct (two_subscribers (relayRun es) id1 id2 channel)
    as [client1 [client2 [H1 [H2 [Hid1 [Hid2 [Ho1 [Ho2 [Hs1 [Hs2 Hclients]]]]]]]]]].
  fold h in H1, H2, Hclients.
  assert (Hbefore : before
                    = fold_left relayStep
                        [ ClientConnected id1; FrameReceived h (subscribeTo channel);
                          ClientConnected id2; FrameReceived (S h) (subscribeTo channel) ]
                        (relayRun es)).
  { unfold before, subscribed. apply relayRun_app. }
  rewrite <- Hbefore in H1, H2, Hclients.
  assert (Hafter : after = broadcastToSubscribers channel data before).
  { unfold after. rewrite relayRun_snoc. reflexivity. }
  assert (HafterClose : afterClose
                        = broadcastToSubscribers channel data (onClose h before)).
  { unfold afterClose. rewrite relayRun_app. reflexivity. }
  assert (Hsend : forall client, Client.readyState client = OPEN ->
                    Client.sent (send (channelFrame channel data) client)
                    = (Client.sent client ++ [channelFrame channel data])%list).
  { intros client Hopen. unfold send. rewrite Hopen. reflexivity. }
  split; [|split].
  - unfold framesOf. rewrite Hafter, broadcast_lookup, H2. cbn [fmap option_fmap option_map].
    rewrite Hclients, Hid2, lookup_insert_eq.
    rewrite !bool_decide_eq_true_2 by (reflexivity || exact Hs2). cbn [andb].
    apply Hsend, Ho2.
  - intros <-. split.
    + unfold framesOf. rewrite Hafter, broadcast_lookup, H1. cbn [fmap option_fmap option_map].
      rewrite Hclients, Hid1, lookup_insert_eq.
      rewrite (bool_decide_eq_false_2 (Some (S h) = Some h)) by (intros H; injection H; lia).
      reflexivity.
    + unfold framesOf. rewrite HafterClose, broadcast_lookup.
      unfold onClose. rewrite H1. cbn [connections clients].
      rewrite lookup_insert_ne by lia. rewrite H2. cbn [fmap option_fmap option_map].
      rewrite Hclients, Hid1, Hid2, lookup_delete_eq.
      rewrite (bool_decide_eq_false_2 (None = Some (S h))) by discriminate.
      reflexivity.
  - intros Hne. split.
    + unfold framesOf. rewrite Hafter, broadcast_lookup, H1. cbn [fmap option_fmap option_map].
      rewrite Hclients, Hid1, lookup_insert_ne by congruence. rewrite lookup_insert_eq.
      rewrite !bool_decide_eq_true_2 by (reflexivity || exact Hs1). cbn [andb].
      apply Hsend, Ho1.
    + unfold framesOf. rewrite HafterClose, broadcast_lookup.
      unfold onClose. rewrite H1. cbn [connections clients].
      rewrite lookup_insert_ne by lia. rewrite H2. cbn [fmap option_fmap option_map].
      rewrite Hclients, Hid1, Hid2, lookup_delete_ne by congruence.
      rewrite lookup_insert_eq.
      rewrite !bool_decide_eq_true_2 by (reflexivity || exact Hs2). cbn [andb].
      apply Hsend, Ho2.
Qed.

Lemma client_id_collision_witness :
  framesOf (relayRun [ ClientConnected "abc"; FrameReceived 0 (subscribeTo "agents:status");
                       ClientConnected "abc"; FrameReceived 1 (subscribeTo "agents:status");
                       SocketClosed 0; Broadcasted "agents:status" VNull ]) 1
  = framesOf (relayRun [ ClientConnected "abc"; FrameReceived 0 (subscribeTo "agents:status");
                         ClientConnected "abc";
                         FrameReceived 1 (subscribeTo "agents:status") ]) 1.
Proof.
  exact (proj2 (proj1 (proj2 (client_id_collision [] "abc" "abc" "agents:status" VNull))
                      eq_refl)).
Defined.

(** ** The completion client *)



